(** * Contract field extraction (app.py): a shallow embedding

    The development follows the layout of [app.py]:
    - Python strings and the string methods the program calls;
    - the part of the Unicode character database the program consults
      through [re] and [str] (a parameter, fixed on U+0000..U+00FF);
    - a backtracking matcher for the regular-expression constructs that
      occur in the pattern table of [analizar_contrato];
    - [extraer_texto_con_ocr], [analizar_contrato], [process_files] and
      [download_excel]. *)

From Stdlib Require Import NArith Ascii String.
From stdpp Require Import base option list gmap strings.

Open Scope N_scope.

(** ** Python strings *)

(** A Python [str] is a sequence of Unicode code points. *)
Abbreviation str := (list N).

(** A [bytes] object; the program only hands them to libraries. *)
Abbreviation bytes := (list Byte.byte).

Module Py.

(** An ASCII literal as a [str]. *)
Definition py (s : string) : str :=
  map N_of_ascii (list_ascii_of_string s).

(** [s.endswith(suf)] and [s.startswith(pre)]: exact comparison of code
    points. *)
Fixpoint startswith (s pre : str) : bool :=
  match pre, s with
  | [], _ => true
  | p :: pre', c :: s' => (c =? p) && startswith s' pre'
  | _ :: _, [] => false
  end.

Definition endswith (s suf : str) : bool :=
  startswith (rev s) (rev suf).

(** [sep.join(parts)]. *)
Fixpoint join (sep : str) (parts : list str) : str :=
  match parts with
  | [] => []
  | [p] => p
  | p :: rest => p ++ sep ++ join sep rest
  end.

Section Whitespace.
(** [isspace] is the interpreter's whitespace test on one code point. *)
Variable isspace : N -> bool.

Fixpoint lstrip (s : str) : str :=
  match s with
  | c :: s' => if isspace c then lstrip s' else s
  | [] => []
  end.

Definition rstrip (s : str) : str := rev (lstrip (rev s)).

(** [s.strip()] *)
Definition strip (s : str) : str := rstrip (lstrip s).

(** [s.split()] with no separator: the maximal runs of characters that
    are not whitespace, in order.  [cur] is the word being read, kept in
    reverse. *)
Fixpoint split_aux (cur : str) (s : str) : list str :=
  match s with
  | [] => match cur with [] => [] | _ => [rev cur] end
  | c :: s' =>
      if isspace c
      then match cur with
           | [] => split_aux [] s'
           | _ => rev cur :: split_aux [] s'
           end
      else split_aux (c :: cur) s'
  end.

Definition split (s : str) : list str := split_aux [] s.
End Whitespace.

(** [str(n)] for a non-negative integer. *)
Fixpoint digits_of_uint (d : Decimal.uint) : str :=
  match d with
  | Decimal.Nil => []
  | Decimal.D0 d => 48 :: digits_of_uint d
  | Decimal.D1 d => 49 :: digits_of_uint d
  | Decimal.D2 d => 50 :: digits_of_uint d
  | Decimal.D3 d => 51 :: digits_of_uint d
  | Decimal.D4 d => 52 :: digits_of_uint d
  | Decimal.D5 d => 53 :: digits_of_uint d
  | Decimal.D6 d => 54 :: digits_of_uint d
  | Decimal.D7 d => 55 :: digits_of_uint d
  | Decimal.D8 d => 56 :: digits_of_uint d
  | Decimal.D9 d => 57 :: digits_of_uint d
  end.

Definition str_of_nat (n : nat) : str := digits_of_uint (Nat.to_uint n).

End Py.

Export Py.

(** ** The Unicode tables behind [re] and [str] *)

Module Unicode.

(** What the interpreter's character database answers for one code point
    ([Py_UNICODE_TOLOWER], [_sre.unicode_iscased], [Py_UNICODE_ISSPACE],
    [Py_UNICODE_ISALNUM], [Py_UNICODE_ISDECIMAL]) and [str.lower]. *)
Record db := {
  tolower : N -> N;
  iscased : N -> bool;
  isspace : N -> bool;
  isalnum : N -> bool;
  isdecimal : N -> bool;
  str_lower : str -> str
}.

Definition entre (a b c : N) : bool := (a <=? c) && (c <=? b).

(** The tables on Basic Latin and Latin-1 Supplement. *)
Definition latin1_tolower (c : N) : N :=
  if entre 65 90 c || entre 192 214 c || entre 216 222 c then c + 32 else c.

Definition latin1_iscased (c : N) : bool :=
  entre 65 90 c || entre 97 122 c || (c =? 181)
  || entre 192 214 c || entre 216 246 c || entre 248 255 c.

Definition latin1_isspace (c : N) : bool :=
  entre 9 13 c || entre 28 32 c || (c =? 133) || (c =? 160).

Definition latin1_isdecimal (c : N) : bool := entre 48 57 c.

Definition latin1_isalnum (c : N) : bool :=
  entre 48 57 c || entre 65 90 c || entre 97 122 c
  || (c =? 170) || (c =? 178) || (c =? 179) || (c =? 181) || (c =? 185)
  || (c =? 186) || entre 188 190 c
  || entre 192 214 c || entre 216 246 c || entre 248 255 c.

Definition latin1 : db := {|
  tolower := latin1_tolower;
  iscased := latin1_iscased;
  isspace := latin1_isspace;
  isalnum := latin1_isalnum;
  isdecimal := latin1_isdecimal;
  str_lower := map latin1_tolower
|}.

(** A database that answers as Unicode does on U+0000..U+00FF. *)
Record agrees_on_latin1 (U : db) : Prop := {
  agree_tolower : forall c, c < 256 -> tolower U c = latin1_tolower c;
  agree_iscased : forall c, c < 256 -> iscased U c = latin1_iscased c;
  agree_isspace : forall c, c < 256 -> isspace U c = latin1_isspace c;
  agree_isalnum : forall c, c < 256 -> isalnum U c = latin1_isalnum c;
  agree_isdecimal : forall c, c < 256 -> isdecimal U c = latin1_isdecimal c;
  agree_str_lower : forall s, Forall (fun c => c < 256) s ->
                              str_lower U s = map latin1_tolower s
}.

End Unicode.

(** ** Regular expressions: the constructs of the pattern table

    [re.search(patron, texto, re.IGNORECASE | re.DOTALL)] on a [str]
    pattern: Unicode matching, case-insensitive, [.] matches every
    character.  The syntax tree is the one the [re] parser builds for
    the twelve patterns; the matcher follows the backtracking order of
    the engine (alternatives left to right, greedy repeats longest
    first, lazy repeats shortest first, leftmost start wins). *)

Module Re.
Import Unicode.

Inductive categoria :=
| CATEGORY_SPACE | CATEGORY_NOT_SPACE | CATEGORY_WORD | CATEGORY_DIGIT.

(** A member of a character set [[...]]. *)
Inductive miembro :=
| M_LITERAL (c : N)
| M_CATEGORY (cat : categoria).

(** Patterns that consume exactly one character. *)
Inductive unidad :=
| LITERAL (c : N)
| NOT_LITERAL (c : N)
| ANY
| IN (items : list miembro).

Inductive regex :=
| Vacio                                              (* empty sequence *)
| Uno (u : unidad)
| Sec (r1 r2 : regex)                                (* r1 r2 *)
| BRANCH (r1 r2 : regex)                             (* r1|r2 *)
| MAX_REPEAT (lo : nat) (hi : option nat) (u : unidad)  (* u{lo,hi} *)
| MIN_REPEAT (lo : nat) (hi : option nat) (u : unidad)  (* u{lo,hi}? *)
| MAX_REPEAT_0_1 (r : regex)                         (* (?:r)? *)
| SUBPATTERN (grupo : nat) (r : regex)               (* (r), numbered from 1 *)
| ASSERT (r : regex).                                (* (?=r) *)

(** *** Compilation under IGNORECASE | UNICODE *)

(** [_casefix._EXTRA_CASES]: other lower-case characters with the same
    upper case. *)
Definition EXTRA_CASES (lo : N) : list N :=
  match lo with
  | 0x69 => [0x131] | 0x73 => [0x17f] | 0xb5 => [0x3bc]
  | 0x131 => [0x69] | 0x17f => [0x73]
  | 0x345 => [0x3b9; 0x1fbe] | 0x390 => [0x1fd3] | 0x3b0 => [0x1fe3]
  | 0x3b2 => [0x3d0] | 0x3b5 => [0x3f5] | 0x3b8 => [0x3d1]
  | 0x3b9 => [0x345; 0x1fbe] | 0x3ba => [0x3f0] | 0x3bc => [0xb5]
  | 0x3c0 => [0x3d6] | 0x3c1 => [0x3f1] | 0x3c2 => [0x3c3]
  | 0x3c3 => [0x3c2] | 0x3c6 => [0x3d5] | 0x3d0 => [0x3b2]
  | 0x3d1 => [0x3b8] | 0x3d5 => [0x3c6] | 0x3d6 => [0x3c0]
  | 0x3f0 => [0x3ba] | 0x3f1 => [0x3c1] | 0x3f5 => [0x3b5]
  | 0x432 => [0x1c80] | 0x434 => [0x1c81] | 0x43e => [0x1c82]
  | 0x441 => [0x1c83] | 0x442 => [0x1c84; 0x1c85] | 0x44a => [0x1c86]
  | 0x463 => [0x1c87] | 0x1c80 => [0x432] | 0x1c81 => [0x434]
  | 0x1c82 => [0x43e] | 0x1c83 => [0x441] | 0x1c84 => [0x442; 0x1c85]
  | 0x1c85 => [0x442; 0x1c84] | 0x1c86 => [0x44a] | 0x1c87 => [0x463]
  | 0x1c88 => [0xa64b] | 0x1e61 => [0x1e9b] | 0x1e9b => [0x1e61]
  | 0x1fbe => [0x345; 0x3b9] | 0x1fd3 => [0x390] | 0x1fe3 => [0x3b0]
  | 0xa64b => [0x1c88] | 0xfb05 => [0xfb06] | 0xfb06 => [0xfb05]
  | _ => []
  end.

(** Compiled one-character tests.  [sobre_lower] says whether the test
    reads the character itself or its lower case (the [*_UNI_IGNORE]
    opcodes). *)
Record prueba := {
  sobre_lower : bool;
  negada : bool;
  literales : list N;
  categorias : list categoria;
  cualquiera : bool                                  (* ANY_ALL *)
}.

Inductive codigo :=
| C_Vacio
| C_Uno (p : prueba)
| C_Sec (c1 c2 : codigo)
| C_BRANCH (c1 c2 : codigo)
| C_REPEAT_ONE (lo : nat) (hi : option nat) (p : prueba)
| C_MIN_REPEAT_ONE (lo : nat) (hi : option nat) (p : prueba)
| C_REPEAT_0_1 (c : codigo)
| C_MARK (grupo : nat) (c : codigo)
| C_ASSERT (c : codigo).

Section Compile.
Variable U : db.

(** One literal: kept as it is when it has no case; otherwise compared
    in lower case, together with its extra cases. *)
Definition compile_literal (neg : bool) (av : N) : prueba :=
  if iscased U av
  then let lo := tolower U av in
       {| sobre_lower := true; negada := neg;
          literales := lo :: EXTRA_CASES lo;
          categorias := []; cualquiera := false |}
  else {| sobre_lower := false; negada := neg;
          literales := [av]; categorias := []; cualquiera := false |}.

(** [_optimize_charset]: literals are lowered and extended by their
    extra cases; the set is read on the lower-cased character as soon
    as one literal has case. *)
Definition charset_literales (items : list miembro) : list N :=
  flat_map (fun it => match it with
                      | M_LITERAL av =>
                          let lo := tolower U av in lo :: EXTRA_CASES lo
                      | M_CATEGORY _ => []
                      end) items.

Definition charset_categorias (items : list miembro) : list categoria :=
  flat_map (fun it => match it with
                      | M_LITERAL _ => []
                      | M_CATEGORY cat => [cat]
                      end) items.

Definition hascased (items : list miembro) : bool :=
  existsb (fun it => match it with
                     | M_LITERAL av => iscased U av
                     | M_CATEGORY _ => false
                     end) items.

Definition compile_unidad (u : unidad) : prueba :=
  match u with
  | LITERAL av => compile_literal false av
  | NOT_LITERAL av => compile_literal true av
  | ANY => {| sobre_lower := false; negada := false; literales := [];
              categorias := []; cualquiera := true |}
  | IN items =>
      {| sobre_lower := hascased items; negada := false;
         literales := charset_literales items;
         categorias := charset_categorias items; cualquiera := false |}
  end.

Fixpoint compile (r : regex) : codigo :=
  match r with
  | Vacio => C_Vacio
  | Uno u => C_Uno (compile_unidad u)
  | Sec r1 r2 => C_Sec (compile r1) (compile r2)
  | BRANCH r1 r2 => C_BRANCH (compile r1) (compile r2)
  | MAX_REPEAT lo hi u => C_REPEAT_ONE lo hi (compile_unidad u)
  | MIN_REPEAT lo hi u => C_MIN_REPEAT_ONE lo hi (compile_unidad u)
  | MAX_REPEAT_0_1 r => C_REPEAT_0_1 (compile r)
  | SUBPATTERN g r => C_MARK g (compile r)
  | ASSERT r => C_ASSERT (compile r)
  end.
End Compile.

(** *** Matching *)

(** A character of the subject string with what the tables say about it
    and about its lower case. *)
Record caracter := {
  ch : N;
  ch_lower : N;
  ch_space : bool; ch_alnum : bool; ch_decimal : bool;
  lower_space : bool; lower_alnum : bool; lower_decimal : bool
}.

Definition leer (U : db) (c : N) : caracter :=
  let lo := tolower U c in
  {| ch := c; ch_lower := lo;
     ch_space := isspace U c; ch_alnum := isalnum U c;
     ch_decimal := isdecimal U c;
     lower_space := isspace U lo; lower_alnum := isalnum U lo;
     lower_decimal := isdecimal U lo |}.

Definition en_categoria (de_lower : bool) (x : caracter) (cat : categoria)
  : bool :=
  let code := if de_lower then ch_lower x else ch x in
  let space := if de_lower then lower_space x else ch_space x in
  let alnum := if de_lower then lower_alnum x else ch_alnum x in
  let decimal := if de_lower then lower_decimal x else ch_decimal x in
  match cat with
  | CATEGORY_SPACE => space
  | CATEGORY_NOT_SPACE => negb space
  | CATEGORY_WORD => alnum || (code =? 95)
  | CATEGORY_DIGIT => decimal
  end.

Definition pasa (p : prueba) (x : caracter) : bool :=
  if cualquiera p then true
  else
    let code := if sobre_lower p then ch_lower x else ch x in
    xorb (negada p)
         (existsb (N.eqb code) (literales p)
          || existsb (en_categoria (sobre_lower p) x) (categorias p)).

(** [match.groups()]: one entry per group, [None] for a group that did
    not take part in the match. *)
Abbreviation grupos := (list (option str)).

Definition permite (hi : option nat) : bool :=
  match hi with Some O => false | _ => true end.

Definition menos_uno (hi : option nat) : option nat :=
  match hi with Some n => Some (Nat.pred n) | None => None end.

Section Match.
Context {R : Type}.

(** Greedy repeat of a one-character test ([REPEAT_ONE]): as many as
    possible first, then one fewer, down to [lo]. *)
Fixpoint repeat_one (p : prueba) (lo : nat) (hi : option nat)
    (s : list caracter) (k : list caracter -> option R) : option R :=
  let parar := match lo with O => k s | S _ => None end in
  match s with
  | x :: s' =>
      if permite hi && pasa p x
      then match repeat_one p (Nat.pred lo) (menos_uno hi) s' k with
           | Some r => Some r
           | None => parar
           end
      else parar
  | [] => parar
  end.

(** Lazy repeat ([MIN_REPEAT_ONE]): [lo] characters, then the rest of
    the pattern is tried before each further character. *)
Fixpoint min_repeat_one (p : prueba) (lo : nat) (hi : option nat)
    (s : list caracter) (k : list caracter -> option R) : option R :=
  let seguir :=
    match s with
    | x :: s' =>
        if permite hi && pasa p x
        then min_repeat_one p (Nat.pred lo) (menos_uno hi) s' k
        else None
    | [] => None
    end in
  match lo with
  | O => match k s with Some r => Some r | None => seguir end
  | S _ => seguir
  end.
End Match.

(** The characters between two positions of the subject, the second
    being a suffix of the first. *)
Definition tramo (s s' : list caracter) : str :=
  map ch (take (length s - length s') s).

(** [m c s g k]: match [c] at [s] with marks [g], then continue with
    [k]; the first success in backtracking order is the result. *)
Fixpoint m (c : codigo) (s : list caracter) (g : grupos)
    (k : list caracter -> grupos -> option grupos) : option grupos :=
  match c with
  | C_Vacio => k s g
  | C_Uno p =>
      match s with
      | x :: s' => if pasa p x then k s' g else None
      | [] => None
      end
  | C_Sec c1 c2 => m c1 s g (fun s' g' => m c2 s' g' k)
  | C_BRANCH c1 c2 =>
      match m c1 s g k with
      | Some r => Some r
      | None => m c2 s g k
      end
  | C_REPEAT_ONE lo hi p => repeat_one p lo hi s (fun s' => k s' g)
  | C_MIN_REPEAT_ONE lo hi p => min_repeat_one p lo hi s (fun s' => k s' g)
  | C_REPEAT_0_1 c1 =>
      match m c1 s g k with
      | Some r => Some r
      | None => k s g
      end
  | C_MARK n c1 =>
      m c1 s g (fun s' g' => k s' (<[Nat.pred n := Some (tramo s s')]> g'))
  | C_ASSERT c1 =>
      match m c1 s g (fun _ g' => Some g') with
      | Some g' => k s g'
      | None => None
      end
  end.

Fixpoint num_grupos (c : codigo) : nat :=
  match c with
  | C_Vacio | C_Uno _ | C_REPEAT_ONE _ _ _ | C_MIN_REPEAT_ONE _ _ _ => 0
  | C_Sec c1 c2 | C_BRANCH c1 c2 => num_grupos c1 + num_grupos c2
  | C_REPEAT_0_1 c1 | C_ASSERT c1 => num_grupos c1
  | C_MARK _ c1 => S (num_grupos c1)
  end.

(** Try every start position, leftmost first. *)
Fixpoint buscar (c : codigo) (g0 : grupos) (s : list caracter)
  : option grupos :=
  match m c s g0 (fun _ g => Some g) with
  | Some g => Some g
  | None => match s with
            | [] => None
            | _ :: s' => buscar c g0 s'
            end
  end.

(** [re.search(r, texto, re.IGNORECASE | re.DOTALL)], reduced to what the
    program reads of the match object: [None], or [match.groups()]. *)
Definition search (U : db) (r : regex) (texto : str) : option grupos :=
  let c := compile U r in
  buscar c (replicate (num_grupos c) None) (map (leer U) texto).

(** *** Writing patterns *)

Definition sec (rs : list regex) : regex := foldr Sec Vacio rs.

Definition lits (s : string) : regex :=
  sec (map (fun c => Uno (LITERAL c)) (py s)).

Fixpoint alt (rs : list regex) : regex :=
  match rs with
  | [] => Vacio
  | [r] => r
  | r :: rs' => BRANCH r (alt rs')
  end.

Definition L (s : string) : list miembro := map M_LITERAL (py s).
Definition SPACE : list miembro := [M_CATEGORY CATEGORY_SPACE].
Definition NOT_SPACE : list miembro := [M_CATEGORY CATEGORY_NOT_SPACE].
Definition WORD : list miembro := [M_CATEGORY CATEGORY_WORD].
Definition DIGIT : list miembro := [M_CATEGORY CATEGORY_DIGIT].
Definition set (parts : list (list miembro)) : unidad := IN (concat parts).

Definition star (u : unidad) : regex := MAX_REPEAT 0 None u.
Definition plus (u : unidad) : regex := MAX_REPEAT 1 None u.
Definition lazy_star (u : unidad) : regex := MIN_REPEAT 0 None u.
Definition times (lo hi : nat) (u : unidad) : regex :=
  MAX_REPEAT lo (Some hi) u.
Definition opt (rs : list regex) : regex := MAX_REPEAT_0_1 (sec rs).

End Re.

(** ** The program *)

Module App.
Import Unicode Re.

(** *** The pattern table of [analizar_contrato]

    Each pattern is preceded by its source text, where a blank is put
    between a star and a closing parenthesis that follow each other. *)

Definition espacio : unidad := set [SPACE].                      (* \s *)
Definition digito : unidad := set [DIGIT].                       (* \d *)
Definition todo : unidad := set [SPACE; NOT_SPACE].              (* [\s\S] *)
(** [[°º.\sro]] *)
Definition ordinal : unidad :=
  set [[M_LITERAL 176; M_LITERAL 186]; L "."; SPACE; L "ro"].
(** [[:\s]] *)
Definition dos_puntos : unidad := set [L ":"; SPACE].
(** [CL[ÁA]USULA] *)
Definition clausula : regex :=
  sec [lits "CL"; Uno (IN [M_LITERAL 193; M_LITERAL 65]); lits "USULA"].
(** [[oó]], [[úu]], [[OÓ]] *)
Definition o_tilde : regex := Uno (IN [M_LITERAL 111; M_LITERAL 243]).
Definition u_tilde : regex := Uno (IN [M_LITERAL 250; M_LITERAL 117]).
Definition O_tilde : regex := Uno (IN [M_LITERAL 79; M_LITERAL 211]).

(** (?:CONTRATO|ORDEN DE SERVICIO|ORDEN DE COMPRA)\s*(?:N[°º.\sro]+[:\s]* )?([\w\d\-\/.]+) *)
Definition p_num_contrato : regex :=
  sec [alt [lits "CONTRATO"; lits "ORDEN DE SERVICIO"; lits "ORDEN DE COMPRA"];
       star espacio;
       opt [lits "N"; plus ordinal; star dos_puntos];
       SUBPATTERN 1 (plus (set [WORD; DIGIT; L "-"; L "/"; L "."]))].

(** (?:en la ciudad de|firmado el|celebrado a los|Fecha:|a los)\s*.*?(\d{1,2}\s+(?:de\s+)?\w+\s+(?:de\s+)?\d{4}) *)
Definition p_fecha_suscripcion_contrato : regex :=
  sec [alt [lits "en la ciudad de"; lits "firmado el"; lits "celebrado a los";
            lits "Fecha:"; lits "a los"];
       star espacio;
       lazy_star ANY;
       SUBPATTERN 1
         (sec [times 1 2 digito; plus espacio;
               opt [lits "de"; plus espacio];
               plus (set [WORD]); plus espacio;
               opt [lits "de"; plus espacio];
               times 4 4 digito])].

(** (Adjudicaci[oó]n Simplificada|Licitaci[oó]n P[úu]blica|Concurso P[úu]blico)(?:\s*N[°º.\sro]+[:\s]*([\w\d\-\/]+))? *)
Definition p_proceso_seleccion : regex :=
  sec [SUBPATTERN 1
         (alt [sec [lits "Adjudicaci"; o_tilde; lits "n Simplificada"];
               sec [lits "Licitaci"; o_tilde; lits "n P"; u_tilde; lits "blica"];
               sec [lits "Concurso P"; u_tilde; lits "blico"]]);
       opt [star espacio; lits "N"; plus ordinal; star dos_puntos;
            SUBPATTERN 2 (plus (set [WORD; DIGIT; L "-"; L "/"]))]].

(** vigencia.*?\s+hasta\s+(.*?)(?:\.|\n|CL[ÁA]USULA) *)
Definition p_vigencia_final : regex :=
  sec [lits "vigencia"; lazy_star ANY; plus espacio; lits "hasta";
       plus espacio;
       SUBPATTERN 1 (lazy_star ANY);
       alt [lits "."; Uno (LITERAL 10); clausula]].

(** (?:Monto|Valor Total|asciende a)\s*.*?(?:S\/\.?|R\$|USD)?\s*([\d,]+(?:\.\d{2})?) *)
Definition p_monto_contratado_total : regex :=
  sec [alt [lits "Monto"; lits "Valor Total"; lits "asciende a"];
       star espacio;
       lazy_star ANY;
       opt [alt [sec [lits "S/"; times 0 1 (LITERAL 46)];
                 lits "R$"; lits "USD"]];
       star espacio;
       SUBPATTERN 1
         (sec [plus (set [DIGIT; L ","]);
               opt [lits "."; times 2 2 digito]])].

(** CONTRATISTA[\s\S]*?RUC\s*N[°º.\sro]*\s*(\d{11}) *)
Definition p_ruc_contratista : regex :=
  sec [lits "CONTRATISTA"; lazy_star todo; lits "RUC"; star espacio;
       lits "N"; star ordinal; star espacio;
       SUBPATTERN 1 (times 11 11 digito)].

(** (?:LA\s+ENTIDAD|CONTRATANTE)[\s\S]*?RUC\s*N[°º.\sro]*\s*(\d{11}) *)
Definition p_ruc_entidad : regex :=
  sec [alt [sec [lits "LA"; plus espacio; lits "ENTIDAD"]; lits "CONTRATANTE"];
       lazy_star todo; lits "RUC"; star espacio;
       lits "N"; star ordinal; star espacio;
       SUBPATTERN 1 (times 11 11 digito)].

(** RESOLUCI[OÓ]N\s*(?:DECANAL|RECTORAL|DIRECTORAL)?\s*N[°º.\sro]+[:\s]*([\w\d\-\/.-]+) *)
Definition p_resolucion : regex :=
  sec [lits "RESOLUCI"; O_tilde; lits "N"; star espacio;
       opt [alt [lits "DECANAL"; lits "RECTORAL"; lits "DIRECTORAL"]];
       star espacio;
       lits "N"; plus ordinal; star dos_puntos;
       SUBPATTERN 1 (plus (set [WORD; DIGIT; L "-"; L "/"; L "."; L "-"]))].

(** (?:Ítem|Item)\s*(?:N[°º.\sro]+)?\s*[:]?\s*(\d+) *)
Definition p_num_item : regex :=
  sec [alt [sec [Uno (LITERAL 205); lits "tem"]; lits "Item"];
       star espacio;
       opt [lits "N"; plus ordinal];
       star espacio;
       times 0 1 (LITERAL 58);
       star espacio;
       SUBPATTERN 1 (plus digito)].

(** CL[ÁA]USULA\s+PRIMERA\s*:\s*OBJETO[\s\S]*?([\s\S]*?)(?=CL[ÁA]USULA\s+SEGUNDA|II\.\s+BASE\s+LEGAL) *)
Definition p_objeto_contrato : regex :=
  sec [clausula; plus espacio; lits "PRIMERA"; star espacio; lits ":";
       star espacio; lits "OBJETO";
       lazy_star todo;
       SUBPATTERN 1 (lazy_star todo);
       ASSERT (alt [sec [clausula; plus espacio; lits "SEGUNDA"];
                    sec [lits "II."; plus espacio; lits "BASE"; plus espacio;
                         lits "LEGAL"]])].

(** PLAZO\s+DE\s+(?:EJECUCI[OÓ]N|ENTREGA)[\s\S]*?([\s\S]*?)(?=CL[ÁA]USULA|INICIO\s+DEL\s+PLAZO) *)
Definition p_plazo_ejecucion : regex :=
  sec [lits "PLAZO"; plus espacio; lits "DE"; plus espacio;
       alt [sec [lits "EJECUCI"; O_tilde; lits "N"]; lits "ENTREGA"];
       lazy_star todo;
       SUBPATTERN 1 (lazy_star todo);
       ASSERT (alt [clausula;
                    sec [lits "INICIO"; plus espacio; lits "DEL"; plus espacio;
                         lits "PLAZO"]])].

(** representad[oa]\s+(?:legalmente\s+)?por\s+([^,]+(?:,\s*Jr\.|,\s*S\.A\.C\.)?), *)
Definition p_representante_legal_contratista : regex :=
  sec [lits "representad"; Uno (set [L "oa"]); plus espacio;
       opt [lits "legalmente"; plus espacio];
       lits "por"; plus espacio;
       SUBPATTERN 1
         (sec [plus (NOT_LITERAL 44);
               opt [alt [sec [lits ","; star espacio; lits "Jr."];
                         sec [lits ","; star espacio; lits "S.A.C."]]]]);
       lits ","].

(** [patrones.items()], in declaration order. *)
Definition patrones : list (string * regex) :=
  [("num_contrato", p_num_contrato);
   ("fecha_suscripcion_contrato", p_fecha_suscripcion_contrato);
   ("proceso_seleccion", p_proceso_seleccion);
   ("vigencia_final", p_vigencia_final);
   ("monto_contratado_total", p_monto_contratado_total);
   ("ruc_contratista", p_ruc_contratista);
   ("ruc_entidad", p_ruc_entidad);
   ("resolucion", p_resolucion);
   ("num_item", p_num_item);
   ("objeto_contrato", p_objeto_contrato);
   ("plazo_ejecucion", p_plazo_ejecucion);
   ("representante_legal_contratista", p_representante_legal_contratista)]%string.


(** *** [analizar_contrato] *)

Definition NO_ENCONTRADO : str := py "No encontrado".

Section Extractor.
Variable U : db.

(** [' '.join(resultado.split()).strip()] *)
Definition limpiar (resultado : str) : str :=
  strip (isspace U) (join (py " ") (split (isspace U) resultado)).

(** The body of the loop for one [patron]: the value stored under its
    key. *)
Definition valor (patron : regex) (texto_contrato : str) : str :=
  match search U patron texto_contrato with
  | Some groups =>
      let grupos_validos := omap id groups in
      let resultado := join (py " ") grupos_validos in
      limpiar resultado
  | None => NO_ENCONTRADO
  end.

Definition analizar_contrato (texto_contrato : str) : gmap string str :=
  foldl (fun datos_extraidos '(clave, patron) =>
           <[clave := valor patron texto_contrato]> datos_extraidos)
        ∅ patrones.
End Extractor.

(** *** Library objects, exceptions and the state of a request *)

(** [str(e)] is all the program reads of an exception. *)
Record excepcion := Exception { mensaje : str }.

(** A library call raises or returns. *)
Definition resultado (A : Type) : Type := excepcion + A.

Record Pixmap := { tobytes : str -> resultado bytes }.

Record Page := {
  get_text : resultado str;
  get_pixmap : N -> resultado Pixmap
}.

Record Document := { pages : list Page; close : resultado unit }.

Record ZipFile := { namelist : list str; read : str -> resultado bytes }.

Record FileStorage := { filename : str; file_read : resultado bytes }.

(** The libraries the program calls. *)
Record entorno := {
  Image : Type;
  fitz_open : bytes -> resultado Document;
  Image_open : bytes -> resultado Image;
  image_to_string : Image -> str -> resultado str;
  is_zipfile : bytes -> resultado bool;
  zipfile_ZipFile : bytes -> resultado ZipFile;
  to_excel : list (gmap string str) -> resultado bytes;
  to_html : list (gmap string str) -> resultado str
}.

Inductive evento :=
| ev_fitz_open
| ev_get_text (num_pagina : nat)
| ev_get_pixmap (num_pagina : nat) (dpi : N)
| ev_tobytes (num_pagina : nat) (formato : str)
| ev_Image_open (num_pagina : nat)
| ev_image_to_string (num_pagina : nat) (lang : str)
| ev_close
| ev_file_read (nombre : str)
| ev_is_zipfile
| ev_ZipFile
| ev_zip_read (item_name : str)
| ev_to_excel
| ev_to_html
| ev_print (linea : str).

Record estado := {
  traza : list evento;                    (* calls and prints, oldest first *)
  resultados_ok : list (gmap string str);
  errores_proceso : list str;
  session_excel_data : option bytes
}.

Definition M (A : Type) : Type := estado -> resultado A * estado.

#[global] Instance M_ret : MRet M := fun A (a : A) st => (inr a, st).

#[global] Instance M_bind : MBind M := fun A B (f : A -> M B) (c : M A) st =>
  match c st with
  | (inr a, st') => f a st'
  | (inl e, st') => (inl e, st')
  end.

Definition lanzar {A} (e : excepcion) : M A := fun st => (inl e, st).

(** [try: cuerpo / except Exception as e: manejar(e)] *)
Definition try_except {A} (cuerpo : M A) (manejar : excepcion -> M A) : M A :=
  fun st =>
    match cuerpo st with
    | (inl e, st') => manejar e st'
    | r => r
    end.

(** The state after the calls and prints [evs]. *)
Definition con_eventos (st : estado) (evs : list evento) : estado :=
  {| traza := traza st ++ evs;
     resultados_ok := resultados_ok st;
     errores_proceso := errores_proceso st;
     session_excel_data := session_excel_data st |}.

Definition registrar (ev : evento) : M unit := fun st =>
  (inr tt, con_eventos st [ev]).

(** A library call: recorded, then it raises or returns. *)
Definition llamar {A} (ev : evento) (r : resultado A) : M A :=
  registrar ev ;;
  match r with
  | inl e => lanzar e
  | inr a => mret a
  end.

Definition print (linea : str) : M unit := registrar (ev_print linea).

Definition errores_append (msg : str) : M unit := fun st =>
  (inr tt, {| traza := traza st;
              resultados_ok := resultados_ok st;
              errores_proceso := errores_proceso st ++ [msg];
              session_excel_data := session_excel_data st |}).

Definition resultados_append (datos : gmap string str) : M unit := fun st =>
  (inr tt, {| traza := traza st;
              resultados_ok := resultados_ok st ++ [datos];
              errores_proceso := errores_proceso st;
              session_excel_data := session_excel_data st |}).

Definition session_set (data : bytes) : M unit := fun st =>
  (inr tt, {| traza := traza st;
              resultados_ok := resultados_ok st;
              errores_proceso := errores_proceso st;
              session_excel_data := Some data |}).

(** [resultados_ok = []; errores_proceso = []] *)
Definition locales_nuevos : M unit := fun st =>
  (inr tt, {| traza := traza st;
              resultados_ok := [];
              errores_proceso := [];
              session_excel_data := session_excel_data st |}).

Definition leer_estado : M estado := fun st => (inr st, st).

(** [for x in xs: cuerpo(x)] *)
Fixpoint for_each {A} (xs : list A) (cuerpo : A -> M unit) : M unit :=
  match xs with
  | [] => mret tt
  | x :: xs' => cuerpo x ;; for_each xs' cuerpo
  end.

(** Truth value of an [Optional[str]]. *)
Definition es_verdadero (o : option str) : bool :=
  match o with
  | Some (_ :: _) => true
  | _ => false
  end.

(** *** [extraer_texto_con_ocr] *)

Section Programa.
Variable U : db.
Variable E : entorno.

(** The body of the inner [try]: render the page and read it. *)
Definition ocr_de_pagina (num_pagina : nat) (pagina : Page) : M str :=
  pix ← llamar (ev_get_pixmap num_pagina 300) (get_pixmap pagina 300);
  img_data ← llamar (ev_tobytes num_pagina (py "png")) (tobytes pix (py "png"));
  img ← llamar (ev_Image_open num_pagina) (Image_open E img_data);
  llamar (ev_image_to_string num_pagina (py "spa"))
         (image_to_string E img (py "spa")).

Definition advertencia (num_pagina : nat) (ocr_error : excepcion) : str :=
  py "Advertencia: OCR fall" ++ [243] ++ py " en la p" ++ [225]
  ++ py "gina " ++ str_of_nat (num_pagina + 1) ++ py ": "
  ++ mensaje ocr_error.

(** One turn of the loop over the pages; the result is the new
    [texto_completo]. *)
Definition paso_pagina (texto_completo : str) (num_pagina : nat)
    (pagina : Page) : M str :=
  t ← llamar (ev_get_text num_pagina) (get_text pagina);
  let texto_directo := strip (isspace U) t in
  if (length texto_directo <? 100)%nat
  then try_except
         (texto_ocr ← ocr_de_pagina num_pagina pagina;
          mret (texto_completo ++ texto_ocr ++ [10]))
         (fun ocr_error =>
            print (advertencia num_pagina ocr_error) ;;
            mret (texto_completo ++ texto_directo ++ [10]))
  else mret (texto_completo ++ texto_directo ++ [10]).

(** [for num_pagina, pagina in enumerate(doc)], from [num_pagina]. *)
Fixpoint bucle_paginas (texto_completo : str) (num_pagina : nat)
    (paginas : list Page) : M str :=
  match paginas with
  | [] => mret texto_completo
  | pagina :: resto =>
      texto_completo' ← paso_pagina texto_completo num_pagina pagina;
      bucle_paginas texto_completo' (S num_pagina) resto
  end.

Definition error_critico (e : excepcion) : str :=
  py "Error Cr" ++ [237] ++ py "tico al procesar el PDF: " ++ mensaje e.

(** Returns the tuple [(texto, error)]. *)
Definition extraer_texto_con_ocr (stream_pdf : bytes)
  : M (option str * option str) :=
  try_except
    (doc ← llamar ev_fitz_open (fitz_open E stream_pdf);
     texto_completo ← bucle_paginas [] 0 (pages doc);
     llamar ev_close (close doc) ;;
     mret (Some texto_completo, None))
    (fun e =>
       let error_msg := error_critico e in
       print error_msg ;;
       mret (None, Some error_msg)).


(** *** [process_files] *)

(** [analizar_contrato(texto)] on the first component of the tuple;
    [re.search] raises a [TypeError] on [None]. *)
Definition analizar_texto (texto : option str) : M (gmap string str) :=
  match texto with
  | Some t => mret (analizar_contrato U t)
  | None =>
      lanzar (Exception
                (py "expected string or bytes-like object, got 'NoneType'"))
  end.

(** [item_name.lower().endswith('.pdf') and not
    item_name.startswith('__MACOSX')] *)
Definition entrada_aceptada (item_name : str) : bool :=
  endswith (str_lower U item_name) (py ".pdf")
  && negb (startswith item_name (py "__MACOSX")).

(** The body of the loop over [zip_ref.namelist()]. *)
Definition procesar_entrada (nombre_archivo : str) (zip_ref : ZipFile)
    (item_name : str) : M unit :=
  if entrada_aceptada item_name
  then try_except
         (pdf_data_in_zip ← llamar (ev_zip_read item_name)
                                   (read zip_ref item_name);
          '(texto, error) ← extraer_texto_con_ocr pdf_data_in_zip;
          if es_verdadero error
          then errores_append
                 (py "Error en '" ++ item_name ++ py "' (dentro de "
                  ++ nombre_archivo ++ py "): " ++ default [] error)
          else datos ← analizar_texto texto;
               resultados_append (<["Archivo"%string := item_name]> datos))
         (fun e_pdf =>
            errores_append
              (py "Error procesando '" ++ item_name ++ py "' (dentro de "
               ++ nombre_archivo ++ py "): " ++ mensaje e_pdf))
  else mret tt.

Definition procesar_zip (file : FileStorage) : M unit :=
  let nombre_archivo := filename file in
  try_except
    (zip_stream ← llamar (ev_file_read nombre_archivo) (file_read file);
     valido ← llamar ev_is_zipfile (is_zipfile E zip_stream);
     if negb valido
     then errores_append
            (py "'" ++ nombre_archivo ++ py "' no es un archivo ZIP v"
             ++ [225] ++ py "lido.")
     else zip_ref ← llamar ev_ZipFile (zipfile_ZipFile E zip_stream);
          for_each (namelist zip_ref)
                   (procesar_entrada nombre_archivo zip_ref))
    (fun e_zip =>
       errores_append
         (py "Error al procesar el archivo ZIP '" ++ nombre_archivo
          ++ py "': " ++ mensaje e_zip)).

Definition procesar_pdf (file : FileStorage) : M unit :=
  let nombre_archivo := filename file in
  try_except
    (pdf_stream ← llamar (ev_file_read nombre_archivo) (file_read file);
     '(texto, error) ← extraer_texto_con_ocr pdf_stream;
     if es_verdadero error
     then errores_append
            (py "'" ++ nombre_archivo ++ py "': " ++ default [] error)
     else datos ← analizar_texto texto;
          resultados_append (<["Archivo"%string := nombre_archivo]> datos))
    (fun e =>
       errores_append
         (py "Error inesperado procesando '" ++ nombre_archivo ++ py "': "
          ++ mensaje e)).

(** The body of [for file in files]. *)
Definition procesar_archivo (file : FileStorage) : M unit :=
  let nombre_archivo := filename file in
  if endswith nombre_archivo (py ".zip") then procesar_zip file
  else if endswith nombre_archivo (py ".pdf") then procesar_pdf file
  else mret tt.

(** The JSON body and the HTTP status handed to Flask. *)
Record respuesta := {
  success : bool;
  table_html : option str;
  errors : list str;
  status : N
}.

Definition NO_SE_ENVIARON : str := py "No se enviaron archivos.".

Definition NINGUN_ARCHIVO : str :=
  py "No se pudo extraer informaci" ++ [243] ++ py "n de ning" ++ [250]
  ++ py "n archivo.".

(** [upload_files] is [request.files.getlist('upload_files')], or
    [None] when the key is not in [request.files]. *)
Definition process_files (upload_files : option (list FileStorage))
  : M respuesta :=
  match upload_files with
  | None =>
      mret {| success := false; table_html := None;
              errors := [NO_SE_ENVIARON]; status := 400 |}
  | Some files =>
      locales_nuevos ;;
      for_each files procesar_archivo ;;
      st ← leer_estado;
      match resultados_ok st with
      | [] =>
          mret {| success := false; table_html := None;
                  errors := NINGUN_ARCHIVO :: errores_proceso st;
                  status := 200 |}
      | _ :: _ =>
          excel ← llamar ev_to_excel (to_excel E (resultados_ok st));
          session_set excel ;;
          html ← llamar ev_to_html (to_html E (resultados_ok st));
          mret {| success := true; table_html := Some html;
                  errors := errores_proceso st; status := 200 |}
      end
  end.

End Programa.

(** *** The report columns and [download_excel] *)

(** [['Archivo'] + [col for col in df.columns if col != 'Archivo']] *)
Definition columnas (df_columns : list string) : list string :=
  "Archivo"%string :: filter (fun col => col <> "Archivo"%string) df_columns.

(** What [download_excel] hands to Flask: a text with a status, or the
    arguments of [send_file]. *)
Inductive respuesta_descarga :=
| texto_plano (cuerpo : str) (status : N)
| send_file (data : bytes) (mimetype : str) (as_attachment : bool)
            (download_name : str).

(** [session.pop('excel_data', None)] *)
Definition session_pop : M (option bytes) := fun st =>
  (inr (session_excel_data st),
   {| traza := traza st;
      resultados_ok := resultados_ok st;
      errores_proceso := errores_proceso st;
      session_excel_data := None |}).

(** Truth value of an [Optional[bytes]]. *)
Definition hay_bytes (o : option bytes) : bool :=
  match o with
  | Some (_ :: _) => true
  | _ => false
  end.

Definition NO_HAY_DATOS : str :=
  py "No hay datos para descargar o la sesi" ++ [243]
  ++ py "n ha expirado.".

Definition MIMETYPE_XLSX : str :=
  py "application/vnd.openxmlformats-officedocument.spreadsheetml.sheet".

Definition download_excel : M respuesta_descarga :=
  excel_data ← session_pop;
  if negb (hay_bytes excel_data)
  then mret (texto_plano NO_HAY_DATOS 404)
  else mret (send_file (default [] excel_data) MIMETYPE_XLSX true
                       (py "resultados_contratos.xlsx")).

End App.

(** ** Definitions used to state the properties *)

Module Spec.
Import Unicode Re App.

Section Normalizar.
Variable isspace : N -> bool.

(** Whitespace normalisation as the specification words it: every run
    of whitespace becomes one space, then the ends are trimmed.
    [en_blanco] says that the previous character was whitespace. *)
Fixpoint colapsar_aux (en_blanco : bool) (s : str) : str :=
  match s with
  | [] => []
  | c :: s' =>
      if isspace c
      then if en_blanco then colapsar_aux true s'
           else 32 :: colapsar_aux true s'
      else c :: colapsar_aux false s'
  end.

Definition colapsar (s : str) : str := colapsar_aux false s.

Definition normalizar (s : str) : str := strip isspace (colapsar s).

(** Trimming on the right, by recursion from the left. *)
Fixpoint rstrip_rec (s : str) : str :=
  match s with
  | [] => []
  | c :: s' =>
      match rstrip_rec s' with
      | [] => if isspace c then [] else [c]
      | r => c :: r
      end
  end.
End Normalizar.

(** The events of the OCR step, and the page an event belongs to. *)
Definition es_ocr (ev : evento) : bool :=
  match ev with
  | ev_get_pixmap _ _ | ev_tobytes _ _ | ev_Image_open _
  | ev_image_to_string _ _ => true
  | _ => false
  end.

Definition pagina_de (ev : evento) : option nat :=
  match ev with
  | ev_get_text n | ev_get_pixmap n _ | ev_tobytes n _ | ev_Image_open n
  | ev_image_to_string n _ => Some n
  | _ => None
  end.

(** OCR was attempted on page [num_pagina]. *)
Definition ocr_invocado (num_pagina : nat) (evs : list evento) : Prop :=
  exists ev, ev ∈ evs /\ es_ocr ev = true /\ pagina_de ev = Some num_pagina.

(** What the OCR step of a page comes to: the first exception of the
    chain render, encode, open, recognise, or the recognised text. *)
Definition ocr_resultado (E : entorno) (pagina : Page) : resultado str :=
  match get_pixmap pagina 300 with
  | inl e => inl e
  | inr pix =>
      match tobytes pix (py "png") with
      | inl e => inl e
      | inr img_data =>
          match Image_open E img_data with
          | inl e => inl e
          | inr img => image_to_string E img (py "spa")
          end
      end
  end.

(** The tuple [extraer_texto_con_ocr] returns once the loop over the
    pages has come to [r]. *)
Definition tupla_final (doc : Document) (r : resultado str)
  : option str * option str :=
  match r with
  | inl e => (None, Some (error_critico e))
  | inr texto =>
      match close doc with
      | inl e => (None, Some (error_critico e))
      | inr _ => (Some texto, None)
      end
  end.

(** Direct extraction returns on this page. *)
Definition texto_directo_ok (pagina : Page) : Prop :=
  exists t, get_text pagina = inr t.

(** The archive behind an upload, when reading it, the validity test and
    the opening all return and the test says yes. *)
Definition abrir_zip (E : entorno) (file : FileStorage) : option ZipFile :=
  match file_read file with
  | inr zip_stream =>
      match is_zipfile E zip_stream with
      | inr true =>
          match zipfile_ZipFile E zip_stream with
          | inr zip_ref => Some zip_ref
          | inl _ => None
          end
      | _ => None
      end
  | inl _ => None
  end.

(** The documents an upload stands for, by display name: itself for a
    [.pdf]; for a [.zip], its accepted entries, or the archive itself
    when it cannot be opened; nothing otherwise. *)
Definition documentos_de (U : db) (E : entorno) (file : FileStorage)
  : list str :=
  if endswith (filename file) (py ".zip")
  then match abrir_zip E file with
       | Some zip_ref => filter (fun item => entrada_aceptada U item = true)
                                (namelist zip_ref)
       | None => [filename file]
       end
  else if endswith (filename file) (py ".pdf") then [filename file]
  else [].

(** What one document leaves in the outcome: a record tagged with its
    name, or an error string that names it. *)
Definition salida_de (doc : str) (salida : gmap string str + str) : Prop :=
  match salida with
  | inl datos => datos !! "Archivo"%string = Some doc
  | inr msg => exists a b, msg = a ++ doc ++ b
  end.

Definition registros (salidas : list (gmap string str + str))
  : list (gmap string str) :=
  omap (fun s => match s with inl datos => Some datos | inr _ => None end)
       salidas.

Definition mensajes (salidas : list (gmap string str + str)) : list str :=
  omap (fun s => match s with inl _ => None | inr msg => Some msg end)
       salidas.

(** From [st] to [st'] the documents [docs] were processed: each left
    exactly one entry, in order, in exactly one of the two lists. *)
Definition aporta (st st' : estado) (docs : list str) : Prop :=
  exists salidas,
    Forall2 salida_de docs salidas
    /\ resultados_ok st' = resultados_ok st ++ registros salidas
    /\ errores_proceso st' = errores_proceso st ++ mensajes salidas.

(** Patterns and texts written in U+0000..U+00FF only. *)
Definition miembro_latin1 (it : miembro) : bool :=
  match it with
  | M_LITERAL c => c <? 256
  | M_CATEGORY _ => true
  end.

Definition unidad_latin1 (u : unidad) : bool :=
  match u with
  | LITERAL c | NOT_LITERAL c => c <? 256
  | ANY => true
  | IN items => forallb miembro_latin1 items
  end.

Fixpoint regex_latin1 (r : regex) : bool :=
  match r with
  | Vacio => true
  | Uno u | MAX_REPEAT _ _ u | MIN_REPEAT _ _ u => unidad_latin1 u
  | Sec r1 r2 | BRANCH r1 r2 => regex_latin1 r1 && regex_latin1 r2
  | MAX_REPEAT_0_1 r1 | SUBPATTERN _ r1 | ASSERT r1 => regex_latin1 r1
  end.

Definition texto_latin1 (s : str) : bool := forallb (fun c => c <? 256) s.

(** The text of end-to-end scenario 1. *)
Definition CONTRATO_045 : str :=
  py "CONTRATO N" ++ [176] ++ py " 045-2023-ABC".

(** What may follow the contract number for the capture to stop there:
    the end of the text, or a character outside [[\w\d\-\/.]]. *)
Definition fin_de_numero (U : db) (sufijo : str) : Prop :=
  match sufijo with
  | [] => True
  | c :: _ =>
      isalnum U c = false /\ isdecimal U c = false /\
      c <> 95 /\ c <> 45 /\ c <> 47 /\ c <> 46
  end.

(** The pattern of [num_contrato] up to its capture group, and the
    group. *)
Definition p_num_contrato_prefijo : regex :=
  sec [alt [lits "CONTRATO"; lits "ORDEN DE SERVICIO"; lits "ORDEN DE COMPRA"];
       star espacio;
       opt [lits "N"; plus ordinal; star dos_puntos]].

Definition clase_numero : unidad := set [WORD; DIGIT; L "-"; L "/"; L "."].

(** What a page adds to the text, given its direct text [t]: the OCR
    text when the trimmed direct text is short and the OCR step returns,
    the trimmed direct text otherwise; then a newline. *)
Definition aporte_pagina (U : db) (E : entorno) (pagina : Page) (t : str)
  : str :=
  let texto_directo := strip (isspace U) t in
  if (length texto_directo <? 100)%nat
  then match ocr_resultado E pagina with
       | inr texto_ocr => texto_ocr ++ [10]
       | inl _ => texto_directo ++ [10]
       end
  else texto_directo ++ [10].

Definition es_get_text (ev : evento) : bool :=
  match ev with ev_get_text _ => true | _ => false end.

(** The events a turn of the loop over the pages can leave: calls on a
    page, and prints. *)
Definition es_de_bucle (ev : evento) : bool :=
  match ev with
  | ev_get_text _ | ev_get_pixmap _ _ | ev_tobytes _ _ | ev_Image_open _
  | ev_image_to_string _ _ | ev_print _ => true
  | _ => false
  end.

(** The events of work on a document: everything but the reading of an
    upload and the two archive calls before the entries. *)
Definition es_de_documento (ev : evento) : bool :=
  match ev with
  | ev_file_read _ | ev_is_zipfile | ev_ZipFile => false
  | _ => true
  end.

(** Every group that took part in a match holds a contiguous piece of
    the text. *)
Definition de_texto (texto : str) (g : grupos) : Prop :=
  Forall (fun o => forall s, o = Some s -> exists a b, texto = a ++ s ++ b) g.

(** A word: not empty, no whitespace in it. *)
Definition palabra (U : db) (w : str) : Prop :=
  w <> [] /\ Forall (fun c => isspace U c = false) w.

(** The state in which the loop over the uploads ends. *)
Definition tras_el_lote (U : db) (E : entorno) (files : list FileStorage)
    (st : estado) : estado :=
  (for_each files (procesar_archivo U E)
     {| traza := traza st; resultados_ok := []; errores_proceso := [];
        session_excel_data := session_excel_data st |}).2.

(** No field other than [num_contrato] has a match in [texto]. *)
Definition solo_num_contrato (U : db) (texto : str) : Prop :=
  forall (clave : string) (patron : regex),
    (clave, patron) ∈ patrones -> clave <> "num_contrato"%string ->
    search U patron texto = None.

(** The match of [r] that starts at position [j] of [texto], if there is
    one: what one step of [buscar] tries there. *)
Definition coincide_en (U : db) (r : regex) (texto : str) (j : nat)
  : option grupos :=
  let c := compile U r in
  m c (drop j (map (leer U) texto)) (replicate (num_grupos c) None)
    (fun _ g => Some g).


End Spec.

(** ** Concrete documents and libraries, for the examples *)

Module Casos.
Import Unicode Re App Spec.

(** A page with 120 letters between blanks, which cannot be rendered. *)
Definition texto_largo : str := [32] ++ replicate 120 97 ++ [10].

Definition pagina_larga : Page :=
  {| get_text := inr texto_largo;
     get_pixmap := fun _ => inl (Exception (py "cannot render")) |}.

(** A page with a short line, which can be rendered. *)
Definition pixmap_ok : Pixmap := {| tobytes := fun _ => inr [] |}.

Definition pagina_corta : Page :=
  {| get_text := inr (py " CONTRATO ");
     get_pixmap := fun _ => inr pixmap_ok |}.

Definition doc_mixto : Document :=
  {| pages := [pagina_larga; pagina_corta]; close := inr tt |}.

Definition doc_vacio : Document := {| pages := []; close := inr tt |}.

Definition zip_muestra : ZipFile :=
  {| namelist := [py "sample.pdf"; py "notes.txt";
                  py "__MACOSX/._sample.pdf"; py "B.PDF"];
     read := fun _ => inr [Byte.x00] |}.

(** Libraries where the empty stream is not a document, a stream of one
    byte is a document without pages, any other stream is [doc_mixto];
    tesseract is missing; every non-empty stream is an archive. *)
Definition entorno_prueba : entorno :=
  {| Image := unit;
     fitz_open := fun stream =>
       match stream with
       | [] => inl (Exception (py "cannot open empty document"))
       | [_] => inr doc_vacio
       | _ => inr doc_mixto
       end;
     Image_open := fun _ => inr tt;
     image_to_string := fun _ _ =>
       inl (Exception (py "tesseract is not installed"));
     is_zipfile := fun stream =>
       inr (match stream with [] => false | _ => true end);
     zipfile_ZipFile := fun _ => inr zip_muestra;
     to_excel := fun _ => inr [];
     to_html := fun _ => inr (py "<table>") |}.

Definition estado_inicial : estado :=
  {| traza := []; resultados_ok := []; errores_proceso := [];
     session_excel_data := None |}.

Definition subida (nombre : string) (contenido : bytes) : FileStorage :=
  {| filename := py nombre; file_read := inr contenido |}.

(** A document whose second page cannot be read, and libraries that
    open it for every stream. *)
Definition pagina_ilegible : Page :=
  {| get_text := inl (Exception (py "damaged page"));
     get_pixmap := fun _ => inr pixmap_ok |}.

Definition doc_roto : Document :=
  {| pages := [pagina_larga; pagina_ilegible; pagina_corta];
     close := inr tt |}.

(** Libraries as [entorno_prueba], but a stream of one byte is
    [doc_roto], OCR reads a contract heading on every image, and the
    spreadsheet writer returns two bytes. *)
Definition entorno_con_ocr : entorno :=
  {| Image := unit;
     fitz_open := fun stream =>
       match stream with
       | [] => inl (Exception (py "cannot open empty document"))
       | [_] => inr doc_roto
       | _ => inr doc_mixto
       end;
     Image_open := fun _ => inr tt;
     image_to_string := fun _ _ => inr (CONTRATO_045 ++ [10]);
     is_zipfile := fun stream =>
       inr (match stream with [] => false | _ => true end);
     zipfile_ZipFile := fun _ => inr zip_muestra;
     to_excel := fun _ => inr [Byte.x50; Byte.x4b];
     to_html := fun _ => inr (py "<table>") |}.

(** Libraries as [entorno_con_ocr], but the spreadsheet writer raises. *)
Definition entorno_sin_excel : entorno :=
  {| Image := unit;
     fitz_open := fitz_open entorno_con_ocr;
     Image_open := fun _ => inr tt;
     image_to_string := fun _ _ => inr (CONTRATO_045 ++ [10]);
     is_zipfile := is_zipfile entorno_con_ocr;
     zipfile_ZipFile := fun _ => inr zip_muestra;
     to_excel := fun _ => inl (Exception (py "No module named 'openpyxl'"));
     to_html := fun _ => inr (py "<table>") |}.

(** Libraries as [entorno_con_ocr], but the table renderer raises. *)
Definition entorno_sin_html : entorno :=
  {| Image := unit;
     fitz_open := fitz_open entorno_con_ocr;
     Image_open := fun _ => inr tt;
     image_to_string := fun _ _ => inr (CONTRATO_045 ++ [10]);
     is_zipfile := is_zipfile entorno_con_ocr;
     zipfile_ZipFile := fun _ => inr zip_muestra;
     to_excel := fun _ => inr [Byte.x50; Byte.x4b];
     to_html := fun _ => inl (Exception (py "out of memory")) |}.

(** A state in which the session holds the report of an earlier batch. *)
Definition estado_con_informe : estado :=
  {| traza := []; resultados_ok := []; errores_proceso := [];
     session_excel_data := Some [Byte.x50; Byte.x4b; Byte.x03] |}.

End Casos.

(** ** Properties of the string methods *)

Module PyFacts.
Import Spec.

Lemma startswith_spec (s pre : str) :
  startswith s pre = true <-> exists post, s = pre ++ post.
Proof.
  revert s. induction pre as [|p pre IH]; intros s.
  - split; [intros _; by exists s | by destruct s].
  - destruct s as [|c s]; simpl.
    + split; [done | intros [post H]; discriminate].
    + rewrite andb_true_iff, IH, N.eqb_eq. split.
      * intros [-> [post ->]]. by exists post.
      * intros [post H]. injection H as -> ->. split; [done | by exists post].
Qed.

Lemma endswith_spec (s suf : str) :
  endswith s suf = true <-> exists pre, s = pre ++ suf.
Proof.
  unfold endswith. rewrite startswith_spec. split.
  - intros [post H]. exists (rev post).
    apply (f_equal (@rev N)) in H. rewrite rev_involutive in H.
    by rewrite H, rev_app_distr, rev_involutive.
  - intros [pre ->]. exists (rev pre). by rewrite rev_app_distr.
Qed.

Section Whitespace.
Variable isspace : N -> bool.

Lemma lstrip_app_no_space (s : str) c t :
  isspace c = false ->
  lstrip isspace (s ++ c :: t)
  = match lstrip isspace s with
    | [] => c :: t
    | r => r ++ c :: t
    end.
Proof.
  intros Hc. induction s as [|a s IH]; simpl.
  - by rewrite Hc.
  - destruct (isspace a); [exact IH | done].
Qed.

Lemma lstrip_app_space (s : str) c :
  isspace c = true ->
  lstrip isspace (s ++ [c])
  = match lstrip isspace s with
    | [] => []
    | r => r ++ [c]
    end.
Proof.
  intros Hc. induction s as [|a s IH]; simpl.
  - by rewrite Hc.
  - destruct (isspace a); [exact IH | done].
Qed.

Lemma rstrip_rstrip_rec (s : str) :
  rstrip isspace s = rstrip_rec isspace s.
Proof.
  unfold rstrip. induction s as [|c s IH]; [done |].
  simpl rev. simpl rstrip_rec. rewrite <- IH.
  destruct (isspace c) eqn:Hc.
  - rewrite lstrip_app_space by done.
    destruct (lstrip isspace (rev s)) as [|a r]; [done |].
    rewrite rev_app_distr. simpl.
    destruct (rev r ++ [a]) eqn:Hr; [by destruct (rev r) | done].
  - rewrite (lstrip_app_no_space (rev s) c [] Hc).
    destruct (lstrip isspace (rev s)) as [|a r]; [done |].
    rewrite rev_app_distr. simpl.
    destruct (rev r ++ [a]) eqn:Hr; [by destruct (rev r) | done].
Qed.

Hypothesis space_is_space : isspace 32 = true.

Lemma lstrip_colapsar_true (s : str) :
  lstrip isspace (colapsar_aux isspace true s) = colapsar_aux isspace true s.
Proof.
  induction s as [|c s IH]; [done |]. simpl.
  destruct (isspace c) eqn:Hc; [done |]. simpl. by rewrite Hc.
Qed.

Lemma lstrip_colapsar (b : bool) (s : str) :
  lstrip isspace (colapsar_aux isspace b s)
  = lstrip isspace (colapsar_aux isspace true s).
Proof.
  destruct s as [|c s]; [done |]. simpl.
  destruct (isspace c) eqn:Hc; [| done].
  destruct b; [done |]. simpl. by rewrite space_is_space.
Qed.

Lemma split_aux_no_vacio (cur s : str) :
  Forall (fun w => w <> []) (split_aux isspace cur s) /\
  (cur <> [] -> split_aux isspace cur s <> []).
Proof.
  revert cur. induction s as [|c s IH]; intros cur; simpl.
  - destruct cur as [|a cur]; [by split |].
    split; [| done]. constructor; [| done].
    simpl. by destruct (rev cur).
  - destruct (isspace c).
    + destruct cur as [|a cur]; [split; [apply IH | done] |].
      split; [| done]. constructor; [| apply IH].
      simpl. by destruct (rev cur).
    + split; [apply IH |]. intros _. by apply IH.
Qed.

Lemma join_no_vacio (w : str) (ws : list str) :
  w <> [] -> join (py " ") (w :: ws) <> [].
Proof. destruct w; [done |]. by destruct ws. Qed.

Lemma join_cons (w : str) (ws : list str) :
  ws <> [] -> join (py " ") (w :: ws) = w ++ 32 :: join (py " ") ws.
Proof. by destruct ws. Qed.

Lemma rstrip_rec_cons_no_space c (s : str) :
  isspace c = false -> rstrip_rec isspace (c :: s) = c :: rstrip_rec isspace s.
Proof. intros Hc. simpl. rewrite Hc. by destruct (rstrip_rec isspace s). Qed.

Lemma rstrip_rec_app (a s : str) :
  rstrip_rec isspace s <> [] ->
  rstrip_rec isspace (a ++ s) = a ++ rstrip_rec isspace s.
Proof.
  intros Hs. induction a as [|c a IH]; [done |].
  simpl. rewrite IH. destruct (a ++ rstrip_rec isspace s) eqn:Ha; [| done].
  apply app_eq_nil in Ha. by destruct Ha.
Qed.

(** The two readings of [split] then [join], by simultaneous induction:
    between words, and inside a word that has begun. *)
Lemma join_split_aux (s : str) :
  (forall b, join (py " ") (split_aux isspace [] s)
             = rstrip_rec isspace (lstrip isspace (colapsar_aux isspace b s)))
  /\ (forall cur, cur <> [] ->
        join (py " ") (split_aux isspace cur s)
        = rev cur ++ rstrip_rec isspace (colapsar_aux isspace false s)).
Proof.
  induction s as [|c s [IH0 IH1]].
  - split; [done |]. intros cur Hcur. simpl.
    destruct cur; [done |]. by rewrite app_nil_r.
  - split.
    + intros b. rewrite lstrip_colapsar. simpl.
      destruct (isspace c) eqn:Hc.
      * rewrite (IH0 true). done.
      * simpl. rewrite Hc. rewrite IH1 by done.
        by rewrite rstrip_rec_cons_no_space.
    + intros cur Hcur. simpl. destruct (isspace c) eqn:Hc.
      * destruct cur as [|a cur]; [done |].
        pose proof (IH0 true) as H0. rewrite lstrip_colapsar_true in H0.
        destruct (split_aux isspace [] s) as [|w ws] eqn:Hw.
        -- simpl in H0. simpl rstrip_rec. rewrite <- H0.
           rewrite space_is_space. simpl. by rewrite app_nil_r.
        -- rewrite join_cons by done.
           assert (Hne : rstrip_rec isspace (colapsar_aux isspace true s) <> []).
           { rewrite <- H0. apply join_no_vacio.
             pose proof (split_aux_no_vacio [] s) as [Hall _].
             rewrite Hw in Hall. by inversion Hall. }
           rewrite H0.
           change (32 :: colapsar_aux isspace true s)
             with ([32] ++ colapsar_aux isspace true s).
           by rewrite (rstrip_rec_app [32]).
      * rewrite IH1 by done. rewrite rstrip_rec_cons_no_space by done.
        simpl. by rewrite <- app_assoc.
Qed.

Lemma rstrip_rec_idem (s : str) :
  rstrip_rec isspace (rstrip_rec isspace s) = rstrip_rec isspace s.
Proof.
  induction s as [|c s IH]; [done |]. simpl.
  destruct (rstrip_rec isspace s) as [|a r] eqn:Hr.
  - destruct (isspace c) eqn:Hc; [done |]. simpl. by rewrite Hc.
  - simpl in *. by rewrite IH.
Qed.

Lemma lstrip_rstrip_rec (s : str) :
  lstrip isspace s = s ->
  lstrip isspace (rstrip_rec isspace s) = rstrip_rec isspace s.
Proof.
  destruct s as [|c s]; [done |]. simpl.
  destruct (isspace c) eqn:Hc.
  - intros H. exfalso.
    assert (Hlen : forall t : str, (length (lstrip isspace t) <= length t)%nat).
    { induction t as [|x t IHt]; simpl; [lia |]. destruct (isspace x); simpl; lia. }
    pose proof (Hlen s) as Hl. rewrite H in Hl. simpl in Hl. lia.
  - intros _. destruct (rstrip_rec isspace s); simpl; by rewrite Hc.
Qed.

Lemma lstrip_idem (s : str) :
  lstrip isspace (lstrip isspace s) = lstrip isspace s.
Proof.
  induction s as [|c s IH]; [done |]. simpl.
  destruct (isspace c) eqn:Hc; [done |]. simpl. by rewrite Hc.
Qed.

Lemma strip_idem (s : str) :
  strip isspace (strip isspace s) = strip isspace s.
Proof.
  unfold strip. rewrite !rstrip_rstrip_rec.
  rewrite lstrip_rstrip_rec by apply lstrip_idem.
  apply rstrip_rec_idem.
Qed.

(** [' '.join(s.split())] is the normalised string, and the final
    [strip()] leaves it as it is. *)
Lemma join_split_normalizar (s : str) :
  join (py " ") (split isspace s) = normalizar isspace s.
Proof.
  unfold split, normalizar, colapsar, strip.
  rewrite rstrip_rstrip_rec. apply (join_split_aux s).
Qed.

Lemma strip_join_split (s : str) :
  strip isspace (join (py " ") (split isspace s)) = normalizar isspace s.
Proof.
  rewrite join_split_normalizar. apply strip_idem.
Qed.
End Whitespace.

(** [split] reads the whitespace test on the characters of the string
    only. *)
Lemma split_aux_ext (f g : N -> bool) (cur s : str) :
  Forall (fun c => f c = g c) s -> split_aux f cur s = split_aux g cur s.
Proof.
  intros H. revert cur. induction H as [|c s Hc Hs IH]; intros cur; [done |].
  simpl. rewrite Hc. destruct (g c); [| apply IH].
  destruct cur; by rewrite IH.
Qed.

End PyFacts.

(** ** Properties of the matcher *)

Module ReFacts.
Import Unicode Re Spec.

Lemma latin1_agrees : agrees_on_latin1 latin1.
Proof. by split. Qed.

Section Latin1.
Variable U : db.
Hypothesis HU : agrees_on_latin1 U.

Lemma latin1_tolower_lt (c : N) : c < 256 -> latin1_tolower c < 256.
Proof.
  intros Hc. unfold latin1_tolower, entre.
  destruct (_ || _) eqn:H; [| done].
  repeat (apply orb_true_iff in H as [H | H]);
    apply andb_true_iff in H as [_ H]; apply N.leb_le in H; lia.
Qed.

(** On a Latin-1 character the database answers as [latin1]. *)
Lemma leer_latin1 (c : N) : c < 256 -> leer U c = leer latin1 c.
Proof.
  intros Hc. pose proof (latin1_tolower_lt c Hc) as Hlo.
  unfold leer. simpl.
  rewrite (agree_tolower U HU c Hc).
  by rewrite !(agree_isspace U HU), !(agree_isalnum U HU),
             !(agree_isdecimal U HU).
Qed.

Lemma map_leer_latin1 (s : str) :
  texto_latin1 s = true -> map (leer U) s = map (leer latin1) s.
Proof.
  unfold texto_latin1. induction s as [|c s IH]; [done |]. simpl.
  intros [Hc Hs]%andb_true_iff. apply N.ltb_lt in Hc.
  by rewrite leer_latin1, IH.
Qed.

Lemma compile_literal_latin1 (neg : bool) (c : N) :
  c < 256 -> compile_literal U neg c = compile_literal latin1 neg c.
Proof.
  intros Hc. unfold compile_literal. simpl.
  by rewrite (agree_iscased U HU c Hc), (agree_tolower U HU c Hc).
Qed.

Lemma compile_unidad_latin1 (u : unidad) :
  unidad_latin1 u = true -> compile_unidad U u = compile_unidad latin1 u.
Proof.
  destruct u as [c | c | | items]; simpl.
  - intros Hc%N.ltb_lt. by apply compile_literal_latin1.
  - intros Hc%N.ltb_lt. by apply compile_literal_latin1.
  - done.
  - intros Hits. f_equal.
    + induction items as [|it items IH]; [done |]. simpl in *.
      apply andb_true_iff in Hits as [Hit Hits]. rewrite IH by done.
      destruct it as [c | cat]; [| done]. simpl in Hit.
      apply N.ltb_lt in Hit. by rewrite (agree_iscased U HU c Hit).
    + induction items as [|it items IH]; [done |]. simpl in *.
      apply andb_true_iff in Hits as [Hit Hits]. rewrite IH by done.
      destruct it as [c | cat]; [| done]. simpl in Hit.
      apply N.ltb_lt in Hit. by rewrite (agree_tolower U HU c Hit).
Qed.

Lemma compile_latin1 (r : regex) :
  regex_latin1 r = true -> compile U r = compile latin1 r.
Proof.
  induction r as [ | u | r1 IH1 r2 IH2 | r1 IH1 r2 IH2 | lo hi u | lo hi u
                 | r1 IH1 | g r1 IH1 | r1 IH1 ]; simpl; intros H;
    try (apply andb_true_iff in H as [H1 H2]);
    rewrite ?compile_unidad_latin1, ?IH1, ?IH2 by done; done.
Qed.

(** A Latin-1 pattern on a Latin-1 text: the answer is that of the
    Latin-1 tables. *)
Lemma search_latin1 (r : regex) (texto : str) :
  regex_latin1 r = true -> texto_latin1 texto = true ->
  search U r texto = search latin1 r texto.
Proof.
  intros Hr Ht. unfold search.
  by rewrite compile_latin1, map_leer_latin1.
Qed.
End Latin1.

Lemma tramo_app (pre s : list caracter) : tramo (pre ++ s) s = map ch pre.
Proof.
  unfold tramo. rewrite length_app.
  replace (length pre + length s - length s)%nat with (length pre) by lia.
  by rewrite take_app_length.
Qed.

Lemma repeat_one_todo {R} (p : prueba) (lo : nat) (pre s : list caracter)
    (k : list caracter -> option R) (r : R) :
  Forall (fun x => pasa p x = true) pre ->
  (lo <= length pre)%nat ->
  match s with [] => True | x :: _ => pasa p x = false end ->
  k s = Some r ->
  repeat_one p lo None (pre ++ s) k = Some r.
Proof.
  intros Hpre. revert lo. induction Hpre as [|x pre Hx Hpre IH]; intros lo Hlo Hs Hk.
  - simpl in Hlo. assert (lo = 0%nat) as -> by lia. simpl.
    destruct s as [|x s]; simpl; [done |]. by rewrite Hs.
  - simpl. rewrite Hx. simpl. rewrite IH; [done | simpl in Hlo; lia | done | done].
Qed.

(** The matcher on some lines of a contract. *)
Example ej_proceso_sin_numero :
  search latin1 App.p_proceso_seleccion (py "CONCURSO PUBLICO de precios")
  = Some [Some (py "CONCURSO PUBLICO"); None].
Proof. by vm_compute. Qed.

Example ej_monto :
  search latin1 App.p_monto_contratado_total
    (py "El monto total asciende a S/. 1,234,567.89 soles")
  = Some [Some (py "1,234,567.89")].
Proof. by vm_compute. Qed.

Example ej_representante :
  search latin1 App.p_representante_legal_contratista
    (py "representado por Juan Perez, Jr., identificado con DNI")
  = Some [Some (py "Juan Perez, Jr.")].
Proof. by vm_compute. Qed.

Example ej_ruc_sin_once_digitos :
  search latin1 App.p_ruc_contratista (py "EL CONTRATISTA con RUC N 2012345678")
  = None.
Proof. by vm_compute. Qed.

Lemma buscar_aqui (c : codigo) (g0 : grupos) (s : list caracter) (r : grupos) :
  m c s g0 (fun _ g => Some g) = Some r -> buscar c g0 s = Some r.
Proof. intros H. destruct s; simpl; by rewrite H. Qed.

(** The search passes over the positions where no match starts. *)
Lemma buscar_salta (c : codigo) (g0 : grupos) (s1 s2 : list caracter) :
  (forall j, (j < length s1)%nat ->
     m c (drop j (s1 ++ s2)) g0 (fun _ g => Some g) = None) ->
  buscar c g0 (s1 ++ s2) = buscar c g0 s2.
Proof.
  induction s1 as [|x s1 IH]; intros H; [done |].
  pose proof (H 0%nat ltac:(simpl; lia)) as H0. simpl in H0.
  simpl. rewrite H0. apply IH. intros j Hj. apply (H (S j)). simpl. lia.
Qed.

Lemma search_salta (U : db) (r : regex) (prefijo resto : str) :
  (forall j, (j < length prefijo)%nat ->
     coincide_en U r (prefijo ++ resto) j = None) ->
  search U r (prefijo ++ resto) = search U r resto.
Proof.
  intros H. unfold search. cbv zeta. rewrite map_app. apply buscar_salta.
  intros j Hj. rewrite length_map in Hj. rewrite <- map_app. exact (H j Hj).
Qed.

End ReFacts.

(** ** Properties of [analizar_contrato] *)

Module ExtractorFacts.
Import Unicode Re App Spec PyFacts ReFacts.

Lemma patrones_claves_NoDup : NoDup (patrones.*1).
Proof. apply (bool_decide_unpack _). by vm_compute. Qed.

Section Tabla.
Context {V : Type} (f : regex -> V).

Lemma foldl_tabla_fuera (l : list (string * regex)) (datos : gmap string V)
    (clave : string) :
  clave ∉ l.*1 ->
  foldl (fun d (kp : string * regex) => <[kp.1 := f kp.2]> d) datos l !! clave
  = datos !! clave.
Proof.
  revert datos. induction l as [|[k p] l IH]; intros datos Hk; [done |].
  simpl in *. apply not_elem_of_cons in Hk as [Hne Hk].
  rewrite IH by done. by rewrite lookup_insert_ne.
Qed.

Lemma foldl_tabla_dentro (l : list (string * regex)) (datos : gmap string V)
    (clave : string) (patron : regex) :
  NoDup (l.*1) -> (clave, patron) ∈ l ->
  foldl (fun d (kp : string * regex) => <[kp.1 := f kp.2]> d) datos l !! clave
  = Some (f patron).
Proof.
  revert datos. induction l as [|[k p] l IH]; intros datos Hnd Hin.
  - by apply elem_of_nil in Hin.
  - simpl in *. apply NoDup_cons in Hnd as [Hk Hnd].
    apply elem_of_cons in Hin as [Heq | Hin].
    + injection Heq as -> ->. rewrite foldl_tabla_fuera by done.
      by rewrite lookup_insert_eq.
    + by apply IH.
Qed.
End Tabla.

(** After the loop, each key of the table holds the value computed from
    its own pattern. *)
Lemma analizar_contrato_lookup (U : db) (texto : str) (clave : string)
    (patron : regex) :
  (clave, patron) ∈ patrones ->
  analizar_contrato U texto !! clave = Some (valor U patron texto).
Proof.
  intros Hin. unfold analizar_contrato.
  rewrite <- (foldl_tabla_dentro (fun p => valor U p texto) patrones ∅
                clave patron patrones_claves_NoDup Hin).
  reflexivity.
Qed.

Lemma analizar_contrato_fuera (U : db) (texto : str) (clave : string) :
  clave ∉ patrones.*1 -> analizar_contrato U texto !! clave = None.
Proof.
  intros Hout. unfold analizar_contrato.
  rewrite <- (lookup_empty (M := gmap string) (A := str) clave).
  rewrite <- (foldl_tabla_fuera (fun p => valor U p texto) patrones ∅
                clave Hout).
  reflexivity.
Qed.

(** [limpiar] is the normalisation of the specification. *)
Lemma limpiar_normalizar (U : db) (s : str) :
  agrees_on_latin1 U -> limpiar U s = normalizar (isspace U) s.
Proof.
  intros HU. unfold limpiar. apply strip_join_split.
  by rewrite (agree_isspace U HU).
Qed.

(** On a Latin-1 string [limpiar] is computed by the Latin-1 table. *)
Lemma limpiar_latin1 (U : db) (s : str) :
  agrees_on_latin1 U -> texto_latin1 s = true ->
  limpiar U s = join (py " ") (split latin1_isspace s).
Proof.
  intros HU Hs. unfold limpiar.
  assert (H32 : isspace U 32 = true) by (by rewrite (agree_isspace U HU)).
  rewrite strip_join_split, <- join_split_normalizar by done.
  unfold split. f_equal. apply split_aux_ext.
  apply Forall_forall. intros c Hc. apply (agree_isspace U HU).
  unfold texto_latin1 in Hs. rewrite forallb_forall in Hs.
  apply N.ltb_lt, Hs. by apply list_elem_of_In.
Qed.

Ltac en_patrones :=
  unfold patrones;
  repeat first [ apply list_elem_of_here | apply list_elem_of_further ].

Ltac por_patron H :=
  unfold patrones in H;
  repeat (apply elem_of_cons in H as [H | H];
          [injection H as -> -> |]);
  [.. | by apply elem_of_nil in H].

Lemma prefijo_contrato (K : list caracter -> grupos -> option grupos)
    (resto : list caracter) (r : grupos) :
  K (leer latin1 48 :: resto) [None] = Some r ->
  m (compile latin1 p_num_contrato_prefijo)
    (map (leer latin1) (py "CONTRATO N" ++ [176] ++ py " ") ++ leer latin1 48 :: resto)
    [None] K = Some r.
Proof.
  intros HK. vm_compute in HK. vm_compute. rewrite HK. reflexivity.
Qed.

Lemma m_num_contrato (s : list caracter) (g : grupos)
    (k : list caracter -> grupos -> option grupos) :
  m (compile latin1 p_num_contrato) s g k
  = m (compile latin1 p_num_contrato_prefijo) s g
      (fun s' g' =>
         repeat_one (compile_unidad latin1 clase_numero) 1 None s'
           (fun s'' => k s'' (<[0%nat := Some (tramo s' s'')]> g'))).
Proof. reflexivity. Qed.

Lemma fin_de_numero_pasa (U : db) (sufijo : str) :
  fin_de_numero U sufijo ->
  match map (leer U) sufijo with
  | [] => True
  | x :: _ => pasa (compile_unidad latin1 clase_numero) x = false
  end.
Proof.
  destruct sufijo as [|c sufijo]; [done |].
  intros (Ha & Hd & H95 & H45 & H47 & H46).
  let P := eval vm_compute in (compile_unidad latin1 clase_numero) in
  change (compile_unidad latin1 clase_numero) with P.
  unfold pasa. simpl. rewrite Ha, Hd.
  apply N.eqb_neq in H95, H45, H47, H46.
  by rewrite H95, H45, H47, H46.
Qed.

Lemma num_contrato_045 (U : db) (sufijo : str) :
  agrees_on_latin1 U -> fin_de_numero U sufijo ->
  search U p_num_contrato (CONTRATO_045 ++ sufijo)
  = Some [Some (py "045-2023-ABC")].
Proof.
  intros HU Hfin. unfold search.
  rewrite (compile_latin1 U HU) by (by vm_compute).
  rewrite map_app, (map_leer_latin1 U HU) by (by vm_compute).
  apply buscar_aqui. rewrite m_num_contrato.
  change (map (leer latin1) CONTRATO_045 ++ map (leer U) sufijo)
    with (map (leer latin1) (py "CONTRATO N" ++ [176] ++ py " ")
          ++ leer latin1 48
             :: (map (leer latin1) (py "45-2023-ABC") ++ map (leer U) sufijo)).
  apply prefijo_contrato.
  change (leer latin1 48 :: map (leer latin1) (py "45-2023-ABC") ++ map (leer U) sufijo)
    with (map (leer latin1) (py "045-2023-ABC") ++ map (leer U) sufijo).
  apply repeat_one_todo.
  - apply Forall_forall. intros x Hx. 
    repeat (apply elem_of_cons in Hx as [-> | Hx]; [by vm_compute |]).
    by apply elem_of_nil in Hx.
  - simpl. lia.
  - by apply fin_de_numero_pasa.
  - rewrite tramo_app. by vm_compute.
Qed.

(** C3 (amended): for every text and every field of the pattern table,
    when the field's pattern has no match the value stored under the
    field's key is exactly the sentinel "No encontrado": the key is
    present and its value is not the empty string. *)
Theorem sin_coincidencia_no_encontrado (U : db) (texto : str)
    (clave : string) (patron : regex) :
  (clave, patron) ∈ patrones ->
  search U patron texto = None ->
  analizar_contrato U texto !! clave = Some (py "No encontrado")
  /\ analizar_contrato U texto !! clave <> Some []
  /\ analizar_contrato U texto !! clave <> None.
Proof.
  intros Hin Hno. rewrite (analizar_contrato_lookup U texto clave patron Hin).
  unfold valor. rewrite Hno. by repeat split.
Qed.

Lemma sin_coincidencia_no_encontrado_witness :
  (("num_contrato"%string, p_num_contrato) ∈ patrones
   /\ search latin1 p_num_contrato (py "sin datos") = None)
  /\ analizar_contrato latin1 (py "sin datos") !! "num_contrato"%string
     = Some (py "No encontrado").
Proof.
  assert (Hin : ("num_contrato"%string, p_num_contrato) ∈ patrones)
    by en_patrones.
  assert (Hno : search latin1 p_num_contrato (py "sin datos") = None)
    by (vm_compute; reflexivity).
  split; [by split |].
  exact (proj1 (sin_coincidencia_no_encontrado latin1 (py "sin datos")
                  "num_contrato" p_num_contrato Hin Hno)).
Defined.

(** C3 as stated fails: on the empty text the pattern of [num_contrato]
    has no match, and the value stored is not "not found". *)
Lemma sin_coincidencia_not_found_falla :
  ("num_contrato"%string, p_num_contrato) ∈ patrones
  /\ search latin1 p_num_contrato [] = None
  /\ analizar_contrato latin1 [] !! "num_contrato"%string
     <> Some (py "not found").
Proof.
  split; [en_patrones |]. split; [by vm_compute |].
  rewrite (analizar_contrato_lookup latin1 [] "num_contrato" p_num_contrato)
    by en_patrones.
  by vm_compute.
Qed.

(** C5: for every text and every field whose pattern matches, the value
    stored is made of the groups that took part in the match, in group
    order, joined by one space, then normalised: every run of whitespace
    becomes one space and the ends are trimmed. *)
Theorem grupos_unidos_y_normalizados (U : db) (texto : str)
    (clave : string) (patron : regex) (groups : grupos) :
  agrees_on_latin1 U ->
  (clave, patron) ∈ patrones ->
  search U patron texto = Some groups ->
  analizar_contrato U texto !! clave
  = Some (normalizar (isspace U) (join (py " ") (omap id groups))).
Proof.
  intros HU Hin Hsome.
  rewrite (analizar_contrato_lookup U texto clave patron Hin).
  unfold valor. rewrite Hsome. by rewrite limpiar_normalizar.
Qed.

(** An instance of C5, on the text "Licitación Pública N° 012-2022":
    both groups take part and are joined by one space. *)
Lemma grupos_unidos_y_normalizados_witness :
  let texto := py "Licitaci" ++ [243] ++ py "n P" ++ [250]
               ++ py "blica N" ++ [176] ++ py " 012-2022" in
  let groups := [Some (py "Licitaci" ++ [243] ++ py "n P" ++ [250]
                       ++ py "blica");
                 Some (py "012-2022")] in
  (agrees_on_latin1 latin1
   /\ ("proceso_seleccion"%string, p_proceso_seleccion) ∈ patrones
   /\ search latin1 p_proceso_seleccion texto = Some groups)
  /\ analizar_contrato latin1 texto !! "proceso_seleccion"%string
     = Some (py "Licitaci" ++ [243] ++ py "n P" ++ [250]
             ++ py "blica 012-2022").
Proof.
  intros texto groups.
  assert (Hin : ("proceso_seleccion"%string, p_proceso_seleccion) ∈ patrones)
    by en_patrones.
  assert (Hs : search latin1 p_proceso_seleccion texto = Some groups)
    by (vm_compute; reflexivity).
  split; [by repeat split; try apply latin1_agrees |].
  rewrite (grupos_unidos_y_normalizados latin1 texto "proceso_seleccion"
             p_proceso_seleccion groups latin1_agrees Hin Hs).
  vm_compute. reflexivity.
Defined.

(** C6: the extractor is a function of the text alone: run on two
    identical copies of a text it yields identical field mappings, which
    hold, under each key of the table and under no other key, the value
    computed from that key's pattern. *)
Theorem analizar_contrato_determinista (U : db) (texto1 texto2 : str) :
  texto1 = texto2 ->
  analizar_contrato U texto1 = analizar_contrato U texto2
  /\ (forall clave patron, (clave, patron) ∈ patrones ->
        analizar_contrato U texto1 !! clave = Some (valor U patron texto2))
  /\ (forall clave, clave ∉ patrones.*1 ->
        analizar_contrato U texto1 !! clave = None).
Proof.
  intros ->. split; [reflexivity |]. split.
  - intros clave patron Hin. by apply analizar_contrato_lookup.
  - intros clave Hout. by apply analizar_contrato_fuera.
Qed.

Lemma analizar_contrato_determinista_witness :
  CONTRATO_045 = py "CONTRATO N" ++ [176] ++ py " 045-2023-ABC"
  /\ analizar_contrato latin1 CONTRATO_045
     = analizar_contrato latin1
         (py "CONTRATO N" ++ [176] ++ py " 045-2023-ABC").
Proof.
  split; [reflexivity |].
  apply (analizar_contrato_determinista latin1). reflexivity.
Defined.

(** C4 (amended): for a text that contains "CONTRATO N° 045-2023-ABC",
    where no match of the contract-number pattern starts before that
    line, the number is followed by the end of the text or by a
    character that is not alphanumeric and is none of _ - / . , and
    that matches no other field pattern, the extractor returns
    num_contrato = "045-2023-ABC" and every other field equal to the
    sentinel "No encontrado". *)
Theorem escenario_contrato_045 (U : db) (prefijo sufijo : str) :
  agrees_on_latin1 U ->
  (forall j, (j < length prefijo)%nat ->
     coincide_en U p_num_contrato (prefijo ++ CONTRATO_045 ++ sufijo) j
     = None) ->
  fin_de_numero U sufijo ->
  solo_num_contrato U (prefijo ++ CONTRATO_045 ++ sufijo) ->
  analizar_contrato U (prefijo ++ CONTRATO_045 ++ sufijo)
    !! "num_contrato"%string
  = Some (py "045-2023-ABC")
  /\ forall (clave : string) (patron : regex),
       (clave, patron) ∈ patrones -> clave <> "num_contrato"%string ->
       analizar_contrato U (prefijo ++ CONTRATO_045 ++ sufijo) !! clave
       = Some (py "No encontrado").
Proof.
  intros HU Hantes Hfin Hsolo. split.
  - rewrite (analizar_contrato_lookup U _ "num_contrato" p_num_contrato)
      by en_patrones.
    unfold valor. rewrite (search_salta U p_num_contrato prefijo _ Hantes).
    rewrite (num_contrato_045 U sufijo HU Hfin).
    rewrite limpiar_latin1 by (by vm_compute). by vm_compute.
  - intros clave patron Hin Hne.
    rewrite (analizar_contrato_lookup U _ clave patron Hin).
    unfold valor. by rewrite (Hsolo clave patron Hin Hne).
Qed.

(** The one-page document of the scenario, with a heading before the
    line: the text of the page, and the newline that
    [extraer_texto_con_ocr] puts after each page. *)
Lemma escenario_contrato_045_witness :
  let prefijo := py "Lima, 2023" ++ [10] in
  let texto := prefijo ++ CONTRATO_045 ++ [10] in
  (agrees_on_latin1 latin1
   /\ (forall j, (j < length prefijo)%nat ->
         coincide_en latin1 p_num_contrato texto j = None)
   /\ fin_de_numero latin1 [10]
   /\ solo_num_contrato latin1 texto)
  /\ analizar_contrato latin1 texto !! "num_contrato"%string
     = Some (py "045-2023-ABC")
  /\ analizar_contrato latin1 texto !! "ruc_entidad"%string
     = Some (py "No encontrado").
Proof.
  intros prefijo texto.
  assert (Hantes : forall j, (j < length prefijo)%nat ->
                     coincide_en latin1 p_num_contrato texto j = None).
  { intros j Hj. do 11 (destruct j as [|j]; [by vm_compute |]).
    simpl in Hj. lia. }
  assert (Hfin : fin_de_numero latin1 [10]) by (by vm_compute).
  assert (Hsolo : solo_num_contrato latin1 texto).
  { intros clave patron Hin Hne. por_patron Hin; try done; by vm_compute. }
  destruct (escenario_contrato_045 latin1 prefijo [10] latin1_agrees Hantes
              Hfin Hsolo) as [Hnum Hotros].
  split; [by repeat split; try apply latin1_agrees |].
  split; [exact Hnum |].
  apply (Hotros "ruc_entidad"%string p_ruc_entidad); [en_patrones | done].
Defined.

(** C4 as stated fails three times, each on a text that contains the
    line and matches no other pattern.  The fields without a match hold
    "No encontrado", not "not found".  The search takes the leftmost
    match: in "CONTRATO DE OBRA CONTRATO N° 045-2023-ABC" a match
    starts at the first character and captures "DE".  And the capture
    is greedy: in "CONTRATO N° 045-2023-ABC-X" the number runs on over
    "-X". *)
Lemma escenario_contrato_045_falla :
  (solo_num_contrato latin1 (CONTRATO_045 ++ [10])
   /\ analizar_contrato latin1 (CONTRATO_045 ++ [10])
        !! "fecha_suscripcion_contrato"%string
      <> Some (py "not found"))
  /\ (solo_num_contrato latin1 (py "CONTRATO DE OBRA " ++ CONTRATO_045)
      /\ coincide_en latin1 p_num_contrato
           (py "CONTRATO DE OBRA " ++ CONTRATO_045) 0
         = Some [Some (py "DE")]
      /\ analizar_contrato latin1 (py "CONTRATO DE OBRA " ++ CONTRATO_045)
           !! "num_contrato"%string
         = Some (py "DE"))
  /\ (solo_num_contrato latin1 (CONTRATO_045 ++ py "-X")
      /\ ~ fin_de_numero latin1 (py "-X")
      /\ analizar_contrato latin1 (CONTRATO_045 ++ py "-X")
           !! "num_contrato"%string
         = Some (py "045-2023-ABC-X")).
Proof.
  split; [| split]; split.
  - intros clave patron Hin Hne. por_patron Hin; try done; by vm_compute.
  - rewrite (analizar_contrato_lookup latin1 _ "fecha_suscripcion_contrato"
               p_fecha_suscripcion_contrato) by en_patrones.
    by vm_compute.
  - intros clave patron Hin Hne. por_patron Hin; try done; by vm_compute.
  - split; [by vm_compute |].
    rewrite (analizar_contrato_lookup latin1 _ "num_contrato" p_num_contrato)
      by en_patrones.
    by vm_compute.
  - intros clave patron Hin Hne. por_patron Hin; try done; by vm_compute.
  - split; [by intros (_ & _ & _ & H & _) |].
    rewrite (analizar_contrato_lookup latin1 _ "num_contrato" p_num_contrato)
      by en_patrones.
    by vm_compute.
Qed.

End ExtractorFacts.

(** ** Properties of [extraer_texto_con_ocr] *)

Module AcquirerFacts.
Import Unicode Re App Spec Casos PyFacts ReFacts.

Lemma con_eventos_nil (st : estado) : con_eventos st [] = st.
Proof. destruct st. unfold con_eventos. simpl. by rewrite app_nil_r. Qed.

Lemma con_eventos_app (st : estado) (a b : list evento) :
  con_eventos (con_eventos st a) b = con_eventos st (a ++ b).
Proof. unfold con_eventos. simpl. by rewrite app_assoc. Qed.

Lemma llamar_inr {A} (ev : evento) (a : A) (st : estado) :
  llamar ev (inr a) st = (inr a, con_eventos st [ev]).
Proof. reflexivity. Qed.

Lemma llamar_inl {A} (ev : evento) (e : excepcion) (st : estado) :
  llamar (A := A) ev (inl e) st = (inl e, con_eventos st [ev]).
Proof. reflexivity. Qed.

Ltac en_traza :=
  repeat (rewrite ?elem_of_app, ?elem_of_cons in * ); tauto.

Section Acquirer.
Variable U : db.
Variable E : entorno.

(** The OCR step makes only OCR calls, all for its page, the first of
    them the rendering at 300 DPI, and comes to [ocr_resultado]. *)
Lemma ocr_de_pagina_run (num_pagina : nat) (pagina : Page) (st : estado) :
  exists evs,
    ocr_de_pagina E num_pagina pagina st
    = (ocr_resultado E pagina,
       con_eventos st (ev_get_pixmap num_pagina 300 :: evs))
    /\ Forall (fun ev => es_ocr ev = true /\ pagina_de ev = Some num_pagina)
              (ev_get_pixmap num_pagina 300 :: evs).
Proof.
  unfold ocr_de_pagina, ocr_resultado, mbind, M_bind.
  destruct (get_pixmap pagina 300) as [e | pix].
  { exists []. rewrite llamar_inl. split; [done | by repeat constructor]. }
  rewrite llamar_inr.
  destruct (tobytes pix (py "png")) as [e | img_data].
  { exists [ev_tobytes num_pagina (py "png")].
    rewrite llamar_inl, con_eventos_app.
    split; [done | by repeat constructor]. }
  rewrite llamar_inr.
  destruct (Image_open E img_data) as [e | img].
  { exists [ev_tobytes num_pagina (py "png"); ev_Image_open num_pagina].
    rewrite llamar_inl, !con_eventos_app.
    split; [done | by repeat constructor]. }
  rewrite llamar_inr.
  exists [ev_tobytes num_pagina (py "png"); ev_Image_open num_pagina;
          ev_image_to_string num_pagina (py "spa")].
  destruct (image_to_string E img (py "spa")) as [e | texto_ocr].
  - rewrite llamar_inl, !con_eventos_app.
    split; [done | by repeat constructor].
  - rewrite llamar_inr, !con_eventos_app.
    split; [done | by repeat constructor].
Qed.

(** A page with enough direct text: one call, the text is passed on. *)
Lemma paso_pagina_directo (texto_completo : str) (num_pagina : nat)
    (pagina : Page) (t : str) (st : estado) :
  get_text pagina = inr t ->
  (100 <= length (strip (isspace U) t))%nat ->
  paso_pagina U E texto_completo num_pagina pagina st
  = (inr (texto_completo ++ strip (isspace U) t ++ [10]),
     con_eventos st [ev_get_text num_pagina]).
Proof.
  intros Ht Hlen. unfold paso_pagina, mbind, M_bind.
  rewrite Ht, llamar_inr.
  destruct (Nat.ltb_spec (length (strip (isspace U) t)) 100); [lia | done].
Qed.

(** A page with little direct text whose OCR step returns. *)
Lemma paso_pagina_ocr (texto_completo : str) (num_pagina : nat)
    (pagina : Page) (t texto_ocr : str) (st : estado) :
  get_text pagina = inr t ->
  (length (strip (isspace U) t) < 100)%nat ->
  ocr_resultado E pagina = inr texto_ocr ->
  exists evs,
    paso_pagina U E texto_completo num_pagina pagina st
    = (inr (texto_completo ++ texto_ocr ++ [10]),
       con_eventos st (ev_get_text num_pagina
                       :: ev_get_pixmap num_pagina 300 :: evs))
    /\ Forall (fun ev => es_ocr ev = true /\ pagina_de ev = Some num_pagina)
              evs.
Proof.
  intros Ht Hlen Hocr. unfold paso_pagina, mbind, M_bind.
  rewrite Ht, llamar_inr.
  destruct (Nat.ltb_spec (length (strip (isspace U) t)) 100); [| lia].
  destruct (ocr_de_pagina_run num_pagina pagina
              (con_eventos st [ev_get_text num_pagina]))
    as (evs & Hrun & Hevs).
  exists evs. unfold try_except. rewrite Hrun, Hocr, con_eventos_app.
  split; [done | by inversion Hevs].
Qed.

(** A page with little direct text whose OCR step raises: the warning
    is printed and the direct text is kept. *)
Lemma paso_pagina_ocr_falla (texto_completo : str) (num_pagina : nat)
    (pagina : Page) (t : str) (e : excepcion) (st : estado) :
  get_text pagina = inr t ->
  (length (strip (isspace U) t) < 100)%nat ->
  ocr_resultado E pagina = inl e ->
  exists evs,
    paso_pagina U E texto_completo num_pagina pagina st
    = (inr (texto_completo ++ strip (isspace U) t ++ [10]),
       con_eventos st (ev_get_text num_pagina
                       :: ev_get_pixmap num_pagina 300
                       :: evs ++ [ev_print (advertencia num_pagina e)]))
    /\ Forall (fun ev => es_ocr ev = true /\ pagina_de ev = Some num_pagina)
              evs.
Proof.
  intros Ht Hlen Hocr. unfold paso_pagina, mbind, M_bind.
  rewrite Ht, llamar_inr.
  destruct (Nat.ltb_spec (length (strip (isspace U) t)) 100); [| lia].
  destruct (ocr_de_pagina_run num_pagina pagina
              (con_eventos st [ev_get_text num_pagina]))
    as (evs & Hrun & Hevs).
  exists evs. unfold try_except. rewrite Hrun, Hocr.
  unfold print, registrar. rewrite !con_eventos_app.
  split; [done | by inversion Hevs].
Qed.

Lemma paso_pagina_error (texto_completo : str) (num_pagina : nat)
    (pagina : Page) (e : excepcion) (st : estado) :
  get_text pagina = inl e ->
  paso_pagina U E texto_completo num_pagina pagina st
  = (inl e, con_eventos st [ev_get_text num_pagina]).
Proof.
  intros Ht. unfold paso_pagina, mbind, M_bind. by rewrite Ht, llamar_inl.
Qed.

(** What every turn of the loop does: it only extends the trace, with
    prints and events of its own page; it raises only when direct
    extraction does, and otherwise only extends the text. *)
Lemma paso_pagina_run (texto_completo : str) (num_pagina : nat)
    (pagina : Page) (st : estado) :
  exists r evs,
    paso_pagina U E texto_completo num_pagina pagina st
    = (r, con_eventos st evs)
    /\ Forall (fun ev => forall j, pagina_de ev = Some j -> j = num_pagina)
              evs
    /\ match get_text pagina with
       | inl e => r = inl e
       | inr _ => exists d, r = inr (texto_completo ++ d)
       end.
Proof.
  assert (Hpag : forall evs,
    Forall (fun ev => es_ocr ev = true /\ pagina_de ev = Some num_pagina) evs ->
    Forall (fun ev => forall j, pagina_de ev = Some j -> j = num_pagina) evs).
  { intros evs H. eapply Forall_impl; [exact H |].
    intros ev [_ Hev] j Hj. congruence. }
  destruct (get_text pagina) as [e | t] eqn:Ht.
  { eexists _, _. split; [by apply paso_pagina_error |].
    split; [| done]. repeat constructor. simpl. congruence. }
  destruct (Nat.ltb_spec (length (strip (isspace U) t)) 100) as [Hlt | Hge].
  - destruct (ocr_resultado E pagina) as [e | texto_ocr] eqn:Hocr.
    + destruct (paso_pagina_ocr_falla texto_completo num_pagina pagina t e st
                  Ht Hlt Hocr) as (evs & Hrun & Hevs).
      eexists _, _. split; [exact Hrun |]. split; [| by eexists].
      repeat (constructor; [simpl; congruence |]).
      apply Forall_app. split; [by apply Hpag | by repeat constructor].
    + destruct (paso_pagina_ocr texto_completo num_pagina pagina t texto_ocr st
                  Ht Hlt Hocr) as (evs & Hrun & Hevs).
      eexists _, _. split; [exact Hrun |]. split; [| by eexists].
      repeat (constructor; [simpl; congruence |]). by apply Hpag.
  - eexists _, _. split; [by apply paso_pagina_directo |].
    split; [| by eexists]. repeat constructor. simpl. congruence.
Qed.

Lemma bucle_paginas_app (l1 l2 : list Page) (texto_completo : str)
    (num_pagina : nat) (st : estado) :
  bucle_paginas U E texto_completo num_pagina (l1 ++ l2) st
  = match bucle_paginas U E texto_completo num_pagina l1 st with
    | (inr texto, st') =>
        bucle_paginas U E texto (num_pagina + length l1) l2 st'
    | (inl e, st') => (inl e, st')
    end.
Proof.
  revert texto_completo num_pagina st.
  induction l1 as [|p l1 IH]; intros texto_completo num_pagina st; simpl.
  - by rewrite Nat.add_0_r.
  - unfold mbind, M_bind.
    destruct (paso_pagina U E texto_completo num_pagina p st) as [[e | t] st'];
      [done |].
    rewrite IH. by rewrite Nat.add_succ_r.
Qed.

(** The loop from page [num_pagina]: the events belong to its pages,
    the text is only extended, and it returns when direct extraction
    returns on every page. *)
Lemma bucle_paginas_run (paginas : list Page) (texto_completo : str)
    (num_pagina : nat) (st : estado) :
  exists r evs,
    bucle_paginas U E texto_completo num_pagina paginas st
    = (r, con_eventos st evs)
    /\ Forall (fun ev => forall j, pagina_de ev = Some j ->
                         (num_pagina <= j < num_pagina + length paginas)%nat)
              evs
    /\ (forall texto, r = inr texto -> exists d, texto = texto_completo ++ d)
    /\ (Forall texto_directo_ok paginas -> exists texto, r = inr texto).
Proof.
  revert texto_completo num_pagina st.
  induction paginas as [|p paginas IH]; intros texto_completo num_pagina st.
  - exists (inr texto_completo), []. simpl.
    rewrite con_eventos_nil. split; [done |]. split; [constructor |].
    split; [| by eexists].
    intros texto [= <-]. exists []. by rewrite app_nil_r.
  - simpl. unfold mbind, M_bind.
    destruct (paso_pagina_run texto_completo num_pagina p st)
      as (r1 & evs1 & Hrun1 & Hevs1 & Hr1).
    rewrite Hrun1.
    assert (Hevs1' : Forall (fun ev => forall j, pagina_de ev = Some j ->
              (num_pagina <= j < num_pagina + S (length paginas))%nat) evs1).
    { eapply Forall_impl; [exact Hevs1 |]. intros ev Hev j Hj.
      rewrite (Hev j Hj). lia. }
    destruct r1 as [e | texto1].
    + exists (inl e), evs1. split; [done |]. split; [done |].
      split; [done |].
      intros Hall. inversion Hall as [|? ? [t Ht] ?]; subst.
      rewrite Ht in Hr1. by destruct Hr1.
    + destruct (IH texto1 (S num_pagina) (con_eventos st evs1))
        as (r2 & evs2 & Hrun2 & Hevs2 & Hd2 & Hok2).
      exists r2, (evs1 ++ evs2). rewrite Hrun2, con_eventos_app.
      split; [done |]. split; [| split].
      * apply Forall_app. split; [done |].
        eapply Forall_impl; [exact Hevs2 |]. intros ev Hev j Hj.
        specialize (Hev j Hj). lia.
      * intros texto Hr. destruct (Hd2 texto Hr) as [d2 ->].
        destruct (get_text p); [done |]. destruct Hr1 as [d1 [= ->]].
        exists (d1 ++ d2). by rewrite app_assoc.
      * intros Hall. apply Hok2. by inversion Hall.
Qed.

Lemma extraer_no_abre (stream_pdf : bytes) (e : excepcion) (st : estado) :
  fitz_open E stream_pdf = inl e ->
  extraer_texto_con_ocr U E stream_pdf st
  = (inr (None, Some (error_critico e)),
     con_eventos st [ev_fitz_open; ev_print (error_critico e)]).
Proof.
  intros Hopen. unfold extraer_texto_con_ocr, try_except, mbind, M_bind.
  rewrite Hopen, llamar_inl. unfold print, registrar.
  by rewrite con_eventos_app.
Qed.

(** [extraer_texto_con_ocr] around the loop: the calls after the loop
    are [close] and at most one print. *)
Lemma extraer_de_bucle (stream_pdf : bytes) (doc : Document)
    (r : resultado str) (evs : list evento) (st : estado) :
  fitz_open E stream_pdf = inr doc ->
  bucle_paginas U E [] 0 (pages doc) (con_eventos st [ev_fitz_open])
  = (r, con_eventos (con_eventos st [ev_fitz_open]) evs) ->
  exists fin,
    extraer_texto_con_ocr U E stream_pdf st
    = (inr (tupla_final doc r), con_eventos st (ev_fitz_open :: evs ++ fin))
    /\ Forall (fun ev => es_ocr ev = false) fin.
Proof.
  intros Hopen Hrun.
  unfold extraer_texto_con_ocr, try_except, mbind, M_bind.
  rewrite Hopen, llamar_inr, Hrun. unfold tupla_final.
  destruct r as [e | texto].
  - exists [ev_print (error_critico e)].
    unfold print, registrar. rewrite !con_eventos_app.
    split; [done | by repeat constructor].
  - destruct (close doc) as [e | []].
    + exists [ev_close; ev_print (error_critico e)].
      rewrite llamar_inl. unfold print, registrar.
      rewrite !con_eventos_app.
      split; [done | by repeat constructor].
    + exists [ev_close]. rewrite llamar_inr, !con_eventos_app.
      split; [done | by repeat constructor].
Qed.

Lemma no_ocr_invocado_app (i : nat) (a b : list evento) :
  ~ ocr_invocado i a -> ~ ocr_invocado i b -> ~ ocr_invocado i (a ++ b).
Proof.
  intros Ha Hb (ev & Hin & Hocr & Hpag).
  apply elem_of_app in Hin as [Hin | Hin]; [apply Ha | apply Hb];
    by exists ev.
Qed.

Lemma no_ocr_invocado_otras (i : nat) (evs : list evento) :
  Forall (fun ev => forall j, pagina_de ev = Some j -> j <> i) evs ->
  ~ ocr_invocado i evs.
Proof.
  intros Hall (ev & Hin & Hocr & Hpag).
  rewrite Forall_forall in Hall. by apply (Hall ev Hin i).
Qed.

Lemma no_ocr_invocado_no_ocr (i : nat) (evs : list evento) :
  Forall (fun ev => es_ocr ev = false) evs -> ~ ocr_invocado i evs.
Proof.
  intros Hall (ev & Hin & Hocr & Hpag).
  rewrite Forall_forall in Hall. specialize (Hall ev Hin). congruence.
Qed.

(** The loop at a page with enough direct text. *)
Lemma bucle_pagina_directa (paginas : list Page) (i : nat) (pagina : Page)
    (t : str) (st : estado) :
  paginas !! i = Some pagina ->
  get_text pagina = inr t ->
  (100 <= length (strip (isspace U) t))%nat ->
  exists r evs,
    bucle_paginas U E [] 0 paginas st = (r, con_eventos st evs)
    /\ ~ ocr_invocado i evs
    /\ forall texto, r = inr texto ->
         exists antes despues st1,
           bucle_paginas U E [] 0 (take i paginas) st = (inr antes, st1)
           /\ texto = antes ++ strip (isspace U) t ++ [10] ++ despues.
Proof.
  intros Hi Ht Hlen.
  assert (Hlen_i : length (take i paginas) = i).
  { apply length_take_le. apply lookup_lt_Some in Hi. lia. }
  pose proof (bucle_paginas_app (take i paginas) (pagina :: drop (S i) paginas)
                [] 0 st) as Hb.
  rewrite take_drop_middle, Hlen_i in Hb by done. rewrite Hb. clear Hb.
  destruct (bucle_paginas_run (take i paginas) [] 0 st)
    as (r1 & evs1 & Hrun1 & Hevs1 & _ & _).
  rewrite Hrun1. simpl.
  assert (Hno1 : ~ ocr_invocado i evs1).
  { apply no_ocr_invocado_otras. eapply Forall_impl; [exact Hevs1 |].
    intros ev Hev j Hj. specialize (Hev j Hj). lia. }
  destruct r1 as [e | antes].
  { exists (inl e), evs1. by repeat split. }
  unfold mbind, M_bind. rewrite (paso_pagina_directo _ _ _ t) by done.
  destruct (bucle_paginas_run (drop (S i) paginas)
              (antes ++ strip (isspace U) t ++ [10]) (S i)
              (con_eventos (con_eventos st evs1) [ev_get_text i]))
    as (r3 & evs3 & Hrun3 & Hevs3 & Hd3 & _).
  exists r3, (evs1 ++ [ev_get_text i] ++ evs3).
  rewrite Hrun3, !con_eventos_app. split; [done |]. split.
  - apply no_ocr_invocado_app; [done |].
    apply no_ocr_invocado_app; [by apply no_ocr_invocado_no_ocr; repeat constructor |].
    apply no_ocr_invocado_otras. eapply Forall_impl; [exact Hevs3 |].
    intros ev Hev j Hj. specialize (Hev j Hj). lia.
  - intros texto Hr. destruct (Hd3 texto Hr) as [despues ->].
    exists antes, despues, (con_eventos st evs1).
    split; [done |]. by rewrite <- !app_assoc.
Qed.

(** The loop at a page with little direct text that it reaches. *)
Lemma bucle_pagina_corta (paginas : list Page) (i : nat) (pagina : Page)
    (t : str) (st : estado) :
  paginas !! i = Some pagina ->
  Forall texto_directo_ok (take i paginas) ->
  get_text pagina = inr t ->
  (length (strip (isspace U) t) < 100)%nat ->
  exists r evs antes st1,
    bucle_paginas U E [] 0 paginas st = (r, con_eventos st evs)
    /\ bucle_paginas U E [] 0 (take i paginas) st = (inr antes, st1)
    /\ ev_get_pixmap i 300 ∈ evs
    /\ (Forall texto_directo_ok (drop (S i) paginas) ->
        exists texto, r = inr texto)
    /\ forall e, ocr_resultado E pagina = inl e ->
         ev_print (advertencia i e) ∈ evs
         /\ forall texto, r = inr texto ->
              exists despues,
                texto = antes ++ strip (isspace U) t ++ [10] ++ despues.
Proof.
  intros Hi Hantes Ht Hlen.
  assert (Hlen_i : length (take i paginas) = i).
  { apply length_take_le. apply lookup_lt_Some in Hi. lia. }
  pose proof (bucle_paginas_app (take i paginas) (pagina :: drop (S i) paginas)
                [] 0 st) as Hb.
  rewrite take_drop_middle, Hlen_i in Hb by done. rewrite Hb. clear Hb.
  destruct (bucle_paginas_run (take i paginas) [] 0 st)
    as (r1 & evs1 & Hrun1 & _ & _ & Hok1).
  destruct (Hok1 Hantes) as [antes ->].
  rewrite Hrun1. simpl. unfold mbind, M_bind.
  destruct (ocr_resultado E pagina) as [e | texto_ocr] eqn:Hocr.
  - destruct (paso_pagina_ocr_falla antes i pagina t e (con_eventos st evs1)
                Ht Hlen Hocr) as (evs2 & Hrun2 & _).
    rewrite Hrun2.
    destruct (bucle_paginas_run (drop (S i) paginas)
                (antes ++ strip (isspace U) t ++ [10]) (S i)
                (con_eventos (con_eventos st evs1)
                   (ev_get_text i :: ev_get_pixmap i 300
                    :: evs2 ++ [ev_print (advertencia i e)])))
      as (r3 & evs3 & Hrun3 & _ & Hd3 & Hok3).
    eexists r3, _, antes, _. rewrite Hrun3, !con_eventos_app.
    split; [done |]. split; [done |]. split; [en_traza |].
    split; [done |]. intros e' [= <-]. split; [en_traza |].
    intros texto Hr. destruct (Hd3 texto Hr) as [despues ->].
    exists despues. by rewrite <- !app_assoc.
  - destruct (paso_pagina_ocr antes i pagina t texto_ocr (con_eventos st evs1)
                Ht Hlen Hocr) as (evs2 & Hrun2 & _).
    rewrite Hrun2.
    destruct (bucle_paginas_run (drop (S i) paginas)
                (antes ++ texto_ocr ++ [10]) (S i)
                (con_eventos (con_eventos st evs1)
                   (ev_get_text i :: ev_get_pixmap i 300 :: evs2)))
      as (r3 & evs3 & Hrun3 & _ & Hd3 & Hok3).
    eexists r3, _, antes, _. rewrite Hrun3, !con_eventos_app.
    split; [done |]. split; [done |]. split; [en_traza |].
    split; [done |]. done.
Qed.

End Acquirer.

End AcquirerFacts.

(** ** Properties of [process_files] *)

Module PipelineFacts.
Import Unicode Re App Spec Casos PyFacts ReFacts ExtractorFacts AcquirerFacts.

Lemma aporta_nada (st : estado) : aporta st st [].
Proof.
  exists []. split; [constructor |]. simpl. by rewrite !app_nil_r.
Qed.

Lemma aporta_app (st st1 st2 : estado) (docs1 docs2 : list str) :
  aporta st st1 docs1 -> aporta st1 st2 docs2 ->
  aporta st st2 (docs1 ++ docs2).
Proof.
  intros (s1 & Hs1 & Hok1 & Herr1) (s2 & Hs2 & Hok2 & Herr2).
  exists (s1 ++ s2). split; [by apply Forall2_app |].
  unfold registros, mensajes in *. rewrite !omap_app.
  rewrite Hok2, Hok1, Herr2, Herr1. by rewrite !app_assoc.
Qed.

Lemma aporta_traza (st st' : estado) (evs : list evento) (docs : list str) :
  aporta (con_eventos st evs) st' docs -> aporta st st' docs.
Proof. intros (s & Hs & Hok & Herr). by exists s. Qed.

(** One error string that names the document. *)
Lemma aporta_error (st : estado) (doc a b : str) :
  aporta st (errores_append (a ++ doc ++ b) st).2 [doc].
Proof.
  exists [inr (a ++ doc ++ b)]. split.
  - constructor; [by exists a, b | constructor].
  - simpl. by rewrite app_nil_r.
Qed.

(** One record tagged with the document. *)
Lemma aporta_registro (st : estado) (doc : str) (datos : gmap string str) :
  aporta st (resultados_append (<["Archivo"%string := doc]> datos) st).2 [doc].
Proof.
  exists [inl (<["Archivo"%string := doc]> datos)]. split.
  - constructor; [apply lookup_insert_eq | constructor].
  - simpl. by rewrite app_nil_r.
Qed.

Section Pipeline.
Variable U : db.
Variable E : entorno.

(** [extraer_texto_con_ocr] always returns, with a text and no error or
    with no text and a non-empty error; it only extends the trace. *)
Lemma extraer_run (stream_pdf : bytes) (st : estado) :
  exists tupla evs,
    extraer_texto_con_ocr U E stream_pdf st = (inr tupla, con_eventos st evs)
    /\ ((exists texto, tupla = (Some texto, None))
        \/ (exists e, tupla = (None, Some (error_critico e)))).
Proof.
  destruct (fitz_open E stream_pdf) as [e | doc] eqn:Hopen.
  - eexists _, _. split; [by apply extraer_no_abre |]. right. by exists e.
  - destruct (bucle_paginas_run U E (pages doc) [] 0
                (con_eventos st [ev_fitz_open]))
      as (r & evs & Hrun & _).
    destruct (extraer_de_bucle U E stream_pdf doc r evs st Hopen Hrun)
      as (fin & Hext & _).
    eexists _, _. split; [exact Hext |]. unfold tupla_final.
    destruct r as [e | texto]; [right; by exists e |].
    destruct (close doc) as [e | ?]; [right; by exists e | left; by exists texto].
Qed.

(** What follows the call of [extraer_texto_con_ocr] for the document
    named [doc]: one record or one error string. *)
Lemma tras_extraer (doc : str) (a b : str) (tupla : option str * option str)
    (st : estado) :
  ((exists texto, tupla = (Some texto, None))
   \/ (exists e, tupla = (None, Some (error_critico e)))) ->
  exists st',
    (let '(texto, error) := tupla in
     if es_verdadero error
     then errores_append (a ++ doc ++ b ++ default [] error)
     else datos ← analizar_texto U texto;
          resultados_append (<["Archivo"%string := doc]> datos)) st
    = (inr tt, st')
    /\ aporta st st' [doc].
Proof.
  intros [[texto ->] | [e ->]]; simpl.
  - eexists. split; [reflexivity |]. apply aporta_registro.
  - eexists. split; [reflexivity |].
    apply (aporta_error st doc a (b ++ error_critico e)).
Qed.

Lemma procesar_pdf_run (file : FileStorage) (st : estado) :
  exists st',
    procesar_pdf U E file st = (inr tt, st')
    /\ aporta st st' [filename file].
Proof.
  unfold procesar_pdf, try_except, mbind, M_bind.
  destruct (file_read file) as [e | pdf_stream].
  - rewrite llamar_inl. eexists. split; [reflexivity |].
    eapply aporta_traza.
    apply (aporta_error _ (filename file) (py "Error inesperado procesando '")
             (py "': " ++ mensaje e)).
  - rewrite llamar_inr.
    destruct (extraer_run pdf_stream
                (con_eventos st [ev_file_read (filename file)]))
      as (tupla & evs & -> & Htupla).
    destruct (tras_extraer (filename file) (py "'") (py "': ") tupla
                (con_eventos (con_eventos st [ev_file_read (filename file)]) evs)
                Htupla) as (st' & Hrun & Hap).
    destruct tupla as [texto error]. cbv beta iota in Hrun |- *.
    unfold mbind, M_bind in Hrun. rewrite Hrun.
    exists st'. split; [done |]. by do 2 eapply aporta_traza.
Qed.

Lemma procesar_entrada_run (nombre_archivo : str) (zip_ref : ZipFile)
    (item_name : str) (st : estado) :
  exists st',
    procesar_entrada U E nombre_archivo zip_ref item_name st = (inr tt, st')
    /\ aporta st st' (if entrada_aceptada U item_name then [item_name] else [])
    /\ (entrada_aceptada U item_name = false -> st' = st).
Proof.
  unfold procesar_entrada.
  destruct (entrada_aceptada U item_name).
  2: { exists st. split; [done |]. split; [apply aporta_nada | done]. }
  unfold try_except, mbind, M_bind.
  destruct (read zip_ref item_name) as [e | pdf_data_in_zip].
  - rewrite llamar_inl. eexists. split; [reflexivity |]. split; [| done].
    eapply aporta_traza.
    apply (aporta_error _ item_name (py "Error procesando '")
             (py "' (dentro de " ++ nombre_archivo ++ py "): " ++ mensaje e)).
  - rewrite llamar_inr.
    destruct (extraer_run pdf_data_in_zip
                (con_eventos st [ev_zip_read item_name]))
      as (tupla & evs & -> & Htupla).
    destruct (tras_extraer item_name (py "Error en '")
                (py "' (dentro de " ++ nombre_archivo ++ py "): ") tupla
                (con_eventos (con_eventos st [ev_zip_read item_name]) evs)
                Htupla) as (st' & Hrun & Hap).
    destruct tupla as [texto error]. cbv beta iota in Hrun |- *.
    unfold mbind, M_bind in Hrun. rewrite <- !app_assoc in Hrun.
    rewrite Hrun.
    exists st'. split; [done |]. split; [| done].
    by do 2 eapply aporta_traza.
Qed.

Lemma entradas_run (nombre_archivo : str) (zip_ref : ZipFile)
    (items : list str) (st : estado) :
  exists st',
    for_each items (procesar_entrada U E nombre_archivo zip_ref) st
    = (inr tt, st')
    /\ aporta st st' (filter (fun item => entrada_aceptada U item = true) items).
Proof.
  revert st. induction items as [|item items IH]; intros st.
  - exists st. split; [done | apply aporta_nada].
  - simpl. unfold mbind, M_bind.
    destruct (procesar_entrada_run nombre_archivo zip_ref item st)
      as (st1 & -> & Hap1 & _).
    destruct (IH st1) as (st2 & -> & Hap2).
    exists st2. split; [done |]. rewrite filter_cons.
    destruct (entrada_aceptada U item) eqn:Hacc.
    + rewrite decide_True by done. by apply (aporta_app st st1 st2 [item]).
    + rewrite decide_False by done. by apply (aporta_app st st1 st2 []).
Qed.

Lemma procesar_zip_run (file : FileStorage) (st : estado) :
  exists st',
    procesar_zip U E file st = (inr tt, st')
    /\ aporta st st'
         match abrir_zip E file with
         | Some zip_ref =>
             filter (fun item => entrada_aceptada U item = true)
                    (namelist zip_ref)
         | None => [filename file]
         end.
Proof.
  unfold procesar_zip, abrir_zip, try_except, mbind, M_bind.
  destruct (file_read file) as [e | zip_stream].
  { rewrite llamar_inl. eexists. split; [reflexivity |].
    eapply aporta_traza.
    apply (aporta_error _ (filename file)
             (py "Error al procesar el archivo ZIP '") (py "': " ++ mensaje e)). }
  rewrite llamar_inr.
  destruct (is_zipfile E zip_stream) as [e | valido].
  { rewrite llamar_inl. eexists. split; [reflexivity |].
    do 2 eapply aporta_traza.
    apply (aporta_error _ (filename file)
             (py "Error al procesar el archivo ZIP '") (py "': " ++ mensaje e)). }
  rewrite llamar_inr.
  destruct valido;
    [change (negb true) with false | change (negb false) with true];
    cbv beta iota.
  2: { eexists. split; [reflexivity |]. do 2 eapply aporta_traza.
       apply (aporta_error _ (filename file) (py "'")
                (py "' no es un archivo ZIP v" ++ [225] ++ py "lido.")). }
  destruct (zipfile_ZipFile E zip_stream) as [e | zip_ref].
  { rewrite llamar_inl. eexists. split; [reflexivity |].
    do 3 eapply aporta_traza.
    apply (aporta_error _ (filename file)
             (py "Error al procesar el archivo ZIP '") (py "': " ++ mensaje e)). }
  rewrite llamar_inr.
  destruct (entradas_run (filename file) zip_ref (namelist zip_ref)
              (con_eventos (con_eventos (con_eventos st
                 [ev_file_read (filename file)]) [ev_is_zipfile]) [ev_ZipFile]))
    as (st' & -> & Hap).
  exists st'. split; [done |]. by do 3 eapply aporta_traza.
Qed.

Lemma procesar_archivo_run (file : FileStorage) (st : estado) :
  exists st',
    procesar_archivo U E file st = (inr tt, st')
    /\ aporta st st' (documentos_de U E file).
Proof.
  unfold procesar_archivo, documentos_de.
  destruct (endswith (filename file) (py ".zip"));
    [apply procesar_zip_run |].
  destruct (endswith (filename file) (py ".pdf"));
    [apply procesar_pdf_run |].
  exists st. split; [done | apply aporta_nada].
Qed.

Lemma archivos_run (files : list FileStorage) (st : estado) :
  exists st',
    for_each files (procesar_archivo U E) st = (inr tt, st')
    /\ aporta st st' (concat (map (documentos_de U E) files)).
Proof.
  revert st. induction files as [|file files IH]; intros st.
  - exists st. split; [done | apply aporta_nada].
  - simpl. unfold mbind, M_bind.
    destruct (procesar_archivo_run file st) as (st1 & -> & Hap1).
    destruct (IH st1) as (st2 & -> & Hap2).
    exists st2. split; [done |]. by apply (aporta_app st st1 st2).
Qed.
End Pipeline.

Lemma search_vacio (U : db) (clave : string) (patron : regex) :
  (clave, patron) ∈ patrones -> search U patron [] = None.
Proof. intros Hin. por_patron Hin; by vm_compute. Qed.

Lemma salidas_vacias (salidas : list (gmap string str + str)) :
  registros salidas = [] -> mensajes salidas = [] -> salidas = [].
Proof. destruct salidas as [|[datos | msg] salidas]; done. Qed.

Lemma pdf_no_zip (nombre : str) :
  endswith nombre (py ".pdf") = true -> endswith nombre (py ".zip") = false.
Proof.
  unfold endswith. destruct (rev nombre) as [|c resto]; [done |].
  change (rev (py ".pdf")) with [102; 100; 112; 46].
  change (rev (py ".zip")) with [112; 105; 122; 46].
  simpl. destruct (N.eqb_spec c 102) as [-> |]; [done | done].
Qed.

Lemma Archivo_no_es_clave : "Archivo"%string ∉ patrones.*1.
Proof. apply (bool_decide_unpack _). by vm_compute. Qed.

Lemma solo_mensajes (docs : list str)
    (salidas : list (gmap string str + str)) :
  Forall2 salida_de docs salidas -> registros salidas = [] ->
  Forall2 (fun doc msg => exists a b, msg = a ++ doc ++ b)
          docs (mensajes salidas).
Proof.
  induction 1 as [|doc [datos | msg] docs salidas Hdoc Hrest IH];
    [constructor | done |].
  intros Hreg. simpl. constructor; [done | by apply IH].
Qed.

Section Lote.
Variable U : db.
Variable E : entorno.

Lemma analizar_contrato_vacio (clave : string) (patron : regex) :
  (clave, patron) ∈ patrones ->
  analizar_contrato U [] !! clave = Some NO_ENCONTRADO.
Proof.
  intros Hin. rewrite (analizar_contrato_lookup U [] clave patron Hin).
  unfold valor. by rewrite (search_vacio U clave patron Hin).
Qed.

Lemma documentos_de_vacio (file : FileStorage) :
  documentos_de U E file = [] ->
  endswith (filename file) (py ".pdf") = false
  /\ (endswith (filename file) (py ".zip") = true ->
      exists zip_ref,
        abrir_zip E file = Some zip_ref
        /\ Forall (fun item => entrada_aceptada U item = false)
                  (namelist zip_ref)).
Proof.
  unfold documentos_de.
  destruct (endswith (filename file) (py ".zip")) eqn:Hzip.
  - destruct (abrir_zip E file) as [zip_ref |]; [| done].
    intros Hnil. split.
    + destruct (endswith (filename file) (py ".pdf")) eqn:Hpdf; [| done].
      apply pdf_no_zip in Hpdf. congruence.
    + intros _. exists zip_ref. split; [done |].
      apply Forall_forall. intros item Hitem.
      destruct (entrada_aceptada U item) eqn:Hacc; [| done].
      assert (item ∈ filter (fun item => entrada_aceptada U item = true)
                            (namelist zip_ref)) as Hin
        by (by apply list_elem_of_filter).
      rewrite Hnil in Hin. by apply elem_of_nil in Hin.
  - destruct (endswith (filename file) (py ".pdf")); [done |].
    intros _. by split.
Qed.

(** C8: every document of the batch leaves exactly one entry, in
    input order, in exactly one of the two lists, a record tagged with
    its name or an error string that names it; the loop over the
    uploads always runs to its end; and an upload that leaves nothing
    in either list is not a [.pdf] and, if it is a [.zip], is an
    archive that opened and holds no accepted entry. *)
Theorem cada_documento_una_salida (files : list FileStorage) (st : estado) :
  (exists st' salidas,
     for_each files (procesar_archivo U E) st = (inr tt, st')
     /\ Forall2 salida_de (concat (map (documentos_de U E) files)) salidas
     /\ resultados_ok st' = resultados_ok st ++ registros salidas
     /\ errores_proceso st' = errores_proceso st ++ mensajes salidas)
  /\ forall file st1 st2,
       procesar_archivo U E file st1 = (inr tt, st2) ->
       resultados_ok st2 = resultados_ok st1 ->
       errores_proceso st2 = errores_proceso st1 ->
       endswith (filename file) (py ".pdf") = false
       /\ (endswith (filename file) (py ".zip") = true ->
           exists zip_ref,
             abrir_zip E file = Some zip_ref
             /\ Forall (fun item => entrada_aceptada U item = false)
                       (namelist zip_ref)).
Proof.
  split.
  - destruct (archivos_run U E files st) as (st' & Hrun & salidas & H).
    by exists st', salidas.
  - intros file st1 st2 Hrun Hok Herr.
    destruct (procesar_archivo_run U E file st1)
      as (st2' & Hrun' & salidas & Hsal & Hok' & Herr').
    rewrite Hrun in Hrun'. injection Hrun' as <-.
    rewrite Hok in Hok'. rewrite Herr in Herr'.
    assert (salidas = []) as ->.
    { apply salidas_vacias.
      - apply (app_inv_head (resultados_ok st1)). by rewrite app_nil_r.
      - apply (app_inv_head (errores_proceso st1)). by rewrite app_nil_r. }
    apply documentos_de_vacio. by inversion Hsal.
Qed.

(** C9: when the list of records is empty at the end of the run, the
    response says [success = false] and its error list is the fixed
    headline followed by every collected error string, in order, one
    for each document of the batch. *)
Theorem lote_sin_registros_falla (files : list FileStorage)
    (st st' : estado) (r : resultado respuesta) :
  process_files U E (Some files) st = (r, st') ->
  resultados_ok st' = [] ->
  exists resp msgs,
    r = inr resp
    /\ success resp = false
    /\ errors resp = NINGUN_ARCHIVO :: errores_proceso st'
    /\ errores_proceso st' = msgs
    /\ Forall2 (fun doc msg => exists a b, msg = a ++ doc ++ b)
               (concat (map (documentos_de U E) files)) msgs.
Proof.
  unfold process_files, mbind, M_bind. intros Hrun Hvacio.
  unfold locales_nuevos in Hrun.
  destruct (archivos_run U E files
              {| traza := traza st; resultados_ok := [];
                 errores_proceso := [];
                 session_excel_data := session_excel_data st |})
    as (st1 & Hloop & salidas & Hsal & Hok & Herr).
  rewrite Hloop in Hrun. unfold leer_estado in Hrun. simpl in Hok, Herr.
  destruct (resultados_ok st1) as [|datos resto] eqn:Hres.
  - injection Hrun as <- <-.
    eexists _, (errores_proceso st1). split; [reflexivity |].
    split; [done |]. split; [done |]. split; [done |].
    rewrite Herr. by apply solo_mensajes.
  - exfalso.
    destruct (to_excel E (datos :: resto)) as [e | excel].
    + rewrite llamar_inl in Hrun. injection Hrun as <- <-.
      simpl in Hvacio. congruence.
    + rewrite llamar_inr in Hrun. unfold session_set in Hrun.
      destruct (to_html E (datos :: resto)) as [e | html].
      * rewrite llamar_inl in Hrun. injection Hrun as <- <-.
        simpl in Hvacio. congruence.
      * rewrite llamar_inr in Hrun. injection Hrun as <- <-.
        simpl in Hvacio. congruence.
Qed.

(** C7: an upload is handled as an archive exactly when its name ends
    in the code points of ".zip", as a single document exactly when it
    ends in those of ".pdf", and is otherwise skipped without a call;
    both tests compare code points, so case matters.  An archive entry
    is processed exactly when its lower-cased name ends in ".pdf" and
    the name does not begin with "__MACOSX"; any other entry is
    skipped without a call. *)
Theorem clasificacion_por_sufijo :
  (forall file, endswith (filename file) (py ".zip") = true ->
     procesar_archivo U E file = procesar_zip U E file)
  /\ (forall file, endswith (filename file) (py ".pdf") = true ->
        procesar_archivo U E file = procesar_pdf U E file)
  /\ (forall file st,
        endswith (filename file) (py ".zip") = false ->
        endswith (filename file) (py ".pdf") = false ->
        procesar_archivo U E file st = (inr tt, st))
  /\ (forall nombre : str,
        (endswith nombre (py ".zip") = true
         <-> exists pre, nombre = pre ++ [46; 122; 105; 112])
        /\ (endswith nombre (py ".pdf") = true
            <-> exists pre, nombre = pre ++ [46; 112; 100; 102]))
  /\ (forall item_name : str,
        entrada_aceptada U item_name = true
        <-> (exists pre, str_lower U item_name = pre ++ py ".pdf")
            /\ ~ (exists post, item_name = py "__MACOSX" ++ post))
  /\ (forall nombre_archivo zip_ref item_name st,
        entrada_aceptada U item_name = false ->
        procesar_entrada U E nombre_archivo zip_ref item_name st
        = (inr tt, st))
  /\ (forall nombre_archivo zip_ref item_name st,
        entrada_aceptada U item_name = true ->
        exists st',
          procesar_entrada U E nombre_archivo zip_ref item_name st
          = (inr tt, st')
          /\ ev_zip_read item_name ∈ traza st'
          /\ aporta st st' [item_name]).
Proof.
  split; [| split; [| split; [| split; [| split; [| split]]]]].
  - intros file Hzip. unfold procesar_archivo. cbv zeta. by rewrite Hzip.
  - intros file Hpdf. unfold procesar_archivo. cbv zeta.
    by rewrite (pdf_no_zip _ Hpdf), Hpdf.
  - intros file st Hzip Hpdf. unfold procesar_archivo. cbv zeta.
    by rewrite Hzip, Hpdf.
  - intros nombre. split; apply endswith_spec.
  - intros item_name. unfold entrada_aceptada.
    rewrite andb_true_iff, negb_true_iff, endswith_spec.
    rewrite <- not_true_iff_false, startswith_spec. done.
  - intros nombre_archivo zip_ref item_name st Hacc.
    unfold procesar_entrada. by rewrite Hacc.
  - intros nombre_archivo zip_ref item_name st Hacc.
    destruct (procesar_entrada_run U E nombre_archivo zip_ref item_name st)
      as (st' & Hrun & Hap & _).
    rewrite Hacc in Hap. exists st'. split; [done |]. split; [| done].
    revert Hrun. unfold procesar_entrada. rewrite Hacc.
    unfold try_except, mbind, M_bind.
    destruct (read zip_ref item_name) as [e | data].
    + rewrite llamar_inl. intros [= <-]. simpl. en_traza.
    + rewrite llamar_inr.
      destruct (extraer_run U E data (con_eventos st [ev_zip_read item_name]))
        as (tupla & evs & -> & Htupla).
      destruct tupla as [texto error]. cbv beta iota.
      destruct Htupla as [[t [= -> ->]] | [e [= -> ->]]]; simpl;
        intros [= <-]; simpl; en_traza.
Qed.

(** C10: [extraer_texto_con_ocr] returns for every input and every
    state, never raising, and what it returns is a text with no error
    or no text with a non-empty error; a document that opens and has
    no page gives the empty text with no error, and as an upload named
    [.pdf] it leaves one record, tagged with its name, in which every
    field of the table is the sentinel, and no error string. *)
Theorem extraer_texto_con_ocr_total (stream_pdf : bytes) (st : estado) :
  (exists tupla st',
     extraer_texto_con_ocr U E stream_pdf st = (inr tupla, st')
     /\ ((exists texto, tupla = (Some texto, None))
         \/ (exists error_msg,
               tupla = (None, Some error_msg) /\ error_msg <> [])))
  /\ (forall doc,
        fitz_open E stream_pdf = inr doc -> pages doc = [] ->
        close doc = inr tt ->
        (extraer_texto_con_ocr U E stream_pdf st).1 = inr (Some [], None))
  /\ (forall file doc,
        endswith (filename file) (py ".pdf") = true ->
        file_read file = inr stream_pdf ->
        fitz_open E stream_pdf = inr doc -> pages doc = [] ->
        close doc = inr tt ->
        exists st' datos,
          procesar_archivo U E file st = (inr tt, st')
          /\ resultados_ok st' = resultados_ok st ++ [datos]
          /\ errores_proceso st' = errores_proceso st
          /\ datos !! "Archivo"%string = Some (filename file)
          /\ forall clave patron, (clave, patron) ∈ patrones ->
               datos !! clave = Some NO_ENCONTRADO).
Proof.
  assert (Hvacio : forall doc,
    fitz_open E stream_pdf = inr doc -> pages doc = [] ->
    close doc = inr tt ->
    forall st0, extraer_texto_con_ocr U E stream_pdf st0
    = (inr (Some [], None), con_eventos st0 [ev_fitz_open; ev_close])).
  { intros doc Hopen Hpages Hclose st0.
    unfold extraer_texto_con_ocr, try_except, mbind, M_bind.
    rewrite Hopen, llamar_inr, Hpages. simpl bucle_paginas.
    unfold mret, M_ret. rewrite Hclose, llamar_inr.
    by rewrite con_eventos_app. }
  split; [| split].
  - destruct (extraer_run U E stream_pdf st) as (tupla & evs & Hrun & Hforma).
    eexists _, _. split; [exact Hrun |].
    destruct Hforma as [Htexto | [e ->]]; [by left | right].
    exists (error_critico e). split; [done |]. by unfold error_critico.
  - intros doc Hopen Hpages Hclose. by rewrite (Hvacio doc).
  - intros file doc Hpdf Hread Hopen Hpages Hclose.
    unfold procesar_archivo. cbv zeta. rewrite (pdf_no_zip _ Hpdf), Hpdf.
    unfold procesar_pdf, try_except, mbind, M_bind.
    rewrite Hread, llamar_inr, (Hvacio doc Hopen Hpages Hclose).
    cbv beta iota. simpl es_verdadero. cbv iota.
    eexists _, _. split; [reflexivity |]. simpl.
    split; [done |]. split; [done |]. split; [apply lookup_insert_eq |].
    intros clave patron Hin. rewrite lookup_insert_ne.
    + by apply (analizar_contrato_vacio clave patron).
    + intros <-. apply Archivo_no_es_clave.
      apply list_elem_of_fmap. by exists ("Archivo"%string, patron).
Qed.
End Lote.

Lemma clasificacion_por_sufijo_witness :
  (endswith (py "A.PDF") (py ".zip") = false
   /\ endswith (py "A.PDF") (py ".pdf") = false
   /\ entrada_aceptada latin1 (py "A.PDF") = true
   /\ entrada_aceptada latin1 (py "__MACOSX/._a.pdf") = false)
  /\ procesar_archivo latin1 entorno_prueba (subida "A.PDF" [Byte.x00])
       estado_inicial
     = (inr tt, estado_inicial)
  /\ (exists st',
        procesar_entrada latin1 entorno_prueba (py "b.zip") zip_muestra
          (py "A.PDF") estado_inicial = (inr tt, st')
        /\ ev_zip_read (py "A.PDF") ∈ traza st'
        /\ aporta estado_inicial st' [py "A.PDF"])
  /\ procesar_entrada latin1 entorno_prueba (py "b.zip") zip_muestra
       (py "__MACOSX/._a.pdf") estado_inicial
     = (inr tt, estado_inicial).
Proof.
  destruct (clasificacion_por_sufijo latin1 entorno_prueba)
    as (_ & _ & Hotro & _ & _ & Hfuera & Hdentro).
  assert (H1 : endswith (py "A.PDF") (py ".zip") = false) by reflexivity.
  assert (H2 : endswith (py "A.PDF") (py ".pdf") = false) by reflexivity.
  assert (H3 : entrada_aceptada latin1 (py "A.PDF") = true) by reflexivity.
  assert (H4 : entrada_aceptada latin1 (py "__MACOSX/._a.pdf") = false)
    by reflexivity.
  split; [done |]. split; [| split].
  - exact (Hotro (subida "A.PDF" [Byte.x00]) estado_inicial H1 H2).
  - exact (Hdentro (py "b.zip") zip_muestra (py "A.PDF") estado_inicial H3).
  - exact (Hfuera (py "b.zip") zip_muestra (py "__MACOSX/._a.pdf")
             estado_inicial H4).
Defined.

(** An instance of C8, on a batch of a document that does not open, an
    archive with two accepted entries among four, a text file and a
    [.PDF] upload. *)
Lemma cada_documento_una_salida_witness :
  let files := [subida "a.pdf" []; subida "b.zip" [Byte.x00];
                subida "c.txt" []; subida "D.PDF" [Byte.x00]] in
  concat (map (documentos_de latin1 entorno_prueba) files)
  = [py "a.pdf"; py "sample.pdf"; py "B.PDF"]
  /\ exists st' salidas,
       for_each files (procesar_archivo latin1 entorno_prueba) estado_inicial
       = (inr tt, st')
       /\ length salidas = 3%nat
       /\ resultados_ok st' = registros salidas
       /\ errores_proceso st' = mensajes salidas.
Proof.
  intros files.
  assert (Hdocs : concat (map (documentos_de latin1 entorno_prueba) files)
                  = [py "a.pdf"; py "sample.pdf"; py "B.PDF"])
    by reflexivity.
  split; [exact Hdocs |].
  destruct (cada_documento_una_salida latin1 entorno_prueba files
              estado_inicial) as [(st' & salidas & Hrun & Hsal & Hok & Herr) _].
  exists st', salidas. split; [exact Hrun |]. split; [| by split].
  rewrite Hdocs in Hsal. by rewrite <- (Forall2_length _ _ _ Hsal).
Defined.

Lemma lote_sin_registros_falla_witness :
  let files := [subida "a.pdf" []; subida "c.txt" []] in
  let corrida :=
    process_files latin1 entorno_prueba (Some files) estado_inicial in
  resultados_ok corrida.2 = []
  /\ exists resp,
       corrida.1 = inr resp
       /\ success resp = false
       /\ errors resp = NINGUN_ARCHIVO :: errores_proceso corrida.2
       /\ length (errores_proceso corrida.2) = 1%nat.
Proof.
  intros files corrida.
  assert (Hvacio : resultados_ok corrida.2 = []) by (by vm_compute).
  split; [exact Hvacio |].
  destruct (lote_sin_registros_falla latin1 entorno_prueba files
              estado_inicial corrida.2 corrida.1
              (surjective_pairing corrida) Hvacio)
    as (resp & msgs & Hr & Hs & He & Hm & Hdocs).
  exists resp. split; [exact Hr |]. split; [exact Hs |]. split; [exact He |].
  rewrite Hm. by rewrite <- (Forall2_length _ _ _ Hdocs).
Defined.

Lemma extraer_texto_con_ocr_total_witness :
  (endswith (py "vacio.pdf") (py ".pdf") = true
   /\ fitz_open entorno_prueba [Byte.x00] = inr doc_vacio
   /\ pages doc_vacio = []
   /\ close doc_vacio = inr tt)
  /\ (extraer_texto_con_ocr latin1 entorno_prueba [Byte.x00]
        estado_inicial).1
     = inr (Some [], None)
  /\ exists st' datos,
       procesar_archivo latin1 entorno_prueba (subida "vacio.pdf" [Byte.x00])
         estado_inicial = (inr tt, st')
       /\ resultados_ok st' = [datos]
       /\ errores_proceso st' = []
       /\ datos !! "num_contrato"%string = Some (py "No encontrado").
Proof.
  destruct (extraer_texto_con_ocr_total latin1 entorno_prueba [Byte.x00]
              estado_inicial) as (_ & Hvacio & Hsubida).
  assert (H1 : endswith (py "vacio.pdf") (py ".pdf") = true) by reflexivity.
  split; [by repeat split |]. split.
  - exact (Hvacio doc_vacio eq_refl eq_refl eq_refl).
  - destruct (Hsubida (subida "vacio.pdf" [Byte.x00]) doc_vacio H1
                eq_refl eq_refl eq_refl eq_refl)
      as (st' & datos & Hrun & Hok & Herr & _ & Hcampos).
    exists st', datos. split; [exact Hrun |]. split; [exact Hok |].
    split; [exact Herr |].
    apply (Hcampos "num_contrato"%string p_num_contrato). en_patrones.
Defined.

End PipelineFacts.

(** * The acquirer, page by page *)

Module PaginasFacts.
Import Unicode Re App Spec Casos PyFacts ReFacts ExtractorFacts AcquirerFacts
       PipelineFacts.

Lemma filter_nada {A} (P : A -> Prop) `{forall x, Decision (P x)} (l : list A) :
  Forall (fun x => ~ P x) l -> filter P l = [].
Proof.
  induction 1 as [|x l Hx Hl IH]; [done |].
  rewrite filter_cons. by rewrite decide_False.
Qed.

Section Paginas.
Variable U : db.
Variable E : entorno.

(** One turn of the loop, whatever the page: the first event is the
    direct extraction, the others are OCR calls on the page or a print;
    the text grows by the page's contribution, or the exception of the
    direct extraction is raised. *)
Lemma paso_pagina_forma (texto_completo : str) (num_pagina : nat)
    (pagina : Page) (st : estado) :
  exists evs,
    paso_pagina U E texto_completo num_pagina pagina st
    = (match get_text pagina with
       | inl e => inl e
       | inr t => inr (texto_completo ++ aporte_pagina U E pagina t)
       end,
       con_eventos st (ev_get_text num_pagina :: evs))
    /\ Forall (fun ev => es_de_bucle ev = true /\ es_get_text ev = false
                         /\ forall j, pagina_de ev = Some j -> j = num_pagina)
              evs.
Proof.
  assert (Hocr : forall evs,
    Forall (fun ev => es_ocr ev = true /\ pagina_de ev = Some num_pagina) evs ->
    Forall (fun ev => es_de_bucle ev = true /\ es_get_text ev = false
                      /\ forall j, pagina_de ev = Some j -> j = num_pagina) evs).
  { intros evs H. eapply Forall_impl; [exact H |].
    intros ev [Hev Hpag]. split; [by destruct ev |].
    split; [by destruct ev |]. intros j Hj. congruence. }
  destruct (get_text pagina) as [e | t] eqn:Ht.
  { exists []. split; [by apply paso_pagina_error | constructor]. }
  unfold aporte_pagina. cbv zeta.
  destruct (Nat.ltb_spec (length (strip (isspace U) t)) 100) as [Hlt | Hge].
  - destruct (ocr_resultado E pagina) as [e | texto_ocr] eqn:Hocr_r.
    + destruct (paso_pagina_ocr_falla U E texto_completo num_pagina pagina t e
                  st Ht Hlt Hocr_r) as (evs & Hrun & Hevs).
      eexists. split; [exact Hrun |].
      constructor; [by repeat split; try (intros j [= <-]) |].
      apply Forall_app. split; [by apply Hocr |].
      by repeat constructor.
    + destruct (paso_pagina_ocr U E texto_completo num_pagina pagina t texto_ocr
                  st Ht Hlt Hocr_r) as (evs & Hrun & Hevs).
      eexists. split; [exact Hrun |].
      constructor; [by repeat split; try (intros j [= <-]) |]. by apply Hocr.
  - exists []. split; [by apply paso_pagina_directo | constructor].
Qed.

(** The loop over the pages: its events are page calls and prints; the
    direct extractions are those of the first [k] pages, once each and in
    order; it returns exactly when direct extraction returns on every
    page, and then [k] is the number of pages. *)
Lemma bucle_paginas_forma (paginas : list Page) (texto_completo : str)
    (num_pagina : nat) (st : estado) :
  exists r evs k,
    bucle_paginas U E texto_completo num_pagina paginas st
    = (r, con_eventos st evs)
    /\ Forall (fun ev => es_de_bucle ev = true) evs
    /\ filter (fun ev => es_get_text ev = true) evs
       = map ev_get_text (seq num_pagina k)
    /\ Forall (fun ev => forall j, pagina_de ev = Some j ->
                         (num_pagina <= j < num_pagina + k)%nat) evs
    /\ (k <= length paginas)%nat
    /\ (Forall texto_directo_ok paginas <-> exists t, r = inr t)
    /\ ((exists t, r = inr t) -> k = length paginas).
Proof.
  revert texto_completo num_pagina st.
  induction paginas as [|p paginas IH]; intros texto_completo num_pagina st.
  - exists (inr texto_completo), [], 0%nat. simpl. rewrite con_eventos_nil.
    repeat split; try done. by eexists.
  - simpl. unfold mbind, M_bind.
    destruct (paso_pagina_forma texto_completo num_pagina p st)
      as (evs1 & Hrun1 & Hevs1).
    rewrite Hrun1.
    assert (Hf1 : filter (fun ev => es_get_text ev = true) evs1 = []).
    { apply filter_nada. eapply Forall_impl; [exact Hevs1 |].
      intros ev (_ & Hg & _). congruence. }
    assert (Hb1 : Forall (fun ev => es_de_bucle ev = true)
                         (ev_get_text num_pagina :: evs1)).
    { constructor; [done |]. eapply Forall_impl; [exact Hevs1 |].
      by intros ev (Hb & _). }
    assert (Hp1 : forall k, Forall (fun ev => forall j, pagina_de ev = Some j ->
                    (num_pagina <= j < num_pagina + S k)%nat)
                    (ev_get_text num_pagina :: evs1)).
    { intros k. constructor; [intros j [= <-]; lia |].
      eapply Forall_impl; [exact Hevs1 |].
      intros ev (_ & _ & Hj) j Hpj. rewrite (Hj j Hpj). lia. }
    destruct (get_text p) as [e | t] eqn:Ht.
    + exists (inl e), (ev_get_text num_pagina :: evs1), 1%nat.
      split; [done |]. split; [done |]. split.
      { rewrite filter_cons, decide_True by done. by rewrite Hf1. }
      split; [apply Hp1 |].
      split; [simpl; lia |]. split.
      * split; [| by intros [? ?]].
        intros Hall. inversion Hall as [|? ? [t' Ht'] ?]; subst. congruence.
      * by intros [? ?].
    + destruct (IH (texto_completo ++ aporte_pagina U E p t) (S num_pagina)
                  (con_eventos st (ev_get_text num_pagina :: evs1)))
        as (r & evs2 & k & Hrun2 & Hb2 & Hf2 & Hp2 & Hk & Hok & Hlen).
      exists r, ((ev_get_text num_pagina :: evs1) ++ evs2), (S k).
      rewrite Hrun2, con_eventos_app. split; [done |].
      split; [by apply Forall_app |]. split.
      { rewrite filter_app, filter_cons, decide_True by done.
        rewrite Hf1, Hf2. done. }
      split.
      { apply Forall_app. split; [apply Hp1 |].
        eapply Forall_impl; [exact Hp2 |]. intros ev Hev j Hj.
        specialize (Hev j Hj). lia. }
      split; [simpl; lia |]. split.
      * rewrite <- Hok. split.
        -- intros Hall. by inversion Hall.
        -- intros Hall. constructor; [by exists t | done].
      * intros Hr. simpl. by rewrite (Hlen Hr).
Qed.

(** The text the loop returns when direct extraction returns on every
    page: the contributions of the pages, in order. *)
Lemma bucle_paginas_texto (paginas : list Page) (ts : list str)
    (texto_completo : str) (num_pagina : nat) (st : estado) :
  Forall2 (fun p t => get_text p = inr t) paginas ts ->
  (bucle_paginas U E texto_completo num_pagina paginas st).1
  = inr (texto_completo
         ++ concat (zip_with (aporte_pagina U E) paginas ts)).
Proof.
  intros Hall. revert texto_completo num_pagina st.
  induction Hall as [|p t paginas ts Ht Hall IH];
    intros texto_completo num_pagina st.
  - simpl. by rewrite app_nil_r.
  - simpl. unfold mbind, M_bind.
    destruct (paso_pagina_forma texto_completo num_pagina p st)
      as (evs1 & -> & _).
    rewrite Ht, IH. by rewrite <- app_assoc.
Qed.

(** [extraer_texto_con_ocr] on a document that opens: the loop, then
    [close] when the loop returned, then the print of the error if
    there is one. *)
Lemma extraer_forma (stream_pdf : bytes) (doc : Document) (st : estado) :
  fitz_open E stream_pdf = inr doc ->
  exists r evs k,
    extraer_texto_con_ocr U E stream_pdf st
    = (inr (tupla_final doc r),
       con_eventos st
         (ev_fitz_open :: evs
          ++ match r with
             | inl e => [ev_print (error_critico e)]
             | inr _ =>
                 match close doc with
                 | inl e => [ev_close; ev_print (error_critico e)]
                 | inr _ => [ev_close]
                 end
             end))
    /\ Forall (fun ev => es_de_bucle ev = true) evs
    /\ filter (fun ev => es_get_text ev = true) evs
       = map ev_get_text (seq 0 k)
    /\ (k <= length (pages doc))%nat
    /\ (Forall texto_directo_ok (pages doc) <-> exists t, r = inr t)
    /\ ((exists t, r = inr t) -> k = length (pages doc)).
Proof.
  intros Hopen.
  destruct (bucle_paginas_forma (pages doc) [] 0 (con_eventos st [ev_fitz_open]))
    as (r & evs & k & Hrun & Hb & Hf & _ & Hk & Hok & Hlen).
  exists r, evs, k. split; [| done].
  unfold extraer_texto_con_ocr, try_except, mbind, M_bind.
  rewrite Hopen, llamar_inr, Hrun. unfold tupla_final.
  destruct r as [e | texto].
  - unfold print, registrar. by rewrite !con_eventos_app.
  - destruct (close doc) as [e | []].
    + rewrite llamar_inl. unfold print, registrar.
      by rewrite !con_eventos_app.
    + by rewrite llamar_inr, !con_eventos_app.
Qed.

(** X1: when the document opens, direct extraction returns on every page
    and [close] returns, the text returned is the concatenation, in page
    order, of what each page adds: the OCR text when the trimmed direct
    text has fewer than 100 characters and the OCR step returns, the
    trimmed direct text otherwise, each followed by a newline. *)
Theorem extraer_concatena_aportes (stream_pdf : bytes) (doc : Document)
    (ts : list str) (st : estado) :
  fitz_open E stream_pdf = inr doc ->
  Forall2 (fun p t => get_text p = inr t) (pages doc) ts ->
  close doc = inr tt ->
  (extraer_texto_con_ocr U E stream_pdf st).1
  = inr (Some (concat (zip_with (aporte_pagina U E) (pages doc) ts)), None).
Proof.
  intros Hopen Hts Hclose.
  pose proof (bucle_paginas_texto (pages doc) ts [] 0
                (con_eventos st [ev_fitz_open]) Hts) as Htexto.
  unfold extraer_texto_con_ocr, try_except, mbind, M_bind.
  rewrite Hopen, llamar_inr.
  destruct (bucle_paginas U E [] 0 (pages doc) (con_eventos st [ev_fitz_open]))
    as [r st1].
  simpl in Htexto. subst r. by rewrite Hclose, llamar_inr.
Qed.

(** X2: when direct extraction raises on a page that the loop reaches,
    the tuple returned carries no text and the error "Error Crítico al
    procesar el PDF: <exception>"; no call is made on a later page,
    [close] is not called, and the last thing done is the print of that
    error. *)
Theorem fallo_de_pagina (stream_pdf : bytes) (doc : Document) (i : nat)
    (pagina : Page) (e : excepcion) (st : estado) :
  fitz_open E stream_pdf = inr doc ->
  pages doc !! i = Some pagina ->
  Forall texto_directo_ok (take i (pages doc)) ->
  get_text pagina = inl e ->
  exists st' evs,
    extraer_texto_con_ocr U E stream_pdf st
    = (inr (None,
            Some (py "Error Cr" ++ [237] ++ py "tico al procesar el PDF: "
                  ++ mensaje e)), st')
    /\ traza st' = traza st ++ evs
    /\ Forall (fun ev => forall j, pagina_de ev = Some j -> (j <= i)%nat) evs
    /\ (ev_close ∉ evs)
    /\ last evs
       = Some (ev_print (py "Error Cr" ++ [237]
                         ++ py "tico al procesar el PDF: " ++ mensaje e)).
Proof.
  intros Hopen Hi Hantes Ht.
  change (py "Error Cr" ++ [237] ++ py "tico al procesar el PDF: "
          ++ mensaje e) with (error_critico e).
  assert (Hlen_i : length (take i (pages doc)) = i).
  { apply length_take_le. apply lookup_lt_Some in Hi. lia. }
  pose proof (bucle_paginas_app U E (take i (pages doc))
                (pagina :: drop (S i) (pages doc)) [] 0
                (con_eventos st [ev_fitz_open])) as Hb.
  rewrite take_drop_middle, Hlen_i in Hb by done.
  destruct (bucle_paginas_forma (take i (pages doc)) [] 0
              (con_eventos st [ev_fitz_open]))
    as (r1 & evs1 & k & Hrun1 & Hb1 & _ & Hp1 & Hk & Hok & Hlen).
  destruct (proj1 Hok Hantes) as [antes ->].
  rewrite (Hlen (ex_intro _ antes eq_refl)), Hlen_i in Hp1.
  rewrite Hrun1 in Hb. simpl in Hb. unfold mbind, M_bind in Hb.
  destruct (paso_pagina_forma antes i pagina
              (con_eventos (con_eventos st [ev_fitz_open]) evs1))
    as (evs2 & Hrun2 & Hevs2).
  rewrite Hrun2, Ht, !con_eventos_app in Hb.
  unfold extraer_texto_con_ocr, try_except, mbind, M_bind.
  rewrite Hopen, llamar_inr, Hb. unfold print, registrar.
  rewrite con_eventos_app.
  eexists _, _. split; [reflexivity |]. split; [reflexivity |].
  assert (Hcuerpo : Forall (fun ev => es_de_bucle ev = true
             /\ forall j, pagina_de ev = Some j -> (j <= i)%nat)
             (evs1 ++ ev_get_text i :: evs2)).
  { apply Forall_app. split.
    - rewrite Forall_forall in Hb1, Hp1. apply Forall_forall.
      intros ev Hev. split; [by apply Hb1 |].
      intros j Hj. specialize (Hp1 ev Hev j Hj). lia.
    - constructor; [split; [done | by intros j [= <-]] |].
      eapply Forall_impl; [exact Hevs2 |].
      intros ev (Hev & _ & Hj). split; [done |].
      intros j Hpj. by rewrite (Hj j Hpj). }
  rewrite Forall_forall in Hcuerpo.
  remember (evs1 ++ ev_get_text i :: evs2) as cuerpo eqn:Hc. clear Hc.
  split; [| split].
  - apply Forall_forall. intros ev Hev j Hj.
    rewrite !elem_of_app, !list_elem_of_singleton in Hev.
    destruct Hev as [[-> | Hev] | ->]; [done | | done].
    by apply (Hcuerpo ev Hev).
  - intros Hclose.
    rewrite !elem_of_app, !list_elem_of_singleton in Hclose.
    destruct Hclose as [[? | Hev] | ?]; [done | | done].
    by destruct (Hcuerpo _ Hev).
  - by rewrite last_snoc.
Qed.

(** X3: whatever the input, the first call is the opening of the
    document; a tuple with a text is returned right after [close]; a
    tuple with an error is returned right after that error is printed;
    and on a document that opens, [close] is called exactly when direct
    extraction returned on every page. *)
Theorem forma_de_extraer (stream_pdf : bytes) (st : estado) :
  exists tupla st' evs,
    extraer_texto_con_ocr U E stream_pdf st = (inr tupla, st')
    /\ traza st' = traza st ++ ev_fitz_open :: evs
    /\ ((exists texto, tupla = (Some texto, None)
                       /\ last evs = Some ev_close)
        \/ (exists e, tupla = (None, Some (error_critico e))
                      /\ last evs = Some (ev_print (error_critico e))))
    /\ forall doc, fitz_open E stream_pdf = inr doc ->
         (ev_close ∈ evs <-> Forall texto_directo_ok (pages doc)).
Proof.
  destruct (fitz_open E stream_pdf) as [e | doc] eqn:Hopen.
  { eexists _, _, _. split; [by apply extraer_no_abre |].
    split; [reflexivity |]. split; [right; by exists e | done]. }
  destruct (extraer_forma stream_pdf doc st Hopen)
    as (r & evs & k & Hrun & Hb & _ & _ & Hok & _).
  eexists _, _, _. split; [exact Hrun |]. split; [reflexivity |].
  assert (Hno : ev_close ∉ evs).
  { intros Hin. rewrite Forall_forall in Hb. by specialize (Hb _ Hin). }
  unfold tupla_final. split.
  - destruct r as [e | texto].
    + right. exists e. split; [done | by rewrite last_app].
    + destruct (close doc) as [e | []].
      * right. exists e. split; [done | by rewrite last_app].
      * left. exists texto. split; [done | by rewrite last_app].
  - intros doc' [= <-]. rewrite Hok. rewrite elem_of_app. split.
    + intros [Hin | Hin]; [done |].
      destruct r as [e | texto]; [| by eexists].
      by apply list_elem_of_singleton in Hin.
    + intros [texto ->]. right. destruct (close doc); by left.
Qed.

(** X4: on a document that opens, direct extraction is called on the
    pages in order, once each, from the first page on: on the first [k]
    pages, and on all of them when no error is returned. *)
Theorem extracciones_en_orden (stream_pdf : bytes) (doc : Document)
    (st : estado) :
  fitz_open E stream_pdf = inr doc ->
  exists tupla st' evs k,
    extraer_texto_con_ocr U E stream_pdf st = (inr tupla, st')
    /\ traza st' = traza st ++ evs
    /\ filter (fun ev => es_get_text ev = true) evs
       = map ev_get_text (seq 0 k)
    /\ (k <= length (pages doc))%nat
    /\ (tupla.2 = None -> k = length (pages doc)).
Proof.
  intros Hopen.
  destruct (extraer_forma stream_pdf doc st Hopen)
    as (r & evs & k & Hrun & _ & Hf & Hk & _ & Hlen).
  eexists _, _, _, k. split; [exact Hrun |]. split; [reflexivity |].
  split; [| split; [done |]].
  - rewrite filter_cons, decide_False by done.
    rewrite filter_app, Hf.
    rewrite filter_nada; [by rewrite app_nil_r |].
    destruct r as [e | texto]; [by repeat constructor |].
    destruct (close doc); by repeat constructor.
  - unfold tupla_final. destruct r as [e | texto]; [done |].
    intros _. apply Hlen. by eexists.
Qed.
End Paginas.

Lemma extraer_concatena_aportes_witness :
  (fitz_open entorno_con_ocr [Byte.x00; Byte.x01] = inr doc_mixto
   /\ Forall2 (fun p t => get_text p = inr t) (pages doc_mixto)
              [texto_largo; py " CONTRATO "]
   /\ close doc_mixto = inr tt)
  /\ (extraer_texto_con_ocr latin1 entorno_con_ocr [Byte.x00; Byte.x01]
        estado_inicial).1
     = inr (Some (replicate 120 97 ++ [10] ++ CONTRATO_045 ++ [10; 10]),
            None).
Proof.
  assert (Hts : Forall2 (fun p t => get_text p = inr t) (pages doc_mixto)
                        [texto_largo; py " CONTRATO "])
    by repeat constructor.
  split; [by repeat split |].
  rewrite (extraer_concatena_aportes latin1 entorno_con_ocr
             [Byte.x00; Byte.x01] doc_mixto [texto_largo; py " CONTRATO "]
             estado_inicial eq_refl Hts eq_refl).
  reflexivity.
Defined.

Lemma fallo_de_pagina_witness :
  (fitz_open entorno_con_ocr [Byte.x00] = inr doc_roto
   /\ pages doc_roto !! 1%nat = Some pagina_ilegible
   /\ Forall texto_directo_ok (take 1 (pages doc_roto))
   /\ get_text pagina_ilegible = inl (Exception (py "damaged page")))
  /\ exists st' evs,
       extraer_texto_con_ocr latin1 entorno_con_ocr [Byte.x00] estado_inicial
       = (inr (None,
               Some (py "Error Cr" ++ [237]
                     ++ py "tico al procesar el PDF: damaged page")),
          st')
       /\ traza st' = evs
       /\ (ev_close ∉ evs)
       /\ (ev_get_text 2 ∉ evs).
Proof.
  assert (Hantes : Forall texto_directo_ok (take 1 (pages doc_roto))).
  { repeat constructor. by exists texto_largo. }
  split; [by repeat split |].
  destruct (fallo_de_pagina latin1 entorno_con_ocr [Byte.x00] doc_roto 1
              pagina_ilegible (Exception (py "damaged page")) estado_inicial
              eq_refl eq_refl Hantes eq_refl)
    as (st' & evs & Hrun & Htraza & Hpag & Hclose & _).
  exists st', evs. split; [exact Hrun |]. split; [exact Htraza |].
  split; [exact Hclose |].
  intros Hin. rewrite Forall_forall in Hpag.
  specialize (Hpag _ Hin 2%nat eq_refl). lia.
Defined.

Lemma forma_de_extraer_witness :
  fitz_open entorno_con_ocr [Byte.x00] = inr doc_roto
  /\ exists tupla st' evs,
       extraer_texto_con_ocr latin1 entorno_con_ocr [Byte.x00] estado_inicial
       = (inr tupla, st')
       /\ traza st' = ev_fitz_open :: evs
       /\ (ev_close ∈ evs <-> Forall texto_directo_ok (pages doc_roto)).
Proof.
  split; [reflexivity |].
  destruct (forma_de_extraer latin1 entorno_con_ocr [Byte.x00]
              estado_inicial)
    as (tupla & st' & evs & Hrun & Htraza & _ & Hclose).
  exists tupla, st', evs. split; [exact Hrun |]. split; [exact Htraza |].
  exact (Hclose doc_roto eq_refl).
Defined.

Lemma extracciones_en_orden_witness :
  fitz_open entorno_con_ocr [Byte.x00; Byte.x01] = inr doc_mixto
  /\ exists tupla st' evs k,
       extraer_texto_con_ocr latin1 entorno_con_ocr [Byte.x00; Byte.x01]
         estado_inicial = (inr tupla, st')
       /\ traza st' = evs
       /\ filter (fun ev => es_get_text ev = true) evs
          = map ev_get_text (seq 0 k)
       /\ (k <= 2)%nat.
Proof.
  split; [reflexivity |].
  destruct (extracciones_en_orden latin1 entorno_con_ocr
              [Byte.x00; Byte.x01] doc_mixto estado_inicial eq_refl)
    as (tupla & st' & evs & k & Hrun & Htraza & Hfil & Hk & _).
  exists tupla, st', evs, k. by repeat split.
Defined.

End PaginasFacts.

(** * The values of a record *)

Module CamposFacts.
Import Unicode Re App Spec Casos PyFacts ReFacts ExtractorFacts AcquirerFacts
       PipelineFacts.

Lemma en_rev {A} (x : A) (l : list A) : x ∈ rev l -> x ∈ l.
Proof. rewrite !list_elem_of_In. apply in_rev. Qed.

Section Palabras.
Variable isspace : N -> bool.
Hypothesis space_is_space : isspace 32 = true.

Lemma split_aux_palabras (cur s : str) :
  Forall (fun c => isspace c = false) cur ->
  Forall (fun w => w <> [] /\ Forall (fun c => isspace c = false) w)
         (split_aux isspace cur s).
Proof.
  revert cur. induction s as [|c s IH]; intros cur Hcur; simpl.
  - destruct cur as [|a cur]; [constructor |].
    constructor; [| constructor]. split.
    + simpl. by destruct (rev cur).
    + by apply Forall_rev.
  - destruct (isspace c) eqn:Hc.
    + destruct cur as [|a cur]; [by apply IH |].
      constructor; [| by apply IH]. split.
      * simpl. by destruct (rev cur).
      * by apply Forall_rev.
    + apply IH. by constructor.
Qed.

Lemma split_aux_app_palabra (w cur s : str) :
  Forall (fun c => isspace c = false) w ->
  split_aux isspace cur (w ++ s) = split_aux isspace (rev w ++ cur) s.
Proof.
  intros Hw. revert cur. induction Hw as [|c w Hc Hw IH]; intros cur; [done |].
  simpl. rewrite Hc, IH. by rewrite <- app_assoc.
Qed.

(** Splitting a string of words joined by single spaces gives the words
    back. *)
Lemma split_join (ws : list str) :
  Forall (fun w => w <> [] /\ Forall (fun c => isspace c = false) w) ws ->
  split isspace (join (py " ") ws) = ws.
Proof.
  unfold split. induction 1 as [|w ws [Hne Hw] Hws IH]; [done |].
  assert (Hrev : rev w <> []).
  { intros Hr. apply (f_equal (@rev N)) in Hr.
    rewrite rev_involutive in Hr. by subst. }
  destruct ws as [|w' ws].
  - change (join (py " ") [w]) with w.
    rewrite <- (app_nil_r w) at 1. rewrite split_aux_app_palabra by done.
    rewrite app_nil_r. simpl.
    destruct (rev w) eqn:Hr; [done |].
    by rewrite <- Hr, rev_involutive.
  - change (join (py " ") (w :: w' :: ws))
      with (w ++ 32 :: join (py " ") (w' :: ws)).
    rewrite split_aux_app_palabra by done. rewrite app_nil_r.
    cbn [split_aux]. rewrite space_is_space.
    destruct (rev w) eqn:Hr; [done |].
    rewrite <- Hr, rev_involutive. by rewrite IH.
Qed.

Lemma lstrip_elem (s : str) (c : N) : c ∈ lstrip isspace s -> c ∈ s.
Proof.
  induction s as [|a s IH]; [done |]. simpl.
  destruct (isspace a); [| done]. intros H. right. by apply IH.
Qed.

Lemma rstrip_rec_elem (s : str) (c : N) : c ∈ rstrip_rec isspace s -> c ∈ s.
Proof.
  induction s as [|a s IH]; [done |]. simpl.
  destruct (rstrip_rec isspace s) as [|b r].
  - destruct (isspace a); [by intros ?%elem_of_nil |].
    intros ->%list_elem_of_singleton. by left.
  - intros [-> | H]%elem_of_cons; [by left |]. right. by apply IH.
Qed.

Lemma split_aux_elem (cur s w : str) (c : N) :
  w ∈ split_aux isspace cur s -> c ∈ w -> c ∈ cur \/ c ∈ s.
Proof.
  revert cur. induction s as [|a s IH]; intros cur; simpl.
  - destruct cur as [|b cur]; [by intros ?%elem_of_nil |].
    intros ->%list_elem_of_singleton Hc. left.
    by apply en_rev in Hc.
  - destruct (isspace a).
    + destruct cur as [|b cur].
      * intros Hw Hc. destruct (IH [] Hw Hc) as [? | ?]; [by left |].
        right. by right.
      * intros [-> | Hw]%elem_of_cons Hc.
        -- left. by apply en_rev in Hc.
        -- destruct (IH [] Hw Hc) as [?%elem_of_nil | ?]; [done |].
           right. by right.
    + intros Hw Hc. destruct (IH (a :: cur) Hw Hc) as [[-> | ?]%elem_of_cons | ?].
      * right. by left.
      * by left.
      * right. by right.
Qed.
End Palabras.

Lemma join_elem (sep : str) (ws : list str) (c : N) :
  c ∈ join sep ws -> c ∈ sep \/ exists w, w ∈ ws /\ c ∈ w.
Proof.
  induction ws as [|w ws IH]; [by intros ?%elem_of_nil |].
  destruct ws as [|w' ws].
  - simpl. intros Hc. right. exists w. split; [by left | done].
  - change (join sep (w :: w' :: ws)) with (w ++ sep ++ join sep (w' :: ws)).
    rewrite !elem_of_app. intros [Hc | [Hc | Hc]].
    + right. exists w. split; [by left | done].
    + by left.
    + destruct (IH Hc) as [? | (w0 & Hw0 & Hc0)]; [by left |].
      right. exists w0. split; [by right | done].
Qed.

(** *** What the matcher captures *)

Lemma repeat_one_inv {R} (p : prueba) (lo : nat) (hi : option nat)
    (s : list caracter) (k : list caracter -> option R) (res : R) :
  repeat_one p lo hi s k = Some res ->
  exists s', s' `suffix_of` s /\ k s' = Some res.
Proof.
  revert lo hi. induction s as [|x s IH]; intros lo hi; simpl.
  - destruct lo; [| done]. intros Hk. by exists [].
  - assert (Hparar : match lo with O => k (x :: s) | S _ => None end = Some res ->
                     exists s', s' `suffix_of` x :: s /\ k s' = Some res).
    { destruct lo; [| done]. intros Hk. by exists (x :: s). }
    destruct (permite hi && pasa p x); [| exact Hparar].
    destruct (repeat_one p (Nat.pred lo) (menos_uno hi) s k) as [r |] eqn:Hrec;
      [| exact Hparar].
    intros [= ->]. destruct (IH _ _ Hrec) as (s' & Hs' & Hk).
    exists s'. split; [by apply suffix_cons_r | done].
Qed.

Lemma min_repeat_one_inv {R} (p : prueba) (lo : nat) (hi : option nat)
    (s : list caracter) (k : list caracter -> option R) (res : R) :
  min_repeat_one p lo hi s k = Some res ->
  exists s', s' `suffix_of` s /\ k s' = Some res.
Proof.
  revert lo hi. induction s as [|x s IH]; intros lo hi; simpl.
  - destruct lo; [| done]. destruct (k []) eqn:Hk; [| done].
    intros [= ->]. by exists [].
  - assert (Hseguir :
      (if permite hi && pasa p x
       then min_repeat_one p (Nat.pred lo) (menos_uno hi) s k else None)
      = Some res ->
      exists s', s' `suffix_of` x :: s /\ k s' = Some res).
    { destruct (permite hi && pasa p x); [| done]. intros Hrec.
      destruct (IH _ _ Hrec) as (s' & Hs' & Hk).
      exists s'. split; [by apply suffix_cons_r | done]. }
    destruct lo; [| exact Hseguir].
    destruct (k (x :: s)) eqn:Hk; [| exact Hseguir].
    intros [= ->]. by exists (x :: s).
Qed.

Section Capturas.
Variable U : db.
Variable texto : str.



Lemma map_ch_leer (s : str) : map ch (map (leer U) s) = s.
Proof. induction s as [|c s IH]; [done |]. simpl. by rewrite IH. Qed.

Lemma tramo_de_texto (s s' : list caracter) :
  s `suffix_of` map (leer U) texto -> s' `suffix_of` s ->
  exists a b, texto = a ++ tramo s s' ++ b.
Proof.
  intros [k0 Hk0] [k ->]. rewrite tramo_app.
  exists (map ch k0), (map ch s').
  rewrite <- !map_app, <- Hk0. by rewrite map_ch_leer.
Qed.

Lemma m_inv (c : codigo) (s : list caracter) (g : grupos)
    (k : list caracter -> grupos -> option grupos) (res : grupos) :
  s `suffix_of` map (leer U) texto -> de_texto texto g ->
  m c s g k = Some res ->
  exists s' g', s' `suffix_of` s /\ de_texto texto g' /\ k s' g' = Some res.
Proof.
  revert s g k res.
  induction c as [ | p | c1 IH1 c2 IH2 | c1 IH1 c2 IH2 | lo hi p | lo hi p
                 | c1 IH1 | n c1 IH1 | c1 IH1 ];
    intros s g k res Hs Hg; simpl.
  - intros Hk. by exists s, g.
  - destruct s as [|x s]; [done |]. destruct (pasa p x); [| done].
    intros Hk. exists s, g. split; [by apply suffix_cons_r | done].
  - intros Hm. destruct (IH1 _ _ _ _ Hs Hg Hm) as (s1 & g1 & Hs1 & Hg1 & Hm2).
    destruct (IH2 _ _ _ _ (transitivity Hs1 Hs) Hg1 Hm2)
      as (s2 & g2 & Hs2 & Hg2 & Hk).
    exists s2, g2. split; [by transitivity s1 | done].
  - destruct (m c1 s g k) as [r |] eqn:H1.
    + intros [= ->]. by apply (IH1 _ _ _ _ Hs Hg H1).
    + by apply IH2.
  - intros Hr. destruct (repeat_one_inv _ _ _ _ _ _ Hr) as (s' & Hs' & Hk).
    by exists s', g.
  - intros Hr. destruct (min_repeat_one_inv _ _ _ _ _ _ Hr) as (s' & Hs' & Hk).
    by exists s', g.
  - destruct (m c1 s g k) as [r |] eqn:H1.
    + intros [= ->]. by apply (IH1 _ _ _ _ Hs Hg H1).
    + intros Hk. by exists s, g.
  - intros Hm. destruct (IH1 _ _ _ _ Hs Hg Hm) as (s1 & g1 & Hs1 & Hg1 & Hk).
    exists s1, (<[Nat.pred n := Some (tramo s s1)]> g1).
    split; [done |]. split; [| done].
    destruct (decide (Nat.pred n < length g1)%nat) as [Hlt | Hge].
    + apply Forall_insert; [done |]. intros t [= <-].
      by apply tramo_de_texto.
    + rewrite list_insert_ge by lia. done.
  - destruct (m c1 s g (fun _ g' => Some g')) as [g1 |] eqn:H1; [| done].
    intros Hk. destruct (IH1 _ _ _ _ Hs Hg H1) as (s1 & g1' & _ & Hg1 & [= ->]).
    by exists s, g1.
Qed.

Lemma buscar_inv (c : codigo) (g0 : grupos) (s : list caracter)
    (res : grupos) :
  s `suffix_of` map (leer U) texto -> de_texto texto g0 ->
  buscar c g0 s = Some res -> de_texto texto res.
Proof.
  intros Hs Hg0. induction s as [|x s IH]; simpl.
  - destruct (m c [] g0 (fun _ g => Some g)) as [g |] eqn:Hm; [| done].
    intros [= ->].
    by destruct (m_inv _ _ _ _ _ Hs Hg0 Hm) as (_ & g' & _ & Hg' & [= ->]).
  - destruct (m c (x :: s) g0 (fun _ g => Some g)) as [g |] eqn:Hm.
    + intros [= ->].
      by destruct (m_inv _ _ _ _ _ Hs Hg0 Hm) as (_ & g' & _ & Hg' & [= ->]).
    + apply IH. by apply suffix_cons_l in Hs.
Qed.

Lemma search_de_texto (r : regex) (groups : grupos) :
  search U r texto = Some groups -> de_texto texto groups.
Proof.
  unfold search. apply buscar_inv; [done |].
  apply Forall_forall. intros o Ho%elem_of_replicate. by destruct Ho as [-> _].
Qed.
End Capturas.

Lemma valor_de_clave (U : db) (texto : str) (clave : string) (v : str) :
  analizar_contrato U texto !! clave = Some v ->
  exists patron, (clave, patron) ∈ patrones /\ v = valor U patron texto.
Proof.
  intros Hv. destruct (decide (clave ∈ patrones.*1)) as [Hin | Hout].
  - apply list_elem_of_fmap in Hin as ([clave' patron] & Heq & Hin).
    simpl in Heq. subst clave'.
    exists patron. split; [done |].
    rewrite (analizar_contrato_lookup U texto clave patron Hin) in Hv.
    by injection Hv.
  - by rewrite analizar_contrato_fuera in Hv.
Qed.

(** X5: every value of the mapping is a sequence of words, without
    whitespace in them, joined by single spaces: it has no newline, no
    tab, no run of blanks and no blank at either end, and cleaning it
    again changes nothing.  This holds for the sentinel too. *)
Theorem valores_normalizados (U : db) (texto : str) (clave : string)
    (v : str) :
  agrees_on_latin1 U ->
  analizar_contrato U texto !! clave = Some v ->
  (exists ws, v = join (py " ") ws /\ Forall (palabra U) ws)
  /\ limpiar U v = v.
Proof.
  intros HU Hv.
  assert (H32 : isspace U 32 = true) by (by rewrite (agree_isspace U HU)).
  assert (Hws : exists ws, v = join (py " ") ws /\ Forall (palabra U) ws).
  { destruct (valor_de_clave U texto clave v Hv) as (patron & _ & ->).
    unfold valor. destruct (search U patron texto) as [groups |].
    - exists (split (isspace U) (join (py " ") (omap id groups))).
      split; [| by apply split_aux_palabras].
      unfold limpiar. by rewrite strip_join_split, <- join_split_normalizar.
    - exists [py "No"; py "encontrado"]. split; [done |].
      repeat constructor; try done;
        by rewrite (agree_isspace U HU). }
  split; [exact Hws |]. destruct Hws as (ws & -> & Hws).
  unfold limpiar.
  rewrite strip_join_split, <- join_split_normalizar by done.
  by rewrite split_join.
Qed.

Lemma valores_normalizados_witness :
  let texto := py "prestar el  servicio" ++ [10; 9] ++ py "CONTRATO N"
               ++ [176; 10] ++ py "045-2023-ABC" in
  (agrees_on_latin1 latin1
   /\ analizar_contrato latin1 texto !! "num_contrato"%string
      = Some (py "045-2023-ABC"))
  /\ limpiar latin1 (py "045-2023-ABC") = py "045-2023-ABC".
Proof.
  intros texto.
  assert (Hv : analizar_contrato latin1 texto !! "num_contrato"%string
               = Some (py "045-2023-ABC")).
  { rewrite (analizar_contrato_lookup latin1 _ "num_contrato" p_num_contrato)
      by en_patrones.
    by vm_compute. }
  split; [split; [apply latin1_agrees | exact Hv] |].
  exact (proj2 (valores_normalizados latin1 texto "num_contrato"
                  (py "045-2023-ABC") latin1_agrees Hv)).
Defined.

(** X6: when the pattern of a field matches, every group that took part
    holds a contiguous piece of the text, and the value stored for the
    field is made of characters of the text and of spaces. *)
Theorem valores_del_texto (U : db) (texto : str) (clave : string)
    (patron : regex) (groups : grupos) :
  (clave, patron) ∈ patrones ->
  search U patron texto = Some groups ->
  de_texto texto groups
  /\ exists v, analizar_contrato U texto !! clave = Some v
               /\ Forall (fun c => c = 32 \/ c ∈ texto) v.
Proof.
  intros Hin Hs. pose proof (search_de_texto U texto patron groups Hs) as Hg.
  split; [exact Hg |].
  rewrite (analizar_contrato_lookup U texto clave patron Hin).
  eexists. split; [reflexivity |]. unfold valor. rewrite Hs.
  apply Forall_forall. intros c Hc. unfold limpiar, strip in Hc.
  rewrite rstrip_rstrip_rec in Hc.
  apply rstrip_rec_elem, lstrip_elem in Hc.
  assert (Hjoin : c ∈ join (py " ") (omap id groups) ->
                  c = 32 \/ c ∈ texto).
  { intros Hj. apply join_elem in Hj as [Hsp | (w & Hw & Hcw)].
    - left. by apply list_elem_of_singleton in Hsp.
    - right. apply list_elem_of_omap in Hw as (o & Ho & Hid).
      simpl in Hid. subst o. unfold de_texto in Hg.
      rewrite Forall_forall in Hg.
      destruct (Hg _ Ho w eq_refl) as (a & b & ->).
      rewrite !elem_of_app. auto. }
  apply join_elem in Hc as [Hsp | (w & Hw & Hcw)].
  - left. by apply list_elem_of_singleton in Hsp.
  - destruct (split_aux_elem _ _ _ _ _ Hw Hcw) as [?%elem_of_nil | Hj]; [done |].
    by apply Hjoin.
Qed.

Lemma valores_del_texto_witness :
  let texto := py "Concurso P" ++ [250] ++ py "blico N" ++ [186]
               ++ py " 7-2024" in
  let groups := [Some (py "Concurso P" ++ [250] ++ py "blico");
                 Some (py "7-2024")] in
  (("proceso_seleccion"%string, p_proceso_seleccion) ∈ patrones
   /\ search latin1 p_proceso_seleccion texto = Some groups)
  /\ de_texto texto groups.
Proof.
  intros texto groups.
  assert (Hin : ("proceso_seleccion"%string, p_proceso_seleccion) ∈ patrones)
    by en_patrones.
  assert (Hs : search latin1 p_proceso_seleccion texto = Some groups)
    by (vm_compute; reflexivity).
  split; [by split |].
  exact (proj1 (valores_del_texto latin1 texto "proceso_seleccion"
                  p_proceso_seleccion groups Hin Hs)).
Defined.




End CamposFacts.

(** * The batch, the report and its download *)

Module InformeFacts.
Import Unicode Re App Spec Casos PyFacts ReFacts ExtractorFacts AcquirerFacts
       PipelineFacts CamposFacts.

Section Ramas.
Variable U : db.
Variable E : entorno.

(** What follows the call of [extraer_texto_con_ocr], exactly: the
    record of the text returned, tagged, or the error returned, after a
    prefix. *)
Lemma tras_extraer_exacto (doc : str) (prefijo : str)
    (tupla : option str * option str) (st : estado) :
  ((exists texto, tupla = (Some texto, None))
   \/ (exists e, tupla = (None, Some (error_critico e)))) ->
  (let '(texto, error) := tupla in
   if es_verdadero error
   then errores_append (prefijo ++ default [] error)
   else datos ← analizar_texto U texto;
        resultados_append (<["Archivo"%string := doc]> datos)) st
  = (inr tt,
     match tupla with
     | (Some texto, None) =>
         (resultados_append
            (<["Archivo"%string := doc]> (analizar_contrato U texto)) st).2
     | (_, error) => (errores_append (prefijo ++ default [] error) st).2
     end).
Proof. by intros [[texto ->] | [e ->]]. Qed.

(** X8: the branch of a single [.pdf] upload always returns.  When the
    upload cannot be read it appends the one error "Error inesperado
    procesando '<name>': <exception>"; when it can, that handler is never
    used: either the extraction returned a text and the record of that
    text, tagged with the upload's name, is appended, or it returned an
    error and "'<name>': <error>" is appended.  The other list and the
    session are left as they were. *)
Theorem rama_pdf (file : FileStorage) (st : estado) :
  exists st',
    procesar_pdf U E file st = (inr tt, st')
    /\ session_excel_data st' = session_excel_data st
    /\ (forall e, file_read file = inl e ->
          resultados_ok st' = resultados_ok st
          /\ errores_proceso st'
             = errores_proceso st
               ++ [py "Error inesperado procesando '" ++ filename file
                   ++ py "': " ++ mensaje e])
    /\ (forall pdf_stream, file_read file = inr pdf_stream ->
          (exists texto,
              (extraer_texto_con_ocr U E pdf_stream
                 (con_eventos st [ev_file_read (filename file)])).1
              = inr (Some texto, None)
              /\ resultados_ok st'
                 = resultados_ok st
                   ++ [<["Archivo"%string := filename file]>
                         (analizar_contrato U texto)]
              /\ errores_proceso st' = errores_proceso st)
          \/ (exists e,
                (extraer_texto_con_ocr U E pdf_stream
                   (con_eventos st [ev_file_read (filename file)])).1
                = inr (None, Some (error_critico e))
                /\ resultados_ok st' = resultados_ok st
                /\ errores_proceso st'
                   = errores_proceso st
                     ++ [py "'" ++ filename file ++ py "': "
                         ++ error_critico e])).
Proof.
  unfold procesar_pdf, try_except, mbind, M_bind.
  destruct (file_read file) as [e | pdf_stream].
  - rewrite llamar_inl. eexists. split; [reflexivity |].
    split; [done |]. split; [| done]. by intros e' [= <-].
  - rewrite llamar_inr.
    destruct (extraer_run U E pdf_stream
                (con_eventos st [ev_file_read (filename file)]))
      as (tupla & evs & Hrun & Htupla).
    rewrite Hrun.
    pose proof (tras_extraer_exacto (filename file)
                  (py "'" ++ filename file ++ py "': ") tupla
                  (con_eventos (con_eventos st [ev_file_read (filename file)])
                     evs) Htupla) as Htras.
    destruct tupla as [texto error]. cbv beta iota in Htras |- *.
    unfold mbind, M_bind in Htras. rewrite <- !app_assoc in Htras.
    rewrite Htras. eexists. split; [reflexivity |].
    destruct Htupla as [[t [= -> ->]] | [e [= -> ->]]].
    + split; [done |]. split; [done |]. intros ? [= <-]. left. exists t.
      by rewrite Hrun.
    + split; [done |]. split; [done |]. intros ? [= <-]. right. exists e.
      rewrite Hrun. simpl. by rewrite <- ?app_assoc.
Qed.

(** X9: an accepted entry of an archive always leaves the loop body
    normally.  When the entry cannot be read, the one error "Error
    procesando '<entry>' (dentro de <archive>): <exception>" is
    appended; when it can, that handler is never used: either the record
    of the text extracted, tagged with the entry's name, is appended, or
    the error "Error en '<entry>' (dentro de <archive>): <error>". *)
Theorem rama_entrada (nombre_archivo : str) (zip_ref : ZipFile)
    (item_name : str) (st : estado) :
  entrada_aceptada U item_name = true ->
  exists st',
    procesar_entrada U E nombre_archivo zip_ref item_name st = (inr tt, st')
    /\ session_excel_data st' = session_excel_data st
    /\ (forall e, read zip_ref item_name = inl e ->
          resultados_ok st' = resultados_ok st
          /\ errores_proceso st'
             = errores_proceso st
               ++ [py "Error procesando '" ++ item_name ++ py "' (dentro de "
                   ++ nombre_archivo ++ py "): " ++ mensaje e])
    /\ (forall data, read zip_ref item_name = inr data ->
          (exists texto,
              (extraer_texto_con_ocr U E data
                 (con_eventos st [ev_zip_read item_name])).1
              = inr (Some texto, None)
              /\ resultados_ok st'
                 = resultados_ok st
                   ++ [<["Archivo"%string := item_name]>
                         (analizar_contrato U texto)]
              /\ errores_proceso st' = errores_proceso st)
          \/ (exists e,
                (extraer_texto_con_ocr U E data
                   (con_eventos st [ev_zip_read item_name])).1
                = inr (None, Some (error_critico e))
                /\ resultados_ok st' = resultados_ok st
                /\ errores_proceso st'
                   = errores_proceso st
                     ++ [py "Error en '" ++ item_name ++ py "' (dentro de "
                         ++ nombre_archivo ++ py "): " ++ error_critico e])).
Proof.
  intros Hacc. unfold procesar_entrada. rewrite Hacc.
  unfold try_except, mbind, M_bind.
  destruct (read zip_ref item_name) as [e | data].
  - rewrite llamar_inl. eexists. split; [reflexivity |].
    split; [done |]. split; [| done]. by intros e' [= <-].
  - rewrite llamar_inr.
    destruct (extraer_run U E data (con_eventos st [ev_zip_read item_name]))
      as (tupla & evs & Hrun & Htupla).
    rewrite Hrun.
    pose proof (tras_extraer_exacto item_name
                  (py "Error en '" ++ item_name ++ py "' (dentro de "
                   ++ nombre_archivo ++ py "): ") tupla
                  (con_eventos (con_eventos st [ev_zip_read item_name]) evs)
                  Htupla) as Htras.
    destruct tupla as [texto error]. cbv beta iota in Htras |- *.
    unfold mbind, M_bind in Htras. rewrite <- !app_assoc in Htras.
    rewrite Htras. eexists. split; [reflexivity |].
    destruct Htupla as [[t [= -> ->]] | [e [= -> ->]]].
    + split; [done |]. split; [done |]. intros ? [= <-]. left. exists t.
      by rewrite Hrun.
    + split; [done |]. split; [done |]. intros ? [= <-]. right. exists e.
      rewrite Hrun. simpl. by rewrite <- ?app_assoc.
Qed.

(** The session is not touched by the work on the uploads. *)
Lemma procesar_pdf_sesion (file : FileStorage) (st : estado) :
  session_excel_data (procesar_pdf U E file st).2 = session_excel_data st.
Proof.
  unfold procesar_pdf, try_except, mbind, M_bind.
  destruct (file_read file) as [e | pdf_stream].
  - by rewrite llamar_inl.
  - rewrite llamar_inr.
    destruct (extraer_run U E pdf_stream
                (con_eventos st [ev_file_read (filename file)]))
      as (tupla & evs & -> & Htupla).
    by destruct Htupla as [[t ->] | [e ->]].
Qed.

Lemma procesar_entrada_sesion (nombre_archivo : str) (zip_ref : ZipFile)
    (item_name : str) (st : estado) :
  session_excel_data
    (procesar_entrada U E nombre_archivo zip_ref item_name st).2
  = session_excel_data st.
Proof.
  unfold procesar_entrada. destruct (entrada_aceptada U item_name); [| done].
  unfold try_except, mbind, M_bind.
  destruct (read zip_ref item_name) as [e | data].
  - by rewrite llamar_inl.
  - rewrite llamar_inr.
    destruct (extraer_run U E data (con_eventos st [ev_zip_read item_name]))
      as (tupla & evs & -> & Htupla).
    by destruct Htupla as [[t ->] | [e ->]].
Qed.

Lemma entradas_sesion (nombre_archivo : str) (zip_ref : ZipFile)
    (items : list str) (st : estado) :
  session_excel_data
    (for_each items (procesar_entrada U E nombre_archivo zip_ref) st).2
  = session_excel_data st.
Proof.
  revert st. induction items as [|item items IH]; intros st; [done |].
  simpl. unfold mbind, M_bind.
  pose proof (procesar_entrada_sesion nombre_archivo zip_ref item st) as H1.
  destruct (procesar_entrada_run U E nombre_archivo zip_ref item st)
    as (st1 & Hrun & _).
  rewrite Hrun in H1 |- *. simpl in H1. by rewrite IH.
Qed.

Lemma procesar_zip_sesion (file : FileStorage) (st : estado) :
  session_excel_data (procesar_zip U E file st).2 = session_excel_data st.
Proof.
  unfold procesar_zip, try_except, mbind, M_bind.
  destruct (file_read file) as [e | zip_stream]; [by rewrite llamar_inl |].
  rewrite llamar_inr.
  destruct (is_zipfile E zip_stream) as [e | valido];
    [by rewrite llamar_inl |].
  rewrite llamar_inr.
  destruct valido;
    [change (negb true) with false | change (negb false) with true];
    cbv beta iota; [| done].
  destruct (zipfile_ZipFile E zip_stream) as [e | zip_ref];
    [by rewrite llamar_inl |].
  rewrite llamar_inr.
  pose proof (entradas_sesion (filename file) zip_ref (namelist zip_ref)
    (con_eventos (con_eventos (con_eventos st [ev_file_read (filename file)])
       [ev_is_zipfile]) [ev_ZipFile])) as Hs.
  destruct (entradas_run U E (filename file) zip_ref (namelist zip_ref)
    (con_eventos (con_eventos (con_eventos st [ev_file_read (filename file)])
       [ev_is_zipfile]) [ev_ZipFile])) as (st' & Hrun & _).
  rewrite Hrun in Hs |- *. exact Hs.
Qed.

Lemma archivos_sesion (files : list FileStorage) (st : estado) :
  session_excel_data (for_each files (procesar_archivo U E) st).2
  = session_excel_data st.
Proof.
  revert st. induction files as [|file files IH]; intros st; [done |].
  simpl. unfold mbind, M_bind.
  assert (H1 : session_excel_data (procesar_archivo U E file st).2
               = session_excel_data st).
  { unfold procesar_archivo. cbv zeta.
    destruct (endswith (filename file) (py ".zip"));
      [apply procesar_zip_sesion |].
    destruct (endswith (filename file) (py ".pdf"));
      [apply procesar_pdf_sesion | done]. }
  destruct (procesar_archivo_run U E file st) as (st1 & Hrun & _).
  rewrite Hrun in H1 |- *. simpl in H1. by rewrite IH.
Qed.

(** [process_files] up to the answer: the loop always ends, in
    [tras_el_lote]. *)
Lemma process_files_lote (files : list FileStorage) (st : estado) :
  process_files U E (Some files) st
  = (let st1 := tras_el_lote U E files st in
     match resultados_ok st1 with
     | [] =>
         mret {| success := false; table_html := None;
                 errors := NINGUN_ARCHIVO :: errores_proceso st1;
                 status := 200 |}
     | _ :: _ =>
         excel ← llamar ev_to_excel (to_excel E (resultados_ok st1));
         session_set excel ;;
         html ← llamar ev_to_html (to_html E (resultados_ok st1));
         mret {| success := true; table_html := Some html;
                 errors := errores_proceso st1; status := 200 |}
     end st1).
Proof.
  unfold process_files, tras_el_lote, mbind, M_bind, locales_nuevos.
  destruct (archivos_run U E files
              {| traza := traza st; resultados_ok := [];
                 errores_proceso := [];
                 session_excel_data := session_excel_data st |})
    as (st1 & -> & _).
  unfold leer_estado. simpl. by destruct (resultados_ok st1).
Qed.

Lemma tras_el_lote_salidas (files : list FileStorage) (st : estado) :
  exists salidas,
    Forall2 salida_de (concat (map (documentos_de U E) files)) salidas
    /\ resultados_ok (tras_el_lote U E files st) = registros salidas
    /\ errores_proceso (tras_el_lote U E files st) = mensajes salidas.
Proof.
  unfold tras_el_lote.
  destruct (archivos_run U E files
              {| traza := traza st; resultados_ok := [];
                 errores_proceso := [];
                 session_excel_data := session_excel_data st |})
    as (st1 & -> & salidas & Hsal & Hok & Herr).
  by exists salidas.
Qed.

Lemma tras_el_lote_sesion (files : list FileStorage) (st : estado) :
  session_excel_data (tras_el_lote U E files st) = session_excel_data st.
Proof. unfold tras_el_lote. by rewrite archivos_sesion. Qed.








(** X11: when the batch leaves at least one record and the two
    renderers return, the answer says [success = true] with status 200,
    carries the table rendered from the records, and lists the errors
    collected, with no headline; the spreadsheet is put in the session.
    Records and errors together account for every document of the
    batch, one entry each: the failures of some documents do not keep
    the others out of the report. *)
Theorem respuesta_con_registros (files : list FileStorage) (st : estado)
    (excel : bytes) (html : str) :
  resultados_ok (tras_el_lote U E files st) <> [] ->
  to_excel E (resultados_ok (tras_el_lote U E files st)) = inr excel ->
  to_html E (resultados_ok (tras_el_lote U E files st)) = inr html ->
  exists st' salidas,
    process_files U E (Some files) st
    = (inr {| success := true; table_html := Some html;
              errors := errores_proceso (tras_el_lote U E files st);
              status := 200 |}, st')
    /\ session_excel_data st' = Some excel
    /\ Forall2 salida_de (concat (map (documentos_de U E) files)) salidas
    /\ resultados_ok (tras_el_lote U E files st) = registros salidas
    /\ errores_proceso (tras_el_lote U E files st) = mensajes salidas.
Proof.
  intros Hok Hexcel Hhtml.
  destruct (tras_el_lote_salidas files st) as (salidas & Hsal & Hreg & Hmsg).
  rewrite process_files_lote. cbv zeta.
  destruct (resultados_ok (tras_el_lote U E files st)) as [|d ds] eqn:Hres;
    [done |].
  unfold mbind, M_bind. rewrite Hexcel, llamar_inr. unfold session_set.
  rewrite Hhtml, llamar_inr.
  eexists _, salidas. split; [reflexivity |]. by repeat split.
Qed.

(** X12: the renderers are called outside every [try].  When the batch
    leaves at least one record and the spreadsheet writer raises,
    [process_files] raises that exception and the session keeps what it
    held; when the writer returns and the table renderer raises,
    [process_files] raises that exception after the new spreadsheet has
    been put in the session. *)
Theorem fallo_del_informe (files : list FileStorage) (st : estado)
    (e : excepcion) :
  resultados_ok (tras_el_lote U E files st) <> [] ->
  (to_excel E (resultados_ok (tras_el_lote U E files st)) = inl e ->
   exists st',
     process_files U E (Some files) st = (inl e, st')
     /\ session_excel_data st' = session_excel_data st)
  /\ (forall excel,
        to_excel E (resultados_ok (tras_el_lote U E files st)) = inr excel ->
        to_html E (resultados_ok (tras_el_lote U E files st)) = inl e ->
        exists st',
          process_files U E (Some files) st = (inl e, st')
          /\ session_excel_data st' = Some excel).
Proof.
  intros Hok. rewrite process_files_lote. cbv zeta.
  pose proof (tras_el_lote_sesion files st) as Hses.
  destruct (resultados_ok (tras_el_lote U E files st)) as [|d ds] eqn:Hres;
    [done |].
  unfold mbind, M_bind. split.
  - intros Hexcel. rewrite Hexcel, llamar_inl.
    eexists. split; [reflexivity |]. exact Hses.
  - intros excel Hexcel Hhtml. rewrite Hexcel, llamar_inr.
    unfold session_set. rewrite Hhtml, llamar_inl.
    eexists. split; [reflexivity | done].
Qed.

(** X10: an archive that does not open (it cannot be read, the validity
    test raises or says no, or the opening raises) leaves exactly one
    error string, which names the archive, and no record; none of its
    entries is read and no document is opened.  When the validity test
    says no, the string is "'<name>' no es un archivo ZIP válido." and
    the archive is not opened at all. *)
Theorem archivo_que_no_abre (file : FileStorage) (st : estado) :
  abrir_zip E file = None ->
  exists st' msg evs,
    procesar_zip U E file st = (inr tt, st')
    /\ resultados_ok st' = resultados_ok st
    /\ errores_proceso st' = errores_proceso st ++ [msg]
    /\ (exists a b, msg = a ++ filename file ++ b)
    /\ traza st' = traza st ++ evs
    /\ Forall (fun ev => es_de_documento ev = false) evs
    /\ forall zip_stream,
         file_read file = inr zip_stream ->
         is_zipfile E zip_stream = inr false ->
         msg = py "'" ++ filename file ++ py "' no es un archivo ZIP v"
               ++ [225] ++ py "lido."
         /\ ev_ZipFile ∉ evs.
Proof.
  unfold abrir_zip, procesar_zip, try_except, mbind, M_bind.
  destruct (file_read file) as [e | zip_stream].
  { intros _. rewrite llamar_inl. eexists _, _, _. split; [reflexivity |].
    split; [done |]. split; [reflexivity |].
    split; [by exists (py "Error al procesar el archivo ZIP '"),
                      (py "': " ++ mensaje e) |].
    split; [reflexivity |]. split; [by repeat constructor | done]. }
  rewrite llamar_inr.
  destruct (is_zipfile E zip_stream) as [e | valido] eqn:Hz.
  { intros _. rewrite llamar_inl, con_eventos_app.
    eexists _, _, _. split; [reflexivity |].
    split; [done |]. split; [reflexivity |].
    split; [by exists (py "Error al procesar el archivo ZIP '"),
                      (py "': " ++ mensaje e) |].
    split; [reflexivity |]. split; [by repeat constructor |].
    intros ? [= <-] Hf. congruence. }
  rewrite llamar_inr, con_eventos_app.
  destruct valido;
    [change (negb true) with false | change (negb false) with true];
    cbv beta iota.
  - destruct (zipfile_ZipFile E zip_stream) as [e | zip_ref]; [| done].
    intros _. rewrite llamar_inl, con_eventos_app.
    eexists _, _, _. split; [reflexivity |].
    split; [done |]. split; [reflexivity |].
    split; [by exists (py "Error al procesar el archivo ZIP '"),
                      (py "': " ++ mensaje e) |].
    split; [reflexivity |]. split; [by repeat constructor |].
    intros ? [= <-] Hf. congruence.
  - intros _. eexists _, _, _. split; [reflexivity |].
    split; [done |]. split; [reflexivity |].
    split; [by exists (py "'"),
                      (py "' no es un archivo ZIP v" ++ [225] ++ py "lido.") |].
    split; [reflexivity |]. split; [by repeat constructor |].
    intros ? [= <-] _. split; [done |].
    intros Hin. simpl in Hin. rewrite !elem_of_cons in Hin.
    destruct Hin as [? | [? | ?%elem_of_nil]]; done.
Qed.
End Ramas.

(** The tags of the records among the outcomes of some documents form a
    subsequence of the documents. *)
Lemma etiquetas_en_orden (docs : list str)
    (salidas : list (gmap string str + str)) :
  Forall2 salida_de docs salidas ->
  exists nombres,
    Forall2 (fun datos doc => datos !! "Archivo"%string = Some doc)
            (registros salidas) nombres
    /\ nombres `sublist_of` docs.
Proof.
  induction 1 as [|doc [datos | msg] docs salidas Hdoc Hrest (nombres & Hn & Hsub)].
  - exists []. split; [constructor | done].
  - exists (doc :: nombres). split; [by constructor | by apply sublist_skip].
  - exists nombres. split; [done | by apply sublist_cons].
Qed.

(** X13: the records of a batch come in the order of its documents
    (uploads in the order given, the entries of an archive in the order
    of its listing, at the place of the archive): their [Archivo] tags,
    read in order, form a subsequence of the document names. *)
Theorem registros_en_orden (U : db) (E : entorno)
    (files : list FileStorage) (st : estado) :
  exists nombres,
    Forall2 (fun datos doc => datos !! "Archivo"%string = Some doc)
            (resultados_ok (tras_el_lote U E files st)) nombres
    /\ nombres `sublist_of` concat (map (documentos_de U E) files).
Proof.
  destruct (tras_el_lote_salidas U E files st) as (salidas & Hsal & -> & _).
  by apply etiquetas_en_orden.
Qed.


Lemma rama_pdf_witness :
  file_read (subida "b.pdf" [Byte.x00; Byte.x01])
  = inr [Byte.x00; Byte.x01]
  /\ exists st' texto,
       procesar_pdf latin1 entorno_con_ocr
         (subida "b.pdf" [Byte.x00; Byte.x01]) estado_inicial = (inr tt, st')
       /\ resultados_ok st'
          = [<["Archivo"%string := py "b.pdf"]>
               (analizar_contrato latin1 texto)]
       /\ errores_proceso st' = [].
Proof.
  split; [reflexivity |].
  destruct (rama_pdf latin1 entorno_con_ocr
              (subida "b.pdf" [Byte.x00; Byte.x01]) estado_inicial)
    as (st' & Hrun & _ & _ & Hlee).
  destruct (Hlee [Byte.x00; Byte.x01] eq_refl)
    as [(texto & _ & Hok & Herr) | (e & Hext & _)].
  - by exists st', texto.
  - vm_compute in Hext. discriminate Hext.
Defined.

Lemma rama_entrada_witness :
  (entrada_aceptada latin1 (py "sample.pdf") = true
   /\ read zip_muestra (py "sample.pdf") = inr [Byte.x00])
  /\ exists st' e,
       procesar_entrada latin1 entorno_con_ocr (py "b.zip") zip_muestra
         (py "sample.pdf") estado_inicial = (inr tt, st')
       /\ resultados_ok st' = []
       /\ errores_proceso st'
          = [py "Error en 'sample.pdf' (dentro de b.zip): "
             ++ error_critico e].
Proof.
  assert (Hac : entrada_aceptada latin1 (py "sample.pdf") = true)
    by reflexivity.
  split; [by split |].
  destruct (rama_entrada latin1 entorno_con_ocr (py "b.zip") zip_muestra
              (py "sample.pdf") estado_inicial Hac)
    as (st' & Hrun & _ & _ & Hlee).
  destruct (Hlee [Byte.x00] eq_refl)
    as [(texto & Hext & _) | (e & _ & Hok & Herr)].
  - vm_compute in Hext. discriminate Hext.
  - by exists st', e.
Defined.

Lemma archivo_que_no_abre_witness :
  (abrir_zip entorno_prueba (subida "b.zip" []) = None
   /\ file_read (subida "b.zip" []) = inr []
   /\ is_zipfile entorno_prueba [] = inr false)
  /\ exists st' evs,
       procesar_zip latin1 entorno_prueba (subida "b.zip" []) estado_inicial
       = (inr tt, st')
       /\ resultados_ok st' = []
       /\ errores_proceso st'
          = [py "'b.zip' no es un archivo ZIP v" ++ [225] ++ py "lido."]
       /\ traza st' = evs
       /\ (ev_ZipFile ∉ evs).
Proof.
  split; [by repeat split |].
  destruct (archivo_que_no_abre latin1 entorno_prueba (subida "b.zip" [])
              estado_inicial eq_refl)
    as (st' & msg & evs & Hrun & Hok & Herr & _ & Htraza & _ & Hno).
  destruct (Hno [] eq_refl eq_refl) as [-> Hzip].
  exists st', evs. by repeat split.
Defined.

Lemma respuesta_con_registros_witness :
  let files := [subida "a.pdf" []; subida "b.pdf" [Byte.x00; Byte.x01]] in
  let st1 := tras_el_lote latin1 entorno_con_ocr files estado_inicial in
  (resultados_ok st1 <> []
   /\ to_excel entorno_con_ocr (resultados_ok st1)
      = inr [Byte.x50; Byte.x4b]
   /\ to_html entorno_con_ocr (resultados_ok st1) = inr (py "<table>"))
  /\ exists st' msg,
       process_files latin1 entorno_con_ocr (Some files) estado_inicial
       = (inr {| success := true; table_html := Some (py "<table>");
                 errors := [msg]; status := 200 |}, st')
       /\ session_excel_data st' = Some [Byte.x50; Byte.x4b].
Proof.
  intros files st1.
  assert (Hlen : length (resultados_ok st1) = 1%nat) by (by vm_compute).
  assert (Hok : resultados_ok st1 <> [])
    by (intros Hnil; rewrite Hnil in Hlen; discriminate Hlen).
  split; [by repeat split |].
  destruct (respuesta_con_registros latin1 entorno_con_ocr files
              estado_inicial [Byte.x50; Byte.x4b] (py "<table>")
              Hok eq_refl eq_refl)
    as (st' & salidas & Hrun & Hses & _).
  assert (Herr : exists msg, errores_proceso st1 = [msg])
    by (eexists; by vm_compute).
  destruct Herr as [msg Herr].
  exists st', msg. fold st1 in Hrun. rewrite Herr in Hrun. by split.
Defined.

Lemma fallo_del_informe_witness :
  let files := [subida "b.pdf" [Byte.x00; Byte.x01]] in
  (resultados_ok (tras_el_lote latin1 entorno_sin_excel files
                    estado_con_informe) <> []
   /\ resultados_ok (tras_el_lote latin1 entorno_sin_html files
                       estado_con_informe) <> [])
  /\ (exists st',
        process_files latin1 entorno_sin_excel (Some files)
          estado_con_informe
        = (inl (Exception (py "No module named 'openpyxl'")), st')
        /\ session_excel_data st'
           = Some [Byte.x50; Byte.x4b; Byte.x03])
  /\ (exists st',
        process_files latin1 entorno_sin_html (Some files)
          estado_con_informe
        = (inl (Exception (py "out of memory")), st')
        /\ session_excel_data st' = Some [Byte.x50; Byte.x4b]).
Proof.
  intros files.
  assert (Hlen1 : length (resultados_ok
                    (tras_el_lote latin1 entorno_sin_excel files
                       estado_con_informe)) = 1%nat) by (by vm_compute).
  assert (Hlen2 : length (resultados_ok
                    (tras_el_lote latin1 entorno_sin_html files
                       estado_con_informe)) = 1%nat) by (by vm_compute).
  assert (Hok1 : resultados_ok (tras_el_lote latin1 entorno_sin_excel files
                                  estado_con_informe) <> [])
    by (intros Hnil; rewrite Hnil in Hlen1; discriminate Hlen1).
  assert (Hok2 : resultados_ok (tras_el_lote latin1 entorno_sin_html files
                                  estado_con_informe) <> [])
    by (intros Hnil; rewrite Hnil in Hlen2; discriminate Hlen2).
  split; [by split |]. split.
  - destruct (fallo_del_informe latin1 entorno_sin_excel files
                estado_con_informe
                (Exception (py "No module named 'openpyxl'")) Hok1)
      as [Hexcel _].
    exact (Hexcel eq_refl).
  - destruct (fallo_del_informe latin1 entorno_sin_html files
                estado_con_informe (Exception (py "out of memory")) Hok2)
      as [_ Hhtml].
    exact (Hhtml [Byte.x50; Byte.x4b] eq_refl eq_refl).
Defined.

(** What [download_excel] answers is read off the session alone. *)
Lemma download_excel_sesion (st : estado) :
  (download_excel st).1
  = inr (if hay_bytes (session_excel_data st)
         then send_file (default [] (session_excel_data st)) MIMETYPE_XLSX
                        true (py "resultados_contratos.xlsx")
         else texto_plano NO_HAY_DATOS 404)
  /\ session_excel_data (download_excel st).2 = None.
Proof.
  unfold download_excel, session_pop, mbind, M_bind. cbv beta iota.
  by destruct (hay_bytes (session_excel_data st)).
Qed.

Section Descarga.
Variable U : db.
Variable E : entorno.

(** X14: the report of a batch is served once.  After [process_files]
    has answered [success = true], the next [download_excel] sends the
    bytes the spreadsheet writer returned for the records of the batch,
    as an attachment named resultados_contratos.xlsx (a writer that
    returned no byte at all gives the 404 text instead), and the
    [download_excel] after that one answers the 404 text. *)
Theorem descarga_una_vez (files : list FileStorage) (st st1 : estado)
    (r : respuesta) :
  process_files U E (Some files) st = (inr r, st1) ->
  success r = true ->
  exists excel,
    to_excel E (resultados_ok (tras_el_lote U E files st)) = inr excel
    /\ (download_excel st1).1
       = inr (match excel with
              | [] => texto_plano NO_HAY_DATOS 404
              | _ :: _ => send_file excel MIMETYPE_XLSX true
                                    (py "resultados_contratos.xlsx")
              end)
    /\ (download_excel (download_excel st1).2).1
       = inr (texto_plano NO_HAY_DATOS 404).
Proof.
  rewrite process_files_lote. cbv zeta.
  destruct (resultados_ok (tras_el_lote U E files st)) as [|d ds] eqn:Hres.
  { by intros [= <- <-]. }
  unfold mbind, M_bind.
  destruct (to_excel E (d :: ds)) as [e | excel];
    [by rewrite llamar_inl |].
  rewrite llamar_inr. unfold session_set.
  destruct (to_html E (d :: ds)) as [e | html];
    [by rewrite llamar_inl |].
  rewrite llamar_inr. intros [= _ Hst1] _.
  exists excel. split; [done |].
  destruct (download_excel_sesion st1) as [H1 H2].
  destruct (download_excel_sesion (download_excel st1).2) as [H3 _].
  rewrite H3, H2, H1, <- Hst1. by destruct excel.
Qed.

(** X15: a batch that fails leaves the report of an earlier batch in
    place.  When [process_files] answers [success = false] (nothing was
    sent, or no document gave a record), the session holds what it held
    before the request, so the next [download_excel] answers as it would
    have answered before the request. *)
Theorem lote_fallido_conserva_informe
    (upload_files : option (list FileStorage)) (st st1 : estado)
    (r : respuesta) :
  process_files U E upload_files st = (inr r, st1) ->
  success r = false ->
  session_excel_data st1 = session_excel_data st
  /\ (download_excel st1).1 = (download_excel st).1.
Proof.
  intros Hrun Hr.
  assert (session_excel_data st1 = session_excel_data st) as Hses.
  { destruct upload_files as [files |]; [| by injection Hrun as _ <-].
    rewrite process_files_lote in Hrun. cbv zeta in Hrun.
    pose proof (tras_el_lote_sesion U E files st) as Hlote.
    destruct (resultados_ok (tras_el_lote U E files st)) as [|d ds].
    { by injection Hrun as _ <-. }
    unfold mbind, M_bind in Hrun.
    destruct (to_excel E (d :: ds)) as [e | excel];
      [by rewrite llamar_inl in Hrun |].
    rewrite llamar_inr in Hrun. unfold session_set in Hrun.
    destruct (to_html E (d :: ds)) as [e | html];
      [by rewrite llamar_inl in Hrun |].
    rewrite llamar_inr in Hrun. injection Hrun as <- _. done. }
  split; [done |].
  destruct (download_excel_sesion st1) as [-> _].
  destruct (download_excel_sesion st) as [-> _].
  by rewrite Hses.
Qed.
End Descarga.

(** X16: the column order of the report.  When the columns of the
    frame are distinct and [Archivo] is one of them, the columns
    selected are [Archivo] followed by the others in the order they had:
    no column is lost and none comes twice. *)
Theorem columnas_reordenadas (df_columns : list string) :
  NoDup df_columns ->
  "Archivo"%string ∈ df_columns ->
  exists antes despues,
    df_columns = antes ++ "Archivo"%string :: despues
    /\ columnas df_columns = "Archivo"%string :: antes ++ despues
    /\ columnas df_columns ≡ₚ df_columns
    /\ NoDup (columnas df_columns).
Proof.
  intros Hnd Hin.
  destruct (list_elem_of_split _ _ Hin) as (antes & despues & ->).
  assert (forall l : list string,
            "Archivo"%string ∉ l ->
            filter (fun col => col <> "Archivo"%string) l = l) as Hfuera.
  { induction l as [|c l IH]; [done |].
    rewrite not_elem_of_cons. intros [Hc Hl].
    rewrite filter_cons_True by done. by rewrite IH. }
  apply NoDup_app in Hnd as (Hantes & Hcruz & [Hno Hdesp]%NoDup_cons).
  assert ("Archivo"%string ∉ antes) as Hno'.
  { intros H. apply (Hcruz _ H). by left. }
  assert (columnas (antes ++ "Archivo"%string :: despues)
          = "Archivo"%string :: antes ++ despues) as Hcol.
  { unfold columnas. rewrite filter_app, filter_cons_False by naive_solver.
    by rewrite !Hfuera. }
  exists antes, despues. split; [done |]. split; [done |].
  rewrite Hcol. split.
  - by rewrite Permutation_middle.
  - rewrite (Permutation_middle antes despues "Archivo"%string).
    apply NoDup_app. split; [done |]. split; [done |].
    by apply NoDup_cons.
Qed.

Lemma descarga_una_vez_witness :
  let files := [subida "b.pdf" [Byte.x00; Byte.x01]] in
  let corrida :=
    process_files latin1 entorno_con_ocr (Some files) estado_inicial in
  let r := {| success := true; table_html := Some (py "<table>");
              errors := []; status := 200 |} in
  (corrida = (inr r, corrida.2) /\ success r = true)
  /\ (download_excel corrida.2).1
     = inr (send_file [Byte.x50; Byte.x4b] MIMETYPE_XLSX true
                      (py "resultados_contratos.xlsx"))
  /\ (download_excel (download_excel corrida.2).2).1
     = inr (texto_plano NO_HAY_DATOS 404).
Proof.
  intros files corrida r.
  assert (Hrun : corrida = (inr r, corrida.2)).
  { rewrite (surjective_pairing corrida) at 1. f_equal; by vm_compute. }
  split; [by split |].
  destruct (descarga_una_vez latin1 entorno_con_ocr files estado_inicial
              corrida.2 r Hrun eq_refl)
    as (excel & Hexcel & Huna & Hdos).
  injection Hexcel as <-. by split.
Defined.

Lemma lote_fallido_conserva_informe_witness :
  let corrida :=
    process_files latin1 entorno_con_ocr (Some [subida "a.pdf" []])
      estado_con_informe in
  let r := {| success := false; table_html := None;
              errors := [NINGUN_ARCHIVO;
                         py "'a.pdf': "
                         ++ error_critico
                              (Exception (py "cannot open empty document"))];
              status := 200 |} in
  (corrida = (inr r, corrida.2) /\ success r = false)
  /\ (download_excel corrida.2).1
     = inr (send_file [Byte.x50; Byte.x4b; Byte.x03] MIMETYPE_XLSX true
                      (py "resultados_contratos.xlsx")).
Proof.
  intros corrida r.
  assert (Hrun : corrida = (inr r, corrida.2)).
  { rewrite (surjective_pairing corrida) at 1. f_equal; by vm_compute. }
  split; [by split |].
  destruct (lote_fallido_conserva_informe latin1 entorno_con_ocr
              (Some [subida "a.pdf" []]) estado_con_informe corrida.2 r
              Hrun eq_refl) as [_ Hdesc].
  rewrite Hdesc. reflexivity.
Defined.

Lemma columnas_reordenadas_witness :
  let df_columns := patrones.*1 ++ ["Archivo"%string] in
  (NoDup df_columns /\ "Archivo"%string ∈ df_columns)
  /\ columnas df_columns = "Archivo"%string :: patrones.*1
  /\ columnas df_columns ≡ₚ df_columns.
Proof.
  intros df_columns.
  assert (Hnd : NoDup df_columns)
    by (apply (bool_decide_unpack _); by vm_compute).
  assert (Hin : "Archivo"%string ∈ df_columns)
    by (apply (bool_decide_unpack _); by vm_compute).
  split; [by split |].
  destruct (columnas_reordenadas df_columns Hnd Hin)
    as (antes & despues & _ & _ & Hperm & _).
  split; [reflexivity | exact Hperm].
Defined.

End InformeFacts.

(** * The threshold of 100 characters *)

Module UmbralFacts.
Import Unicode Re App Spec Casos PyFacts ReFacts ExtractorFacts AcquirerFacts
       PipelineFacts PaginasFacts.

(** The contributions of the pages, split at one page. *)
Lemma aportes_en_pagina (f : Page -> str -> str) (paginas : list Page)
    (ts : list str) (i : nat) (pagina : Page) :
  paginas !! i = Some pagina ->
  Forall2 (fun p t => get_text p = inr t) paginas ts ->
  exists t,
    get_text pagina = inr t
    /\ concat (zip_with f paginas ts)
       = concat (zip_with f (take i paginas) (take i ts))
         ++ f pagina t
         ++ concat (zip_with f (drop (S i) paginas) (drop (S i) ts)).
Proof.
  intros Hi Hts. revert i Hi.
  induction Hts as [|p t paginas ts Hp Hts IH]; intros i Hi; [done |].
  destruct i as [|i].
  - injection Hi as <-. by exists t.
  - destruct (IH i Hi) as (t' & Ht' & Heq). exists t'. split; [done |].
    simpl. rewrite Heq. by rewrite <- app_assoc.
Qed.

Section Umbral.
Variable U : db.
Variable E : entorno.

(** The loop calls [get_text] on a page that it reaches. *)
Lemma bucle_alcanza (paginas : list Page) (i : nat) (pagina : Page)
    (st : estado) :
  paginas !! i = Some pagina ->
  Forall texto_directo_ok (take i paginas) ->
  exists r evs,
    bucle_paginas U E [] 0 paginas st = (r, con_eventos st evs)
    /\ ev_get_text i ∈ evs.
Proof.
  intros Hi Hantes.
  assert (Hlen_i : length (take i paginas) = i).
  { apply length_take_le. apply lookup_lt_Some in Hi. lia. }
  pose proof (bucle_paginas_app U E (take i paginas)
                (pagina :: drop (S i) paginas) [] 0 st) as Hb.
  rewrite take_drop_middle, Hlen_i in Hb by done. rewrite Hb. clear Hb.
  destruct (bucle_paginas_run U E (take i paginas) [] 0 st)
    as (r1 & evs1 & Hrun1 & _ & _ & Hok1).
  destruct (Hok1 Hantes) as [antes ->].
  rewrite Hrun1. simpl. unfold mbind, M_bind.
  destruct (paso_pagina_forma U E antes i pagina (con_eventos st evs1))
    as (evs2 & Hrun2 & _).
  rewrite Hrun2.
  destruct (get_text pagina) as [e | t].
  - eexists _, _. rewrite con_eventos_app. split; [reflexivity |]. en_traza.
  - destruct (bucle_paginas_run U E (drop (S i) paginas)
                (antes ++ aporte_pagina U E pagina t) (S i)
                (con_eventos (con_eventos st evs1) (ev_get_text i :: evs2)))
      as (r3 & evs3 & Hrun3 & _).
    rewrite Hrun3, !con_eventos_app. eexists _, _.
    split; [reflexivity |]. en_traza.
Qed.

(** The run on a document that opens, whose pages all give their direct
    text and that closes. *)
Lemma extraer_con_texto (stream_pdf : bytes) (doc : Document)
    (ts : list str) (st : estado) :
  fitz_open E stream_pdf = inr doc ->
  Forall2 (fun p t => get_text p = inr t) (pages doc) ts ->
  close doc = inr tt ->
  exists evs,
    extraer_texto_con_ocr U E stream_pdf st
    = (inr (Some (concat (zip_with (aporte_pagina U E) (pages doc) ts)),
            None),
       con_eventos st evs).
Proof.
  intros Hopen Hts Hclose.
  destruct (bucle_paginas_run U E (pages doc) [] 0
              (con_eventos st [ev_fitz_open])) as (r & evs & Hrun & _).
  pose proof (bucle_paginas_texto U E (pages doc) ts [] 0
                (con_eventos st [ev_fitz_open]) Hts) as Htexto.
  rewrite Hrun in Htexto. simpl in Htexto. subst r.
  destruct (extraer_de_bucle U E stream_pdf doc _ evs st Hopen Hrun)
    as (fin & Hext & _).
  exists (ev_fitz_open :: evs ++ fin). rewrite Hext.
  unfold tupla_final. by rewrite Hclose.
Qed.

(** A [.pdf] upload whose extraction returns a text leaves the record
    of that text, tagged, and no error. *)
Lemma pdf_con_texto (file : FileStorage) (stream_pdf : bytes) (texto : str)
    (st : estado) :
  endswith (filename file) (py ".pdf") = true ->
  file_read file = inr stream_pdf ->
  (forall st0, exists evs,
     extraer_texto_con_ocr U E stream_pdf st0
     = (inr (Some texto, None), con_eventos st0 evs)) ->
  exists st',
    procesar_archivo U E file st = (inr tt, st')
    /\ resultados_ok st'
       = resultados_ok st
         ++ [<["Archivo"%string := filename file]>
               (analizar_contrato U texto)]
    /\ errores_proceso st' = errores_proceso st.
Proof.
  intros Hpdf Hread Hext. unfold procesar_archivo. cbv zeta.
  rewrite (pdf_no_zip _ Hpdf), Hpdf.
  unfold procesar_pdf, try_except, mbind, M_bind.
  rewrite Hread, llamar_inr.
  destruct (Hext (con_eventos st [ev_file_read (filename file)]))
    as [evs ->].
  eexists. split; [reflexivity |]. by split.
Qed.

(** C1: a page whose trimmed direct text has 100 characters or more is
    passed through by [extraer_texto_con_ocr]: in the whole run no OCR
    call is made for that page; [get_text] is called on it once the
    loop reaches it; and when the run returns a text (direct extraction
    returns on every page and [close] returns), the tuple is that text
    without error, and the text holds, right after what the pages
    before have added and right before what the pages after add, the
    trimmed direct text of the page and a newline, unchanged.  The turn
    of the loop for the page makes the single call [get_text] and
    appends to whatever text was accumulated. *)
Theorem pagina_con_texto_sin_ocr (stream_pdf : bytes) (doc : Document)
    (i : nat) (pagina : Page) (t : str) (st : estado) :
  fitz_open E stream_pdf = inr doc ->
  pages doc !! i = Some pagina ->
  get_text pagina = inr t ->
  (100 <= length (strip (isspace U) t))%nat ->
  (exists tupla st' evs,
     extraer_texto_con_ocr U E stream_pdf st = (inr tupla, st')
     /\ traza st' = traza st ++ evs
     /\ ~ ocr_invocado i evs
     /\ (Forall texto_directo_ok (take i (pages doc)) ->
         ev_get_text i ∈ evs)
     /\ forall ts,
          Forall2 (fun p t' => get_text p = inr t') (pages doc) ts ->
          close doc = inr tt ->
          tupla
          = (Some (concat (zip_with (aporte_pagina U E)
                             (take i (pages doc)) (take i ts))
                   ++ (strip (isspace U) t ++ [10])
                   ++ concat (zip_with (aporte_pagina U E)
                                (drop (S i) (pages doc)) (drop (S i) ts))),
             None))
  /\ forall texto_completo st1,
       paso_pagina U E texto_completo i pagina st1
       = (inr (texto_completo ++ strip (isspace U) t ++ [10]),
          con_eventos st1 [ev_get_text i]).
Proof.
  intros Hopen Hi Ht Hlen. split.
  - destruct (bucle_pagina_directa U E (pages doc) i pagina t
                (con_eventos st [ev_fitz_open]) Hi Ht Hlen)
      as (r & evs & Hrun & Hno & _).
    destruct (extraer_de_bucle U E stream_pdf doc r evs st Hopen Hrun)
      as (fin & Hext & Hfin).
    eexists _, _, _. split; [exact Hext |]. split; [done |].
    split; [| split].
    + change (ev_fitz_open :: evs ++ fin) with ([ev_fitz_open] ++ evs ++ fin).
      apply no_ocr_invocado_app;
        [by apply no_ocr_invocado_no_ocr; repeat constructor |].
      apply no_ocr_invocado_app; [done | by apply no_ocr_invocado_no_ocr].
    + intros Hantes.
      destruct (bucle_alcanza (pages doc) i pagina
                  (con_eventos st [ev_fitz_open]) Hi Hantes)
        as (r' & evs' & Hrun' & Hin).
      rewrite Hrun in Hrun'. injection Hrun' as _ Hevs.
      apply app_inv_head in Hevs. subst evs'. en_traza.
    + intros ts Hts Hclose.
      destruct (extraer_con_texto stream_pdf doc ts st Hopen Hts Hclose)
        as (evs' & Hext').
      rewrite Hext in Hext'. injection Hext' as -> _.
      destruct (aportes_en_pagina (aporte_pagina U E) (pages doc) ts i pagina
                  Hi Hts) as (t' & Ht' & ->).
      assert (t' = t) as -> by congruence.
      unfold aporte_pagina at 2. cbv zeta.
      by rewrite (proj2 (Nat.ltb_ge _ _) Hlen).
  - intros texto_completo st1. by apply paso_pagina_directo.
Qed.

(** C2: a page whose trimmed direct text has fewer than 100 characters,
    once the loop reaches it, is rendered for OCR.  If the OCR step
    raises, the line "Advertencia: OCR falló en la página <n>:
    <exception>" is printed, the turn of the loop returns normally with
    the direct text and a newline appended, and the failure goes no
    further: when direct extraction returns on every page and [close]
    returns, the tuple carries no error and a text that holds the
    direct text of the page and a newline at the page's place; and a
    [.pdf] upload of that document adds the record of that text to
    [resultados_ok] and nothing to [errores_proceso]. *)
Theorem pagina_corta_con_ocr (stream_pdf : bytes) (doc : Document)
    (i : nat) (pagina : Page) (t : str) (st : estado) :
  fitz_open E stream_pdf = inr doc ->
  pages doc !! i = Some pagina ->
  Forall texto_directo_ok (take i (pages doc)) ->
  get_text pagina = inr t ->
  (length (strip (isspace U) t) < 100)%nat ->
  exists tupla st' evs,
    extraer_texto_con_ocr U E stream_pdf st = (inr tupla, st')
    /\ traza st' = traza st ++ evs
    /\ errores_proceso st' = errores_proceso st
    /\ ev_get_pixmap i 300 ∈ evs
    /\ ocr_invocado i evs
    /\ forall e, ocr_resultado E pagina = inl e ->
         ev_print (py "Advertencia: OCR fall" ++ [243] ++ py " en la p"
                   ++ [225] ++ py "gina " ++ str_of_nat (i + 1) ++ py ": "
                   ++ mensaje e) ∈ evs
         /\ (forall texto_completo st1,
               (paso_pagina U E texto_completo i pagina st1).1
               = inr (texto_completo ++ strip (isspace U) t ++ [10]))
         /\ forall ts,
              Forall2 (fun p t' => get_text p = inr t') (pages doc) ts ->
              close doc = inr tt ->
              let texto :=
                concat (zip_with (aporte_pagina U E)
                          (take i (pages doc)) (take i ts))
                ++ (strip (isspace U) t ++ [10])
                ++ concat (zip_with (aporte_pagina U E)
                             (drop (S i) (pages doc)) (drop (S i) ts)) in
              tupla = (Some texto, None)
              /\ forall file st0,
                   endswith (filename file) (py ".pdf") = true ->
                   file_read file = inr stream_pdf ->
                   exists st1,
                     procesar_archivo U E file st0 = (inr tt, st1)
                     /\ resultados_ok st1
                        = resultados_ok st0
                          ++ [<["Archivo"%string := filename file]>
                                (analizar_contrato U texto)]
                     /\ errores_proceso st1 = errores_proceso st0.
Proof.
  intros Hopen Hi Hantes Ht Hlen.
  destruct (bucle_pagina_corta U E (pages doc) i pagina t
              (con_eventos st [ev_fitz_open]) Hi Hantes Ht Hlen)
    as (r & evs & antes & st1 & Hrun & _ & Hpix & _ & Hfalla).
  destruct (extraer_de_bucle U E stream_pdf doc r evs st Hopen Hrun)
    as (fin & Hext & Hfin).
  eexists _, _, _. split; [exact Hext |]. split; [done |]. split; [done |].
  split; [en_traza |]. split.
  { exists (ev_get_pixmap i 300). split; [en_traza | done]. }
  intros e Hocr. destruct (Hfalla e Hocr) as [Hprint _].
  split; [| split].
  - change (py "Advertencia: OCR fall" ++ [243] ++ py " en la p"
            ++ [225] ++ py "gina " ++ str_of_nat (i + 1) ++ py ": "
            ++ mensaje e) with (advertencia i e).
    en_traza.
  - intros texto_completo st1'.
    destruct (paso_pagina_ocr_falla U E texto_completo i pagina t e st1'
                Ht Hlen Hocr) as (evs' & -> & _). done.
  - intros ts Hts Hclose texto.
    assert (Htexto : concat (zip_with (aporte_pagina U E) (pages doc) ts)
                     = texto).
    { destruct (aportes_en_pagina (aporte_pagina U E) (pages doc) ts i pagina
                  Hi Hts) as (t' & Ht' & ->).
      assert (t' = t) as -> by congruence.
      unfold texto. unfold aporte_pagina at 2. cbv zeta.
      by rewrite (proj2 (Nat.ltb_lt _ _) Hlen), Hocr. }
    split.
    + destruct (extraer_con_texto stream_pdf doc ts st Hopen Hts Hclose)
        as (evs' & Hext').
      rewrite Hext in Hext'. injection Hext' as -> _. by rewrite Htexto.
    + intros file st0 Hpdf Hread.
      apply (pdf_con_texto file stream_pdf texto st0 Hpdf Hread).
      intros st2. rewrite <- Htexto.
      by apply extraer_con_texto.
Qed.
End Umbral.

(** An instance of C1: the first page of [doc_mixto] has 120 letters;
    the second is short and its OCR fails, so it adds its direct text. *)
Lemma pagina_con_texto_sin_ocr_witness :
  (fitz_open entorno_prueba [Byte.x00; Byte.x01] = inr doc_mixto
   /\ pages doc_mixto !! 0%nat = Some pagina_larga
   /\ get_text pagina_larga = inr texto_largo
   /\ (100 <= length (strip (isspace latin1) texto_largo))%nat)
  /\ exists st' evs,
       extraer_texto_con_ocr latin1 entorno_prueba [Byte.x00; Byte.x01]
         estado_inicial
       = (inr (Some (replicate 120 97 ++ [10] ++ py "CONTRATO" ++ [10]),
               None), st')
       /\ traza st' = evs
       /\ ev_get_text 0 ∈ evs
       /\ ~ ocr_invocado 0 evs.
Proof.
  assert (Hlen : (100 <= length (strip (isspace latin1) texto_largo))%nat)
    by (vm_compute; lia).
  assert (Hts : Forall2 (fun p t' => get_text p = inr t') (pages doc_mixto)
                        [texto_largo; py " CONTRATO "])
    by repeat constructor.
  split; [by repeat split |].
  destruct (pagina_con_texto_sin_ocr latin1 entorno_prueba
              [Byte.x00; Byte.x01] doc_mixto 0 pagina_larga texto_largo
              estado_inicial eq_refl eq_refl eq_refl Hlen)
    as [(tupla & st' & evs & Hrun & Htraza & Hno & Hget & Htexto) _].
  rewrite (Htexto _ Hts eq_refl) in Hrun.
  exists st', evs. split; [exact Hrun |]. split; [exact Htraza |].
  split; [| exact Hno].
  apply Hget. constructor.
Defined.

(** An instance of C2: the second page of [doc_mixto] is short and
    tesseract is missing. *)
Lemma pagina_corta_con_ocr_witness :
  (fitz_open entorno_prueba [Byte.x00; Byte.x01] = inr doc_mixto
   /\ pages doc_mixto !! 1%nat = Some pagina_corta
   /\ Forall texto_directo_ok (take 1 (pages doc_mixto))
   /\ get_text pagina_corta = inr (py " CONTRATO ")
   /\ (length (strip (isspace latin1) (py " CONTRATO ")) < 100)%nat
   /\ ocr_resultado entorno_prueba pagina_corta
      = inl (Exception (py "tesseract is not installed")))
  /\ (exists st' evs,
        extraer_texto_con_ocr latin1 entorno_prueba [Byte.x00; Byte.x01]
          estado_inicial
        = (inr (Some (replicate 120 97 ++ [10] ++ py "CONTRATO" ++ [10]),
                None), st')
        /\ traza st' = evs
        /\ ev_get_pixmap 1 300 ∈ evs
        /\ ev_print (py "Advertencia: OCR fall" ++ [243] ++ py " en la p"
                     ++ [225] ++ py "gina 2: tesseract is not installed")
           ∈ evs)
  /\ exists st1 datos,
       procesar_archivo latin1 entorno_prueba
         (subida "b.pdf" [Byte.x00; Byte.x01]) estado_inicial
       = (inr tt, st1)
       /\ resultados_ok st1 = [datos]
       /\ errores_proceso st1 = [].
Proof.
  assert (Hantes : Forall texto_directo_ok (take 1 (pages doc_mixto))).
  { repeat constructor. by exists texto_largo. }
  assert (Hlen : (length (strip (isspace latin1) (py " CONTRATO ")) < 100)%nat)
    by (vm_compute; lia).
  assert (Hts : Forall2 (fun p t' => get_text p = inr t') (pages doc_mixto)
                        [texto_largo; py " CONTRATO "])
    by repeat constructor.
  split; [by repeat split |].
  destruct (pagina_corta_con_ocr latin1 entorno_prueba
              [Byte.x00; Byte.x01] doc_mixto 1 pagina_corta (py " CONTRATO ")
              estado_inicial eq_refl eq_refl Hantes eq_refl Hlen)
    as (tupla & st' & evs & Hrun & Htraza & _ & Hpix & _ & Hfalla).
  destruct (Hfalla (Exception (py "tesseract is not installed")) eq_refl)
    as (Hprint & _ & Htexto).
  destruct (Htexto _ Hts eq_refl) as [Htupla Hlote].
  split.
  - exists st', evs. rewrite Htupla in Hrun.
    split; [exact Hrun |]. split; [exact Htraza |].
    split; [exact Hpix | exact Hprint].
  - destruct (Hlote (subida "b.pdf" [Byte.x00; Byte.x01]) estado_inicial
                eq_refl eq_refl) as (st1 & Hproc & Hok & Herr).
    eexists st1, _. split; [exact Hproc |]. split; [exact Hok | exact Herr].
Defined.

End UmbralFacts.
